(** * lircd dispatcher: registry, routing, wire codec and reply parser

    A shallow embedding of the dispatcher sources (fd_list.cpp,
    lircd_commands.cpp, lircd.cpp, lircd_messages.cpp, reply_parser.cpp)
    and the properties of them that the specification states.

    Conventions of the embedding.
    - C [int] values are [Z].  The only arithmetic the modelled code does
      on them is a decrement of a positive counter, so no wrap-around can
      occur and none is written out.
    - A C string is a [string] without the terminating NUL; a [char*]
      that may be NULL is an [option string].
    - [std::vector<FdItem>] is a [list FdItem]; an iterator is the index of
      the element ([option nat], [None] being [end()]).
    - Writes to sockets are recorded, in order, in the [sent] log of the
      world; every write is taken to transfer all its bytes.
    - A call that writes past an array, reads past a block, reads the
      element of a vector that is not there or passes an object where
      [printf] expects a string has the outcome [Undefined].  Calls of the
      logging macros are not part of the embedding. *)

From Stdlib Require Import ZArith Ascii String List Lia Bool.
From Stdlib Require Import DecimalString.
From Stdlib Require DecimalZ.
From stdpp Require Import base list strings.

Local Open Scope Z_scope.

(** ** C string primitives *)

Module CStr.

Definition nl : ascii := "010"%char.
Definition cr : ascii := "013"%char.
Definition tab : ascii := "009"%char.
Definition vt : ascii := "011"%char.
Definition ff : ascii := "012"%char.
Definition sp : ascii := " "%char.

Definition NL : string := String nl "".

(** [strchr(set, c) != NULL] for a non-NUL [c]. *)
Fixpoint in_set (c : ascii) (set : string) : bool :=
  match set with
  | EmptyString => false
  | String d set' => Ascii.eqb c d || in_set c set'
  end.

(** The delimiter sets the sources use. *)
Definition WS_TNR : string := String sp (String tab (String nl (String cr ""))).
Definition WS_TRN : string := String sp (String tab (String cr (String nl ""))).
Definition WS_TN : string := String sp (String tab (String nl "")).

(** [isspace] in the C locale. *)
Definition isspace (c : ascii) : bool :=
  in_set c (String sp (String tab (String nl (String vt (String ff (String cr "")))))).

Fixpoint all_in (set s : string) : bool :=
  match s with
  | EmptyString => true
  | String c s' => in_set c set && all_in set s'
  end.

Fixpoint none_in (set s : string) : bool :=
  match s with
  | EmptyString => true
  | String c s' => negb (in_set c set) && none_in set s'
  end.

(** [s + strspn(s, set)] *)
Fixpoint skip_set (set s : string) : string :=
  match s with
  | EmptyString => EmptyString
  | String c s' => if in_set c set then skip_set set s' else s
  end.

(** Split at [strcspn(s, set)]: the run before the first member of [set],
    and the rest, which starts at that member. *)
Fixpoint span_until (set s : string) : string * string :=
  match s with
  | EmptyString => (EmptyString, EmptyString)
  | String c s' =>
      if in_set c set then (EmptyString, s)
      else let '(t, r) := span_until set s' in (String c t, r)
  end.

(** [strtok].  The hidden save pointer is made explicit: [strtok set s]
    scans [s] (the buffer of a first call, or the saved position of a
    call with NULL) and returns the token ([None] for NULL) and the new
    saved position.  The delimiter that ends the token is overwritten by
    NUL and the saved position is the character after it. *)
Definition strtok (set s : string) : option string * string :=
  match skip_set set s with
  | EmptyString => (None, EmptyString)
  | String c s1 =>
      let '(tok, r) := span_until set (String c s1) in
      (Some tok, match r with EmptyString => EmptyString | String _ r' => r' end)
  end.

(** [strncpy(dst, src, n)] into a buffer that is then read as a string:
    the first [n] characters of [src].  (When [src] is longer than the
    buffer the C buffer is left without terminator; the embedding keeps
    the prefix.) *)
Fixpoint strncpy (n : nat) (s : string) : string :=
  match n, s with
  | O, _ => EmptyString
  | _, EmptyString => EmptyString
  | S n', String c s' => String c (strncpy n' s')
  end.

(** Index of the last occurrence of [c], as [strrchr]. *)
Fixpoint strrchr (c : ascii) (s : string) : option nat :=
  match s with
  | EmptyString => None
  | String d s' =>
      match strrchr c s' with
      | Some i => Some (S i)
      | None => if Ascii.eqb d c then Some O else None
      end
  end.

(** [std::string::find_last_not_of(set)], [None] being [npos]. *)
Fixpoint find_last_not_of (set s : string) : option nat :=
  match s with
  | EmptyString => None
  | String c s' =>
      match find_last_not_of set s' with
      | Some i => Some (S i)
      | None => if in_set c set then None else Some O
      end
  end.

(** [s.substr(0, n)] *)
Definition prefix (n : nat) (s : string) : string := String.substring 0 n s.

Definition toupper (c : ascii) : ascii :=
  let n := nat_of_ascii c in
  if (97 <=? n)%nat && (n <=? 122)%nat then ascii_of_nat (n - 32) else c.

(** [strcasecmp(a, b) == 0] *)
Fixpoint strcaseeq (a b : string) : bool :=
  match a, b with
  | EmptyString, EmptyString => true
  | String x a', String y b' => Ascii.eqb (toupper x) (toupper y) && strcaseeq a' b'
  | _, _ => false
  end.

(** [printf("%d", z)] *)
Definition dec (z : Z) : string := NilEmpty.string_of_int (Z.to_int z).

Definition slen (s : string) : Z := Z.of_nat (String.length s).

End CStr.

Import CStr.

(** ** lircd_messages.cpp: [split_once] *)

(** [strtok] on a buffer that may lack its terminator: the token, the
    saved position, and whether the scan came to the end of [s], where a
    terminated buffer has its NUL. *)
Definition strtok_end (set s : string) : option string * string * bool :=
  match skip_set set s with
  | EmptyString => (None, EmptyString, true)
  | String c s1 =>
      let '(tok, r) := span_until set (String c s1) in
      match r with
      | EmptyString => (Some tok, EmptyString, true)
      | String _ r' => (Some tok, r', false)
      end
  end.

(** [split_once], over the delimiter set of its first [strtok]: the
    library version uses [" \t\r\n"], the one in the monolithic lircd.cpp
    [" \t\n"].  The block holds [strlen(str) + 2] bytes, of which
    [strncpy(buff, str, strlen(str))] writes the first [strlen(str)]: no
    terminator is stored.  [spare] is what the two bytes left unwritten
    happen to hold, read as a C string: [""] when the first of them is NUL,
    one character when the second is, two characters when neither is.  In
    that last case a scan that runs through both leaves the block, and the
    result is [None]. *)
Definition split_once_with (delims : string) (spare : string) (str : option string)
  : option (list string) :=
  match str with
  | None => Some []
  | Some EmptyString => Some []
  | Some s =>
      let buff := strncpy (String.length s) s +:+ strncpy 2 spare in
      let unterminated := (2 <=? String.length spare)%nat in
      let '(token, saved, at_end) := strtok_end delims buff in
      if at_end && unterminated then None
      else
        match token with
        | None => Some []
        | Some token =>
            if String.eqb token "" then Some []
            else
              let '(token2, _, at_end2) := strtok_end NL saved in
              if at_end2 && unterminated then None
              else
                match token2 with
                | None => Some [token]
                | Some token2 =>
                    if String.eqb token2 "" then Some [token] else Some [token; token2]
                end
        end
  end.

(** lib/lircd_messages.cpp *)
Definition split_once : string -> option string -> option (list string) :=
  split_once_with WS_TRN.

(** daemons/lircd.cpp *)
Definition split_once_lircd : string -> option string -> option (list string) :=
  split_once_with WS_TN.


(** ** The [scanf] conversions the sources use *)

Module Scan.

Fixpoint skip_space (s : string) : string :=
  match s with
  | EmptyString => EmptyString
  | String c s' => if isspace c then skip_space s' else s
  end.

(** At most [w] leading non-space characters, and what follows them. *)
Fixpoint take_nonspace (w : nat) (s : string) : string * string :=
  match w, s with
  | O, _ => (EmptyString, s)
  | _, EmptyString => (EmptyString, EmptyString)
  | S w', String c s' =>
      if isspace c then (EmptyString, s)
      else let '(t, r) := take_nonspace w' s' in (String c t, r)
  end.

(** ["%<w>s"]: skip white space, then store at most [w] non-space
    characters; fails when the input ends before a character is stored. *)
Definition scan_s (w : nat) (s : string) : option (string * string) :=
  match take_nonspace w (skip_space s) with
  | (EmptyString, _) => None
  | (t, r) => Some (t, r)
  end.

Definition digit_val (c : ascii) : option Z :=
  let n := nat_of_ascii c in
  if (48 <=? n)%nat && (n <=? 57)%nat then Some (Z.of_nat (n - 48)) else None.

Definition hexdigit_val (c : ascii) : option Z :=
  let n := nat_of_ascii c in
  if (48 <=? n)%nat && (n <=? 57)%nat then Some (Z.of_nat (n - 48))
  else if (97 <=? n)%nat && (n <=? 102)%nat then Some (Z.of_nat (n - 87))
  else if (65 <=? n)%nat && (n <=? 70)%nat then Some (Z.of_nat (n - 55))
  else None.

(** At most [w] leading digits in base [base]: their number, their value
    on top of [acc], and the rest. *)
Fixpoint take_digits (val : ascii -> option Z) (base : Z) (w : nat) (s : string)
    (cnt : nat) (acc : Z) : nat * Z * string :=
  match w, s with
  | O, _ => (cnt, acc, s)
  | _, EmptyString => (cnt, acc, s)
  | S w', String c s' =>
      match val c with
      | Some d => take_digits val base w' s' (S cnt) (base * acc + d)
      | None => (cnt, acc, s)
      end
  end.

(** Optional sign, which uses one character of the field width. *)
Definition take_sign (w : nat) (s : string) : bool * nat * string :=
  match w, s with
  | S w', String c s' =>
      if Ascii.eqb c "-" then (true, w', s')
      else if Ascii.eqb c "+" then (false, w', s')
      else (false, w, s)
  | _, _ => (false, w, s)
  end.

(** ["%<w>d"]: skip white space, optional sign, at least one digit, all
    within [w] characters. *)
Definition scan_d (w : nat) (s : string) : option (Z * string) :=
  let '(neg, w1, s1) := take_sign w (skip_space s) in
  let '(cnt, v, r) := take_digits digit_val 10 w1 s1 O 0 in
  match cnt with
  | O => None
  | _ => Some (if neg then - v else v, r)
  end.

(** ["%d"] without a width. *)
Definition scan_d_any (s : string) : option (Z * string) :=
  scan_d (String.length s) s.

(** ["%x"]: optional sign, optional [0x] prefix when a hexadecimal digit
    follows it, at least one digit; the number that was read. *)
Definition scan_x (s : string) : option (Z * string) :=
  let w := String.length s in
  let '(neg, w1, s1) := take_sign w (skip_space s) in
  let s2 :=
    match s1 with
    | String z (String x (String h t)) =>
        if Ascii.eqb z "0" && (Ascii.eqb x "x" || Ascii.eqb x "X")
           && match hexdigit_val h with Some _ => true | None => false end
        then String h t else s1
    | _ => s1
    end in
  let '(cnt, v, r) := take_digits hexdigit_val 16 w1 s2 O 0 in
  match cnt with
  | O => None
  | _ => Some (if neg then - v else v, r)
  end.

Definition hexchar (d : Z) : ascii :=
  if d <? 10 then ascii_of_nat (Z.to_nat d + 48) else ascii_of_nat (Z.to_nat d + 87).

(** The [n] low hexadecimal digits of [z], most significant first. *)
Fixpoint hex_fixed (n : nat) (z : Z) : string :=
  match n with
  | O => EmptyString
  | S n' => hex_fixed n' (z / 16) +:+ String (hexchar (z mod 16)) ""
  end.

Fixpoint drop_zeros (keep : nat) (s : string) : string :=
  match s with
  | String c s' =>
      if Ascii.eqb c "0" && (keep <? String.length s)%nat then drop_zeros keep s' else s
  | EmptyString => EmptyString
  end.

(** [printf("%0<w>x", z)] for a 32-bit unsigned [z]. *)
Definition hex_pad (w : nat) (z : Z) : string :=
  let digits := drop_zeros (Nat.max 1 w) (hex_fixed 8 (z mod 2 ^ 32)) in
  String.concat "" (repeat "0"%string (w - String.length digits)) +:+ digits.

End Scan.

(** ** lircd_messages.cpp: the wire codec *)

Definition PACKET_SIZE : nat := 256.

Definition P_BEGIN : string := "BEGIN" +:+ NL.
Definition P_DATA : string := "DATA" +:+ NL.
Definition P_END : string := "END" +:+ NL.
Definition P_ERROR : string := "ERROR" +:+ NL.
Definition P_SUCCESS : string := "SUCCESS" +:+ NL.
Definition P_SIGHUP : string := "SIGHUP" +:+ NL.

(** [count_newlines(s)] with the default [maxsize]. *)
Fixpoint count_newlines (s : string) : Z :=
  match s with
  | EmptyString => 0
  | String c s' => (if Ascii.eqb c nl then 1 else 0) + count_newlines s'
  end.

(** Cuts the buffer at its last newline, wherever that is. *)
Definition strip_trailing_nl (buff : string) : string :=
  match strrchr nl buff with
  | Some i => prefix i buff
  | None => buff
  end.

(** The text [send_success(fd, message)] writes. *)
Definition success_packet (message : string) : string :=
  P_BEGIN +:+ message +:+ P_SUCCESS +:+ P_END.

(** The text [send_success(fd, message, data)] writes.  [buff] has 128
    bytes; the newline of [message] is dropped only when it is its last
    character.  [strncpy(buff, message, 127)] stores a terminator only for
    a message of at most 126 characters ([send_success_data_fits]); the
    text is the one written in that case. *)
Definition success_data_packet (message data : string) : string :=
  let buff := strncpy 127 message in
  let buff :=
    match strrchr nl buff with
    | Some i => if (S i =? String.length buff)%nat then prefix i buff else buff
    | None => buff
    end in
  let line_count := strncpy 31 (dec (count_newlines data) +:+ NL) in
  P_BEGIN +:+ buff +:+ NL +:+ P_SUCCESS +:+ P_DATA +:+ line_count +:+ data +:+ P_END.

(** The text [send_error(fd, message_arg, format_str, ...)] writes, for
    the text [formatted] that [vsprintf] leaves in [buffer].  [lines] has
    4 bytes, so [snprintf] keeps three characters of the count line.
    [message] and [buffer] have 257 bytes each: the text is the one written
    when both strings have at most 256 characters ([send_error_fits]). *)
Definition error_packet (message_arg formatted : string) : string :=
  let message := strip_trailing_nl (strncpy (S PACKET_SIZE) message_arg) in
  let buffer := strip_trailing_nl formatted in
  let n := count_newlines buffer + 1 in
  let lines := strncpy 3 (dec n +:+ NL) in
  P_BEGIN +:+ message +:+ NL +:+ P_ERROR +:+ P_DATA +:+ lines
    +:+ buffer +:+ NL +:+ P_END.

Definition sighup_packet : string := P_BEGIN +:+ P_SIGHUP +:+ P_END.

(** [send_success(fd, message, data)] stays within [buff[128]]:
    [strncpy(buff, message, 127)] leaves [buff] without terminator for a
    message of 127 characters or more. *)
Definition send_success_data_fits (message : string) : bool :=
  (String.length message <? 127)%nat.

(** [send_error] stays within [message[257]] and [buffer[257]]:
    [strncpy(message, message_arg, 257)] stores no terminator for 257
    characters or more, and [vsprintf] writes the formatted text and its
    terminator whatever their length. *)
Definition send_error_fits (message_arg formatted : string) : bool :=
  (String.length message_arg <=? PACKET_SIZE)%nat
  && (String.length formatted <=? PACKET_SIZE)%nat.

(** ** reply_parser.cpp *)

Module ReplyParser.

Inductive states :=
  BEGIN | COMMAND | RESULT | DATA | LINE_COUNT | LINES | END | DONE | NO_DATA | BAD_DATA.

Inductive Result := OK | FAIL | CANT_PARSE | TIMEOUT | INCOMPLETE.

Record t := mk {
  state : states;
  command : string;
  lines : string;
  last_line : string;
  line_count : Z;
  success : bool
}.

(** [reset()].  The statement [lines == ""] of the source is a comparison,
    not an assignment: [lines] and [line_count] keep their values. *)
Definition reset (p : t) : t :=
  {| state := BEGIN; command := ""; lines := lines p; last_line := "";
     line_count := line_count p; success := false |}.

(** The constructor: default-initialised members, then [reset()].  The
    source leaves [line_count] uninitialised; it is read only after
    [LINE_COUNT] has stored a value, and starts at 0 here. *)
Definition new : t :=
  reset {| state := BEGIN; command := ""; lines := ""; last_line := "";
           line_count := 0; success := false |}.

Definition states_eqb (a b : states) : bool :=
  match a, b with
  | BEGIN, BEGIN | COMMAND, COMMAND | RESULT, RESULT | DATA, DATA
  | LINE_COUNT, LINE_COUNT | LINES, LINES | END, END | DONE, DONE
  | NO_DATA, NO_DATA | BAD_DATA, BAD_DATA => true
  | _, _ => false
  end.

(** The first statements of [feed]: trailing white space is cut unless
    the line holds nothing else. *)
Definition trim_input (line : string) : string :=
  match find_last_not_of WS_TNR line with
  | Some endpos => prefix (S endpos) line
  | None => line
  end.

Definition feed (line : string) (p : t) : t :=
  let input := trim_input line in
  let p := {| state := state p; command := command p; lines := lines p;
              last_line := input; line_count := line_count p; success := success p |} in
  let with_state st :=
    {| state := st; command := command p; lines := lines p;
       last_line := last_line p; line_count := line_count p; success := success p |} in
  match state p with
  | BEGIN => with_state (if String.eqb input "BEGIN" then COMMAND else BAD_DATA)
  | COMMAND =>
      if negb (String.eqb input "") then
        {| state := RESULT; command := input; lines := lines p;
           last_line := last_line p; line_count := line_count p; success := success p |}
      else with_state BAD_DATA
  | RESULT =>
      if String.eqb input "SUCCESS" || String.eqb input "ERROR" then
        {| state := DATA; command := command p; lines := lines p;
           last_line := last_line p; line_count := line_count p;
           success := String.eqb input "SUCCESS" |}
      else with_state BAD_DATA
  | DATA =>
      if String.eqb input "DATA" then with_state LINE_COUNT
      else with_state (if String.eqb input "END" then DONE else BAD_DATA)
  | LINE_COUNT =>
      match Scan.scan_d 2 input with
      | None => with_state BAD_DATA
      | Some (n, _) =>
          {| state := LINES; command := command p; lines := lines p;
             last_line := last_line p; line_count := n; success := success p |}
      end
  | LINES =>
      let lc := line_count p - 1 in
      let nonempty := negb (String.eqb input "") in
      let ls := if nonempty then lines p +:+ input +:+ NL else lines p in
      let st := if nonempty then LINES else BAD_DATA in
      let st := if lc <=? 0 then END else st in
      {| state := st; command := command p; lines := ls;
         last_line := last_line p; line_count := lc; success := success p |}
  | END => with_state (if String.eqb input "END" then DONE else BAD_DATA)
  | DONE | NO_DATA | BAD_DATA => p
  end.

Definition is_completed (p : t) : bool :=
  match state p with
  | DONE | NO_DATA | BAD_DATA => true
  | _ => false
  end.

Definition get_result (p : t) : Result :=
  match state p with
  | DONE => if success p then OK else FAIL
  | BAD_DATA => CANT_PARSE
  | NO_DATA => TIMEOUT
  | _ => INCOMPLETE
  end.

Definition get_command (p : t) : string := command p.
Definition get_data (p : t) : string := lines p.
Definition get_success (p : t) : bool := success p.
Definition get_last_line (p : t) : string := last_line p.

Definition feed_all (ls : list string) (p : t) : t :=
  fold_left (fun q l => feed l q) ls p.

End ReplyParser.

(** Modelled from the spec: the LineBuffer (line_buffer.h is not among the
    sources).  It "yields complete lines terminated by [\n]"; a trailing
    [\r] is stripped.  [next_lines keep s] are the complete lines of [s]
    in order, with their newline when [keep] is set and without it
    otherwise; an unterminated tail stays in the buffer. *)
Fixpoint strip_cr (s : string) : string :=
  match s with
  | EmptyString => EmptyString
  | String c EmptyString => if Ascii.eqb c cr then EmptyString else s
  | String c s' => String c (strip_cr s')
  end.

(** The complete lines of [s], without their newline. *)
Fixpoint raw_lines (s : string) : list string :=
  match s with
  | EmptyString => []
  | String c s' =>
      if Ascii.eqb c nl then EmptyString :: raw_lines s'
      else match raw_lines s' with
           | [] => []
           | l :: ls => String c l :: ls
           end
  end.

Definition next_lines (keep : bool) (s : string) : list string :=
  map (fun l => strip_cr l +:+ (if keep then NL else "")) (raw_lines s).

(** ** fd_list.h, fd_list.cpp: the registry *)

Inductive fd_kind :=
  | CLIENT | BACKEND | CTRL | BACKEND_DATA | BACKEND_CMD
  | CLIENT_STREAM | CTRL_STREAM | UNDEFINED.

Definition fd_kind_eqb (a b : fd_kind) : bool :=
  match a, b with
  | CLIENT, CLIENT | BACKEND, BACKEND | CTRL, CTRL | BACKEND_DATA, BACKEND_DATA
  | BACKEND_CMD, BACKEND_CMD | CLIENT_STREAM, CLIENT_STREAM
  | CTRL_STREAM, CTRL_STREAM | UNDEFINED, UNDEFINED => true
  | _, _ => false
  end.

(** [FdItem].  The record owns its reply parser: every registry record
    is built by [init], which allocates one, and the handlers reach the
    parser through the registry record only.  The line buffer is left to
    [get_line], which receives the lines. *)
Record FdItem := mkFdItem {
  kind : fd_kind;
  fd : Z;
  connected_to : Z;
  peer : Z;
  pid : Z;
  id : string;
  replyParser : ReplyParser.t;
  expected : string;
  ticks : Z
}.

Definition set_connected_to (v : Z) (it : FdItem) : FdItem :=
  mkFdItem (kind it) (fd it) v (peer it) (pid it) (id it) (replyParser it)
           (expected it) (ticks it).

Definition set_peer (v : Z) (it : FdItem) : FdItem :=
  mkFdItem (kind it) (fd it) (connected_to it) v (pid it) (id it) (replyParser it)
           (expected it) (ticks it).

Definition set_id (v : string) (it : FdItem) : FdItem :=
  mkFdItem (kind it) (fd it) (connected_to it) (peer it) (pid it) v (replyParser it)
           (expected it) (ticks it).

Definition set_replyParser (v : ReplyParser.t) (it : FdItem) : FdItem :=
  mkFdItem (kind it) (fd it) (connected_to it) (peer it) (pid it) (id it) v
           (expected it) (ticks it).

Definition set_expected (v : string) (it : FdItem) : FdItem :=
  mkFdItem (kind it) (fd it) (connected_to it) (peer it) (pid it) (id it)
           (replyParser it) v (ticks it).

Definition set_ticks (v : Z) (it : FdItem) : FdItem :=
  mkFdItem (kind it) (fd it) (connected_to it) (peer it) (pid it) (id it)
           (replyParser it) (expected it) v.

(** [init(item)] *)
Definition init : FdItem :=
  {| fd := -1; kind := UNDEFINED; pid := 0; peer := -1; connected_to := -1;
     replyParser := ReplyParser.new; id := "undef"; expected := "NONE"; ticks := -1 |}.

(** [FdItem(fd, kind, pid = -1)] *)
Definition new_item (f : Z) (k : fd_kind) (p : Z) : FdItem :=
  mkFdItem k f (connected_to init) (peer init) p (id init) (replyParser init)
           (expected init) (ticks init).

Module FdList.

(** [FdList(client_fd, backend_fd, ctrl_fd)] *)
Definition make (client_fd backend_fd ctrl_fd : Z) : list FdItem :=
  [new_item client_fd CLIENT (-1); new_item backend_fd BACKEND (-1);
   new_item ctrl_fd CTRL (-1)].

(** [find(what, cond)]: the first element satisfying [cond], [None] for
    [end()]. *)
Fixpoint find (cond : FdItem -> bool) (l : list FdItem) : option nat :=
  match l with
  | [] => None
  | x :: l' => if cond x then Some O else option_map S (find cond l')
  end.

Definition item_fd_equals (what : Z) (item : FdItem) : bool := fd item =? what.

Definition find_fd (what : Z) (l : list FdItem) : option nat :=
  find (item_fd_equals what) l.

Definition add_backend (cmd_fd data_fd : Z) (l : list FdItem) : list FdItem :=
  let data_item := set_peer cmd_fd (new_item data_fd BACKEND_DATA (-1)) in
  let l := l ++ [data_item] in
  let cmd_item := set_peer data_fd (new_item cmd_fd BACKEND_CMD (-1)) in
  l ++ [cmd_item].

Definition add_client (client_fd : Z) (l : list FdItem) : list FdItem :=
  l ++ [new_item client_fd CLIENT_STREAM (-1)].

Definition add_ctrl_client (client_fd : Z) (l : list FdItem) : list FdItem :=
  l ++ [new_item client_fd CTRL_STREAM (-1)].

(** [remove_client(fd)]: the iterator it returns and the list after the
    erase.  [erase(it)] returns the iterator to the element that followed
    the erased one, which is [end()] when the erased record was the last;
    an fd that is not found gives [end()] as well. *)
Definition remove_client (f : Z) (l : list FdItem) : option nat * list FdItem :=
  match find_fd f l with
  | None => (None, l)
  | Some i =>
      let l' := delete i l in
      (if (i <? length l')%nat then Some i else None, l')
  end.

(** [remove_backend(fd)].  [erase(pi)] invalidates every iterator at or
    after [pi]; when the peer precedes the record the following
    [erase(it)] uses an invalidated iterator, and the result is [None]. *)
Definition remove_backend (f : Z) (l : list FdItem) : option (bool * list FdItem) :=
  match find_fd f l with
  | None => Some (false, l)
  | Some it =>
      match l !! it with
      | None => Some (false, l)
      | Some x =>
          if negb (peer x =? -1) then
            match find_fd (peer x) l with
            | None => Some (false, l)
            | Some pi =>
                if (pi <=? it)%nat then None
                else Some (true, delete it (delete pi l))
            end
          else Some (true, delete it l)
      end
  end.

End FdList.

(** ** The state of the dispatcher *)

(** What the handlers read from their environment: the options, the
    [VERSION] macro, which files [fopen(_, "w")] can open and the [errno]
    it leaves otherwise, and what the two unwritten bytes of the block of
    [split_once] hold when it copies the string [s] ([spare_bytes s], see
    [split_once_with]). *)
Record Env := mkEnv {
  client_socket_path : string;
  VERSION : string;
  fopen_ok : string -> bool;
  fopen_errno : Z;
  spare_bytes : string -> string
}.

Record World := mkWorld {
  env : Env;
  fdList : list FdItem;
  default_backend : Z;
  sent : list (Z * string);
  unlinked : list string;
  inputlog : option string
}.

Definition set_fdList (l : list FdItem) (w : World) : World :=
  mkWorld (env w) l (default_backend w) (sent w) (unlinked w) (inputlog w).

Definition upd_fdList (f : list FdItem -> list FdItem) (w : World) : World :=
  set_fdList (f (fdList w)) w.

(** [commands_set_backend(fd)] *)
Definition commands_set_backend (f : Z) (w : World) : World :=
  mkWorld (env w) (fdList w) f (sent w) (unlinked w) (inputlog w).

Definition commands_get_backend (w : World) : Z := default_backend w.

(** [commands_init(fdListArg)] *)
Definition commands_init (e : Env) (l : list FdItem) : World :=
  mkWorld e l (-1) [] [] None.

(** [write_socket(fd, buf, len)] with [len = strlen(buf)] *)
Definition write_socket (f : Z) (buf : string) (w : World) : World :=
  mkWorld (env w) (fdList w) (default_backend w) (sent w ++ [(f, buf)])
          (unlinked w) (inputlog w).

Definition unlink (path : string) (w : World) : World :=
  mkWorld (env w) (fdList w) (default_backend w) (sent w) (unlinked w ++ [path])
          (inputlog w).

Definition rec_buffer_set_logfile (f : option string) (w : World) : World :=
  mkWorld (env w) (fdList w) (default_backend w) (sent w) (unlinked w) f.

Definition send_success (f : Z) (message : string) (w : World) : World :=
  write_socket f (success_packet message) w.

Definition send_success_data (f : Z) (message data : string) (w : World) : World :=
  write_socket f (success_data_packet message data) w.

Definition send_error (f : Z) (message formatted : string) (w : World) : World :=
  write_socket f (error_packet message formatted) w.

(** ** lircd_commands.cpp: routing *)

Definition COMMAND_TIMEOUT_TICKS : Z := 20.

Definition connect_fds_list (client_fd backend_fd : Z) (l : list FdItem)
  : bool * list FdItem :=
  match FdList.find_fd backend_fd l with
  | None => (false, l)
  | Some backend =>
      if client_fd =? 0 then (true, alter (set_connected_to 0) backend l)
      else
        let client := FdList.find_fd client_fd l in
        let l := alter (set_connected_to client_fd) backend l in
        match client with
        | None => (false, l)
        | Some client =>
            let l := alter (set_connected_to backend_fd) client l in
            let l := alter (set_ticks COMMAND_TIMEOUT_TICKS) client l in
            (true, l)
        end
  end.

Definition disconnect_fds_list (f : Z) (l : list FdItem) : bool * list FdItem :=
  match FdList.find_fd f l with
  | None => (false, l)
  | Some me =>
      match l !! me with
      | None => (false, l)
      | Some m =>
          if connected_to m =? 0 then (true, alter (set_connected_to (-1)) me l)
          else
            let l := alter (set_ticks (-1)) me l in
            if connected_to m =? -1 then (false, l)
            else
              let other := FdList.find_fd (connected_to m) l in
              let l := alter (set_connected_to (-1)) me l in
              match other with
              | None => (false, l)
              | Some other =>
                  let l := alter (set_connected_to (-1)) other l in
                  let l := alter (set_ticks (-1)) other l in
                  (true, l)
              end
      end
  end.

Definition connect_fds (client_fd backend_fd : Z) (w : World) : bool * World :=
  let '(r, l) := connect_fds_list client_fd backend_fd (fdList w) in (r, set_fdList l w).

Definition disconnect_fds (f : Z) (w : World) : bool * World :=
  let '(r, l) := disconnect_fds_list f (fdList w) in (r, set_fdList l w).

(** ** lircd_commands.cpp: the command handlers *)

(** What a call leaves behind: it returns [r] in world [w], or it reaches
    an operation the language leaves undefined in world [w]: an element
    access past the end of a vector, a NULL string, a write past the end
    of an array, a scan that leaves its block, a number that does not fit
    its object, or a [std::vector], [std::string] or iterator passed to
    [send_error] for a [%s] conversion. *)
Inductive outcome (A : Type) :=
  | Returned (r : A) (w : World)
  | Undefined (w : World).
Arguments Returned {A} r w.
Arguments Undefined {A} w.

Definition world_of {A} (o : outcome A) : World :=
  match o with Returned _ w => w | Undefined w => w end.

Definition fd_at (w : World) (it : nat) : Z :=
  match fdList w !! it with Some x => fd x | None => -1 end.

(** [send_error] where the caller's strings decide whether the two
    buffers hold them. *)
Definition send_error_checked {A : Type} (r : A) (f : Z) (message formatted : string)
    (w : World) : outcome A :=
  if send_error_fits message formatted then Returned r (send_error f message formatted w)
  else Undefined w.

(** [send_success(fd, message, data)] likewise. *)
Definition send_success_data_checked {A : Type} (r : A) (f : Z) (message data : string)
    (w : World) : outcome A :=
  if send_success_data_fits message then Returned r (send_success_data f message data w)
  else Undefined w.

(** [split_once(str)] as a handler calls it, in the block the environment
    gives it. *)
Definition split_once_in (w : World) (str : option string) : option (list string) :=
  split_once (match str with Some s => spare_bytes (env w) s | None => "" end) str.

(** [Simvalues::parse]:
    [sscanf(input, "%64s %32s %d %x", remote, keysym, &repeat, &scancode) == 4].
    The result is [None] when a conversion leaves its object: 64
    characters stored by ["%64s"] take 65 bytes of [remote[64]], 32
    characters stored by ["%32s"] take 33 bytes of [keysym[32]], and a
    number outside the range of [int] (for ["%d"]) or of [unsigned int]
    (for ["%x"]) cannot be stored.  [repeat] is held as [unsigned int]. *)
Definition Simvalues_parse (input : string) : option (option (string * string * Z * Z)) :=
  match Scan.scan_s 64 input with
  | None => Some None
  | Some (remote, r1) =>
      if (String.length remote =? 64)%nat then None
      else
        match Scan.scan_s 32 r1 with
        | None => Some None
        | Some (keysym, r2) =>
            if (String.length keysym =? 32)%nat then None
            else
              match Scan.scan_d_any r2 with
              | None => Some None
              | Some (repeat, r3) =>
                  if negb ((- 2 ^ 31 <=? repeat) && (repeat <? 2 ^ 31)) then None
                  else
                    match Scan.scan_x r3 with
                    | None => Some None
                    | Some (scancode, _) =>
                        if negb ((0 <=? scancode) && (scancode <? 2 ^ 32)) then None
                        else Some (Some (remote, keysym, repeat mod 2 ^ 32, scancode))
                    end
              end
        end
  end.

Definition Simvalues_to_string (v : string * string * Z * Z) : string :=
  let '(remote, keysym, repeat, scancode) := v in
  strncpy 254 (Scan.hex_pad 16 scancode +:+ " " +:+ Scan.hex_pad 2 repeat +:+ " "
               +:+ keysym +:+ " " +:+ remote).

Definition find_backend_by_id (what : string) (item : FdItem) : bool :=
  String.eqb what (id item).

(** [setup_backend_cmd]: the iterator it returns.  Each of its three
    calls of [send_error] passes an object for the [%s] of its format: the
    vector [args] (twice) and the iterator [backend]. *)
Definition setup_backend_cmd (f : Z) (args : list string) (msg : string)
    (argcount : nat) (w : World) : outcome (option nat) :=
  if (argcount =? 0)%nat && (length args <? 1)%nat then Undefined w
  else if negb (argcount =? 0)%nat && negb (length args =? argcount)%nat then Undefined w
  else
    match args !! O with
    | None => Undefined w
    | Some a0 =>
        match FdList.find (find_backend_by_id a0) (fdList w) with
        | None => Undefined w
        | Some backend =>
            Returned (Some backend) (snd (connect_fds f (fd_at w backend) w))
        end
    end.

(** The first statements the routed handlers share: both calls of
    [split_once], [setup_backend_cmd], the test of its result against
    [end()] and [backend->expected = commands[0]].  [body] is what the
    handler goes on with. *)
Definition with_backend (f : Z) (msg : string) (args : option string) (argcount : nat)
    (w : World)
    (body : string -> list string -> nat -> World -> outcome Z) : outcome Z :=
  match split_once_in w (Some msg) with
  | None => Undefined w
  | Some commands =>
      match split_once_in w args with
      | None => Undefined w
      | Some arguments =>
          match setup_backend_cmd f arguments msg argcount w with
          | Undefined w => Undefined w
          | Returned None w => Returned 0 w
          | Returned (Some backend) w =>
              match commands !! O with
              | None => Undefined w
              | Some c0 =>
                  body c0 arguments backend
                       (upd_fdList (alter (set_expected c0) backend) w)
              end
          end
      end
  end.

Definition version_cmd (f : Z) (message : string) (arguments : option string)
    (w : World) : outcome Z :=
  let buffer := strncpy PACKET_SIZE ("1" +:+ NL +:+ VERSION (env w) +:+ NL) in
  send_success_data_checked (slen (success_data_packet message buffer)) f message buffer w.

Definition simulate_cmd (f : Z) (msg : string) (args : option string)
    (w : World) : outcome Z :=
  with_backend f msg args 2 w (fun c0 arguments backend w =>
    match arguments !! 1%nat with
    | None => Undefined w
    | Some a1 =>
        match Simvalues_parse a1 with
        | None => Undefined w
        | Some None => Undefined w
        | Some (Some simvalues) =>
            match FdList.find_fd f (fdList w) with
            | None => send_error_checked 0 f msg "Internal error: send_cmd: bad fd" w
            | Some client =>
                let c0 := c0 +:+ " " +:+ Simvalues_to_string simvalues +:+ NL in
                Returned 1 (write_socket (fd_at w backend) c0 w)
            end
        end
    end).

Definition get_default_backend_cmd (f : Z) (msg : string) (args : option string)
    (w : World) : outcome Z :=
  if default_backend w =? -1 then
    Returned 1 (send_error f "GET_DEFAULT_BACKEND" "None" w)
  else
    match FdList.find_fd (default_backend w) (fdList w) with
    | None => Returned 1 (send_error f "GET_DEFAULT_BACKEND" "Internal error" w)
    | Some it =>
        match fdList w !! it with
        | None => Returned 1 w
        | Some x => Returned 1 (send_success_data f "GET_DEFAULT_BACKEND" (id x +:+ NL) w)
        end
    end.

Definition list_backends_cmd (f : Z) (msg : string) (args : option string)
    (w : World) : outcome Z :=
  let backends :=
    fold_left (fun acc it =>
                 if fd_kind_eqb (kind it) BACKEND_CMD then acc +:+ id it +:+ NL else acc)
              (fdList w) "" in
  send_success_data_checked 1 f msg backends w.

Definition list_remotes_cmd (f : Z) (msg : string) (args : option string)
    (w : World) : outcome Z :=
  with_backend f msg args 1 w (fun c0 arguments backend w =>
    match FdList.find_fd f (fdList w) with
    | None => send_error_checked 0 f msg "Internal error: send_cmd: bad fd" w
    | Some client =>
        let c0 := c0 +:+ NL in
        Returned 1 (write_socket (fd_at w backend) c0 w)
    end).

Definition list_codes_cmd (f : Z) (msg : string) (args : option string)
    (w : World) : outcome Z :=
  with_backend f msg args 2 w (fun c0 arguments backend w =>
    match FdList.find_fd f (fdList w) with
    | None => send_error_checked 0 f msg "Internal error: send_cmd: bad fd" w
    | Some client =>
        match arguments !! 1%nat with
        | None => Undefined w
        | Some a1 =>
            let c0 := c0 +:+ " " +:+ a1 +:+ NL in
            Returned 1 (write_socket (fd_at w backend) c0 w)
        end
    end).

(** [new_backend.erase(new_backend.find_last_not_of(" \n\r\t") + 1)];
    [npos + 1] is 0. *)
Definition erase_trailing_ws (s : string) : string :=
  match find_last_not_of WS_TNR s with
  | Some i => prefix (S i) s
  | None => EmptyString
  end.

Definition set_default_backend_cmd (f : Z) (msg : string) (args : option string)
    (w : World) : outcome Z :=
  match args with
  | None => Undefined w
  | Some a =>
      let new_backend := erase_trailing_ws a in
      match FdList.find (fun it => String.eqb (id it) new_backend) (fdList w) with
      | None => send_error_checked 0 f msg ("No such backend: " +:+ a +:+ NL) w
      | Some it =>
          let w := commands_set_backend (fd_at w it) w in
          Returned 1 (send_success f msg w)
      end
  end.

(** ["%128s"] stores up to 128 characters and a terminator in [buff[128]]. *)
Definition set_inputlog_cmd (f : Z) (message : string) (arguments : option string)
    (w : World) : outcome Z :=
  match arguments with
  | None => Undefined w
  | Some a =>
      match Scan.scan_s 128 a with
      | None =>
          let text := "Illegal argument (protocol error): " +:+ a in
          send_error_checked (slen (error_packet message text)) f message text w
      | Some (buff, _) =>
          if (String.length buff =? 128)%nat then Undefined w
          else if strcaseeq buff "null" then
            let w := rec_buffer_set_logfile None w in
            Returned (slen (success_packet message)) (send_success f message w)
          else if negb (fopen_ok (env w) buff) then
            let text := "Cannot open input logfile: " +:+ buff +:+ " (errno: "
                        +:+ dec (fopen_errno (env w)) +:+ ")" in
            send_error_checked (slen (error_packet message text)) f message text w
          else
            let w := rec_buffer_set_logfile (Some buff) w in
            Returned (slen (success_packet message)) (send_success f message w)
      end
  end.

Definition stop_backend_cmd (f : Z) (msg : string) (argstring : option string)
    (w : World) : outcome Z :=
  with_backend f msg argstring 1 w (fun c0 arguments backend w =>
    match FdList.find_fd f (fdList w) with
    | None => send_error_checked 0 f msg "Internal error: stop_backend_cmd: bad fd" w
    | Some client =>
        let c0 := c0 +:+ NL in
        Returned 1 (write_socket (fd_at w backend) c0 w)
    end).

Definition send_cmd (f : Z) (msg : string) (argument : option string)
    (w : World) : outcome Z :=
  with_backend f msg argument 2 w (fun c0 arguments backend w =>
    match FdList.find_fd f (fdList w) with
    | None => send_error_checked 0 f msg "Internal error: send_cmd: bad fd" w
    | Some client =>
        match arguments !! 1%nat with
        | None => Undefined w
        | Some a1 =>
            let c0 := c0 +:+ " " +:+ a1 +:+ NL in
            Returned 1 (write_socket (fd_at w backend) c0 w)
        end
    end).

Definition send_once_cmd := send_cmd.
Definition send_start_cmd := send_cmd.
Definition send_stop_cmd := send_cmd.

Definition set_transmitters_cmd (f : Z) (msg : string) (args : option string)
    (w : World) : outcome Z :=
  with_backend f msg args 0 w (fun c0 arguments backend w =>
    match FdList.find_fd f (fdList w) with
    | None => send_error_checked 0 f msg "Internal error: set_transmitters: bad fd" w
    | Some client =>
        match arguments !! 1%nat with
        | None => Undefined w
        | Some a1 =>
            let c0 := c0 +:+ " " +:+ a1 +:+ NL in
            Returned 1 (write_socket (fd_at w backend) c0 w)
        end
    end).

Definition handler := Z -> string -> option string -> World -> outcome Z.

Definition directives : list (string * handler) :=
  [ ("LIST_BACKENDS", list_backends_cmd);
    ("STOP_BACKEND", stop_backend_cmd);
    ("SET_DEFAULT_BACKEND", set_default_backend_cmd);
    ("GET_DEFAULT_BACKEND", get_default_backend_cmd);
    ("SET-INPUTLOG", set_inputlog_cmd);
    ("SEND_ONCE", send_once_cmd);
    ("SEND_START", send_start_cmd);
    ("SEND_STOP", send_stop_cmd);
    ("LIST_REMOTES", list_remotes_cmd);
    ("LIST_CODES", list_codes_cmd);
    ("VERSION", version_cmd);
    ("SIMULATE", simulate_cmd);
    ("SET_TRANSMITTERS", set_transmitters_cmd) ].

(** The lookup loop of [handle_ctrl_cmd]. *)
Fixpoint lookup_directive (directive : string) (table : list (string * handler))
  : option handler :=
  match table with
  | [] => None
  | (name, function) :: table' =>
      if strcaseeq directive name then Some function
      else lookup_directive directive table'
  end.

(** [get_line]: [input] is what [read_timeout] delivered, split in lines
    by the line buffer ([None] when the read failed). *)
Fixpoint handle_lines (line_handler : string -> Z -> World -> outcome bool)
    (lines : list string) (f : Z) (w : World) : outcome bool :=
  match lines with
  | [] => Returned true w
  | line :: lines' =>
      match line_handler line f w with
      | Returned true w' => handle_lines line_handler lines' f w'
      | Returned false w' => Returned false w'
      | Undefined w' => Undefined w'
      end
  end.

Definition get_line (f : Z) (input : option (list string))
    (line_handler : string -> Z -> World -> outcome bool) (w : World) : outcome bool :=
  match input with
  | None => Returned false w
  | Some lines => handle_lines line_handler lines f w
  end.

(** [broadcast_message(message, fd)]; with every write complete no client
    is dropped. *)
Definition broadcast_message (message : string) (f : Z) (w : World) : outcome bool :=
  let fds :=
    fold_right (fun it acc =>
                  if negb (fd_kind_eqb (kind it) CLIENT_STREAM) then acc
                  else if negb (connected_to it =? -1) then acc
                  else fd it :: acc) [] (fdList w) in
  Returned true (fold_left (fun w c => write_socket c message w) fds w).

(** ** lircd.cpp: the dispatcher *)

Definition is_stream (k : fd_kind) : bool :=
  fd_kind_eqb k CLIENT_STREAM || fd_kind_eqb k CTRL_STREAM.

(** The body of the loop of [dosigalrm] at position [i]. *)
Definition dosigalrm_step (w : World) (i : nat) : World :=
  match fdList w !! i with
  | None => w
  | Some it =>
      if negb (is_stream (kind it)) then w
      else if ticks it <=? 0 then w
      else
        let w := upd_fdList (alter (set_ticks (ticks it - 1)) i) w in
        if ticks it - 1 >? 0 then w
        else
          let w := send_error (fd it) (expected it) "TIMEOUT" w in
          let w := snd (disconnect_fds (fd it) w) in
          upd_fdList (alter (set_ticks (-1)) i) w
  end.

Definition dosigalrm (w : World) : World :=
  fold_left dosigalrm_step (seq 0 (length (fdList w))) w.

(** [connect_peers(client_fd, backend_fd)] *)
Definition connect_peers (client_fd backend_fd : Z) (w : World) : World :=
  match FdList.find_fd backend_fd (fdList w) with
  | None => w
  | Some backend =>
      let w := upd_fdList (alter (set_peer client_fd) backend) w in
      if client_fd =? 0 then w
      else
        match FdList.find_fd client_fd (fdList w) with
        | None => w
        | Some client => upd_fdList (alter (set_peer backend_fd) client) w
        end
  end.

(** [get_backend_data_path(fd, &path)]; [buff] has 128 bytes. *)
Definition get_backend_data_path (f : Z) (w : World) : string :=
  strncpy 127 (client_socket_path (env w) +:+ "-data-" +:+ dec f).

Definition find_backend_by_type (item : FdItem) : bool :=
  fd_kind_eqb (kind item) BACKEND_CMD.

Definition find_new_default_backend (w : World) : World :=
  match FdList.find find_backend_by_type (fdList w) with
  | None => commands_set_backend (-1) w
  | Some item => commands_set_backend (fd_at w item) w
  end.

(** [add_backend(sock)] once [accept] has returned [cmd_fd] and the fifo
    has been opened as [data_fd]. *)
Definition add_backend (cmd_fd data_fd : Z) (w : World) : outcome unit :=
  let w := upd_fdList (FdList.add_backend cmd_fd data_fd) w in
  let w := connect_peers cmd_fd data_fd w in
  match FdList.find_fd cmd_fd (fdList w) with
  | None => Undefined w
  | Some it =>
      let w := upd_fdList (alter (set_connected_to 0) it) w in
      Returned tt (write_socket cmd_fd ("GET_BACKEND_INFO" +:+ NL) w)
  end.

(** [sscanf(reply, "%32s %6d %32s %64s", backend_type, &pid, name, where)]
    when it returns 4. *)
Definition scan_backend_info (reply : string) : option (string * Z * string * string) :=
  match Scan.scan_s 32 reply with
  | None => None
  | Some (backend_type, r1) =>
      match Scan.scan_d 6 r1 with
      | None => None
      | Some (p, r2) =>
          match Scan.scan_s 32 r2 with
          | None => None
          | Some (name, r3) =>
              match Scan.scan_s 64 r3 with
              | None => None
              | Some (where_, _) => Some (backend_type, p, name, where_)
              end
          end
      end
  end.

(** The same [sscanf] writes past one of its arrays: ["%32s"] stores 32
    characters and a terminator in [backend_type[32]] or [name[32]],
    ["%64s"] 64 characters and a terminator in [where[64]].  The
    conversions are made in order and stop at the first that fails. *)
Definition scan_backend_info_overruns (reply : string) : bool :=
  match Scan.scan_s 32 reply with
  | None => false
  | Some (backend_type, r1) =>
      (String.length backend_type =? 32)%nat ||
      match Scan.scan_d 6 r1 with
      | None => false
      | Some (_, r2) =>
          match Scan.scan_s 32 r2 with
          | None => false
          | Some (name, r3) =>
              (String.length name =? 32)%nat ||
              match Scan.scan_s 64 r3 with
              | None => false
              | Some (where_, _) => (String.length where_ =? 64)%nat
              end
          end
      end
  end.

Definition handle_get_backend_info_reply (f : Z) (w : World) : outcome unit :=
  match FdList.find_fd f (fdList w) with
  | None => Undefined w
  | Some it =>
      match fdList w !! it with
      | None => Undefined w
      | Some x =>
          let reply := ReplyParser.get_data (replyParser x) in
          if scan_backend_info_overruns reply then Undefined w
          else
          match scan_backend_info reply with
          | None => Returned tt w
          | Some (_, _, name, where_) =>
              let w := upd_fdList (alter (set_id (name +:+ "@" +:+ where_)) it) w in
              let path := get_backend_data_path f w in
              let cmd := "SET_DATA_SOCKET " +:+ path +:+ NL in
              Returned tt (write_socket f cmd w)
          end
      end
  end.

Definition handle_data_socket_reply (f : Z) (w : World) : outcome unit :=
  match FdList.find_fd f (fdList w) with
  | None => Returned tt w
  | Some it =>
      match fdList w !! it with
      | None => Returned tt w
      | Some x =>
          let w :=
            if ReplyParser.get_success (replyParser x) then
              let w := commands_set_backend f w in
              unlink (get_backend_data_path f w) w
            else w in
          Returned tt (snd (disconnect_fds f w))
      end
  end.

Definition handle_local_reply (message : string) (f : Z) (w : World) : outcome bool :=
  match FdList.find_fd f (fdList w) with
  | None => Undefined w
  | Some backend =>
      match fdList w !! backend with
      | None => Undefined w
      | Some x =>
          let p := ReplyParser.feed message (replyParser x) in
          let w := upd_fdList (alter (set_replyParser p) backend) w in
          if ReplyParser.is_completed p then
            let o :=
              match ReplyParser.get_result p with
              | ReplyParser.OK =>
                  let cmd := ReplyParser.get_command p in
                  if String.eqb cmd "GET_BACKEND_INFO" then handle_get_backend_info_reply f w
                  else if String.eqb cmd "SET_DATA_SOCKET" then handle_data_socket_reply f w
                  else Returned tt w
              | _ => Returned tt w
              end in
            match o with
            | Undefined w => Undefined w
            | Returned _ w =>
                Returned true
                  (upd_fdList (alter (fun y => set_replyParser
                                                 (ReplyParser.reset (replyParser y)) y)
                                     backend) w)
            end
          else Returned true w
      end
  end.

Definition handle_backend_line (line : string) (f : Z) (w : World) : outcome bool :=
  match FdList.find_fd f (fdList w) with
  | None => Returned false w
  | Some it =>
      match fdList w !! it with
      | None => Returned false w
      | Some x =>
          if connected_to x <? 0 then Returned false w
          else if connected_to x =? 0 then handle_local_reply line f w
          else
            let w := write_socket (connected_to x) line w in
            if String.eqb (strncpy 3 line) "END"
            then Returned true (snd (disconnect_fds f w))
            else Returned true w
      end
  end.

(** In the call of [send_error] the word is a token of [buff], of at most
    256 characters, and the text holds 30 characters and one [int]: both
    buffers of [send_error] hold them. *)
Definition handle_client_line (line : string) (f : Z) (w : World) : outcome bool :=
  let buff := strncpy PACKET_SIZE line in
  match strtok WS_TNR buff with
  | (None, _) => Returned false w
  | (Some cmdptr, _) =>
      match FdList.find_fd f (fdList w) with
      | None => Returned false w
      | Some client =>
          match FdList.find_fd (commands_get_backend w) (fdList w) with
          | Some backend =>
              let w := upd_fdList
                         (alter (fun y => set_replyParser
                                            (ReplyParser.reset (replyParser y)) y)
                                backend) w in
              let w := upd_fdList (alter (set_expected cmdptr) backend) w in
              let w := snd (connect_fds f (commands_get_backend w) w) in
              Returned true (write_socket (commands_get_backend w) line w)
          | None =>
              Returned true
                (send_error f cmdptr ("Backend unavailable, current: "
                                      +:+ dec (commands_get_backend w)) w)
          end
      end
  end.

Definition handle_ctrl_cmd (line : string) (f : Z) (w : World) : outcome bool :=
  let buff := strncpy PACKET_SIZE line in
  match strtok WS_TNR buff with
  | (None, _) => Returned true w
  | (Some directive, saved) =>
      match lookup_directive directive directives with
      | None =>
          send_error_checked true f directive ("Unknown command: " +:+ directive) w
      | Some function =>
          match FdList.find_fd f (fdList w) with
          | None => send_error_checked true f directive "Internal error: bad fd" w
          | Some item =>
              let w := upd_fdList (alter (set_expected directive) item) w in
              match function f line (fst (strtok "" saved)) w with
              | Returned _ w => Returned true w
              | Undefined w => Undefined w
              end
          end
      end
  end.

(** [remove_and_log(fd, why)] *)
Definition remove_and_log (f : Z) (w : World) : World :=
  upd_fdList (fun l => snd (FdList.remove_client f l)) w.

(** What the system calls of [process_item_input] deliver: for a
    listening socket the descriptor [accept] returned (and, for a backend,
    the descriptor of its freshly opened fifo); for a connection the lines
    that were read, or a failed read. *)
Inductive io_input :=
  | Accepted (new_fd fifo_fd : Z)
  | Lines (lines : list string)
  | ReadError.

Definition read_lines (io : io_input) : option (list string) :=
  match io with
  | Lines l => Some l
  | _ => None
  end.

(** [process_item_input(item)] *)
Definition process_item_input (item : FdItem) (io : io_input)
    (w : World) : outcome unit :=
  let after (o : outcome bool) (renew : bool) : outcome unit :=
    match o with
    | Undefined w => Undefined w
    | Returned true w => Returned tt w
    | Returned false w =>
        let w := remove_and_log (fd item) w in
        Returned tt (if renew then find_new_default_backend w else w)
    end in
  match kind item, io with
  | UNDEFINED, _ => Returned tt w
  | CLIENT, Accepted c _ => Returned tt (upd_fdList (FdList.add_client c) w)
  | BACKEND, Accepted c d => add_backend c d w
  | CTRL, Accepted c _ => Returned tt (upd_fdList (FdList.add_ctrl_client c) w)
  | BACKEND_DATA, _ => after (get_line (fd item) (read_lines io) broadcast_message w) true
  | BACKEND_CMD, _ => after (get_line (fd item) (read_lines io) handle_backend_line w) true
  | CLIENT_STREAM, _ => after (get_line (fd item) (read_lines io) handle_client_line w) false
  | CTRL_STREAM, _ => after (get_line (fd item) (read_lines io) handle_ctrl_cmd w) false
  | _, _ => Returned tt w
  end.

(** The events [poll] reports for one descriptor. *)
Record revents := mkRevents {
  POLLERR : bool;
  POLLNVAL : bool;
  POLLIN : bool;
  POLLHUP : bool
}.

(** The body of the loop of [main_loop] over the poll results, for the
    snapshot entry [item]. *)
Definition main_loop_item (item : FdItem) (ev : revents)
    (input : io_input) (w : World) : outcome unit :=
  let w := if POLLERR ev then remove_and_log (fd item) w else w in
  let w := if POLLNVAL ev then remove_and_log (fd item) w else w in
  let o := if POLLIN ev then process_item_input item input w else Returned tt w in
  match o with
  | Undefined w => Undefined w
  | Returned _ w => Returned tt (if POLLHUP ev then remove_and_log (fd item) w else w)
  end.

(** * Notions used to state the properties *)

(** ** Registry well-formedness *)

(** Every record of the registry has its own descriptor. *)
Definition unique_fds (l : list FdItem) : Prop := NoDup (map fd l).

(** Descriptors of connections are positive: -1 and 0 are the markers
    "none" and "local" of [connected_to]. *)
Definition positive_fds (l : list FdItem) : Prop := Forall (fun it => 0 < fd it) l.

Definition all_idle (l : list FdItem) : Prop :=
  Forall (fun it => connected_to it = -1) l.

(** The record that [find_fd] selects satisfies [P]; holds when there is
    none. *)
Definition found_satisfies (P : FdItem -> Prop) (f : Z) (l : list FdItem) : Prop :=
  forall i x, FdList.find_fd f l = Some i -> l !! i = Some x -> P x.

(** [alter] at the record with descriptor [f], as a map over the list. *)
Definition update_fd (f : Z) (g : FdItem -> FdItem) (l : list FdItem) : list FdItem :=
  map (fun it => if fd it =? f then g it else it) l.

(** ** Routing *)

(** [connect_fds] and [disconnect_fds] as maps over a registry with
    unique descriptors. *)
Definition connect_spec (c b : Z) (l : list FdItem) : list FdItem :=
  match FdList.find_fd b l with
  | None => l
  | Some _ =>
      if c =? 0 then update_fd b (set_connected_to 0) l
      else update_fd c (fun it => set_ticks COMMAND_TIMEOUT_TICKS (set_connected_to b it))
                     (update_fd b (set_connected_to c) l)
  end.

Definition disarm (it : FdItem) : FdItem :=
  set_ticks (-1) (set_connected_to (-1) it).

Definition disconnect_spec (f : Z) (l : list FdItem) : list FdItem :=
  match FdList.find_fd f l with
  | None => l
  | Some me =>
      match l !! me with
      | None => l
      | Some m =>
          if connected_to m =? 0 then update_fd f (set_connected_to (-1)) l
          else if connected_to m =? -1 then update_fd f (set_ticks (-1)) l
          else update_fd (connected_to m) disarm (update_fd f disarm l)
      end
  end.

Definition routing_symmetric (l : list FdItem) : Prop :=
  forall a b, a ∈ l -> b ∈ l -> connected_to a = fd b ->
    connected_to b = fd a \/ connected_to b = 0.

Definition one_client_per_backend (l : list FdItem) : Prop :=
  forall a a' b, a ∈ l -> a' ∈ l -> b ∈ l ->
    connected_to a = fd b -> connected_to a' = fd b -> a = a'.

(** The pairing that guarded routing maintains: whoever points at a
    record is pointed at by it. *)
Definition paired (l : list FdItem) : Prop :=
  forall a b, a ∈ l -> b ∈ l -> connected_to a = fd b -> connected_to b = fd a.

(** What guarded routing maintains. *)
Definition routing_wf (l : list FdItem) : Prop :=
  unique_fds l /\ positive_fds l /\ paired l.

Inductive routing_op :=
  | Connect (client_fd backend_fd : Z)
  | Disconnect (f : Z).

Definition run_op (l : list FdItem) (op : routing_op) : list FdItem :=
  match op with
  | Connect c b => snd (connect_fds_list c b l)
  | Disconnect f => snd (disconnect_fds_list f l)
  end.

Definition run_ops (ops : list routing_op) (l : list FdItem) : list FdItem :=
  fold_left run_op ops l.

(** No record with descriptor [f] is engaged in a conversation. *)
Definition idle_fd (f : Z) (l : list FdItem) : Prop :=
  forall x, x ∈ l -> fd x = f -> connected_to x = -1.

Definition op_allowed (op : routing_op) (l : list FdItem) : Prop :=
  match op with
  | Connect c b => idle_fd c l /\ idle_fd b l
  | Disconnect _ => True
  end.

(** Every [connect_fds] of the sequence finds both its ends idle. *)
Fixpoint guarded (ops : list routing_op) (l : list FdItem) : Prop :=
  match ops with
  | [] => True
  | op :: ops' => op_allowed op l /\ guarded ops' (run_op l op)
  end.

(** ** The heartbeat *)

(** The counter of the record reaches zero at this tick. *)
Definition timed_out (it : FdItem) : bool :=
  is_stream (kind it) && (ticks it =? 1).

(** The record waits for a reply from another record (not from the
    dispatcher itself). *)
Definition routed (it : FdItem) : bool :=
  negb (connected_to it =? 0) && negb (connected_to it =? -1).

(** One tick, in the words of the specification: every armed stream
    counter is decremented; a record whose counter reaches zero is
    disconnected, and so is the record it was routed to. *)
Definition tick_item (l : list FdItem) (it : FdItem) : FdItem :=
  if is_stream (kind it) then
    if ticks it <=? 0 then it
    else if ticks it =? 1 then disarm it
    else set_ticks (ticks it - 1) it
  else if existsb (fun t => timed_out t && routed t && (connected_to t =? fd it)) l
       then disarm it
       else it.

Definition tick_spec (l : list FdItem) : list FdItem := map (tick_item l) l.

Definition timeout_reply (it : FdItem) : Z * string :=
  (fd it, error_packet (expected it) "TIMEOUT").

Definition tick_replies (l : list FdItem) : list (Z * string) :=
  map timeout_reply (filter (fun it => timed_out it = true) l).

(** A waiting client is never routed to another client connection. *)
Definition routes_to_backends (l : list FdItem) : Prop :=
  forall t s, t ∈ l -> s ∈ l ->
    is_stream (kind t) = true -> 0 < ticks t -> is_stream (kind s) = true ->
    connected_to t <> fd s.

(** What was written to descriptor [f]. *)
Definition sent_to (f : Z) (w : World) : list string :=
  map snd (filter (fun m => fst m = f) (sent w)).

(** ** Worlds of the scenarios *)

(** In [env0] the byte after every copy of [split_once] is NUL. *)
Definition env0 : Env :=
  mkEnv "/var/run/lirc/lircd" "0.10.0" (fun _ => true) 13 (fun _ => "").

(** The world [w] where the unwritten bytes hold what [spare] says. *)
Definition with_spare (spare : string -> string) (w : World) : World :=
  mkWorld (mkEnv (client_socket_path (env w)) (VERSION (env w)) (fopen_ok (env w))
                 (fopen_errno (env w)) spare)
          (fdList w) (default_backend w) (sent w) (unlinked w) (inputlog w).

(** The dispatcher after start-up, listening on descriptors 3, 4 and 5. *)
Definition w_boot : World := commands_init env0 (FdList.make 3 4 5).

(** A backend has connected: command socket 7, fifo 8. *)
Definition w_backend : World :=
  world_of (process_item_input (new_item 4 BACKEND (-1)) (Accepted 7 8) w_boot).

Definition info_reply : list string :=
  ["BEGIN"; "GET_BACKEND_INFO"; "SUCCESS"; "DATA"; "1"; "std 4711 acme /dev/ir0"; "END"].

Definition socket_reply : list string :=
  ["BEGIN"; "SET_DATA_SOCKET"; "SUCCESS"; "END"].

(** The backend has answered [GET_BACKEND_INFO]. *)
Definition w_identified : World :=
  world_of (process_item_input (new_item 7 BACKEND_CMD (-1)) (Lines info_reply) w_backend).

(** The backend has answered [SET_DATA_SOCKET]: it is registered. *)
Definition w_registered : World :=
  world_of (process_item_input (new_item 7 BACKEND_CMD (-1)) (Lines socket_reply)
                               w_identified).

(** Two clients (9 and 11) and a control client (10) have connected. *)
Definition w_clients : World :=
  let w := world_of (process_item_input (new_item 3 CLIENT (-1)) (Accepted 9 0)
                                        w_registered) in
  let w := world_of (process_item_input (new_item 5 CTRL (-1)) (Accepted 10 0) w) in
  world_of (process_item_input (new_item 3 CLIENT (-1)) (Accepted 11 0) w).

(** Client 9 has a command in flight. *)
Definition w_in_flight : World :=
  world_of (handle_client_line "SEND_ONCE rem KEY_1" 9 w_clients).

(** Client 9 has sent LIST and waits for the names of the remotes. *)
Definition w_list_in_flight : World :=
  world_of (handle_client_line "LIST" 9 w_clients).

(** The answer of the backend: two remotes, the first named ENDURO. *)
Definition cut_reply : list string :=
  ["BEGIN"; "LIST"; "SUCCESS"; "DATA"; "2"; "ENDURO"; "DENON"; "END"].

(** Executable tests that the routing properties imply. *)
Definition routing_symmetric_b (l : list FdItem) : bool :=
  forallb (fun a => forallb (fun b =>
    implb (connected_to a =? fd b)
          ((connected_to b =? fd a) || (connected_to b =? 0))) l) l.

Definition one_client_per_backend_b (l : list FdItem) : bool :=
  forallb (fun a => forallb (fun a' => forallb (fun b =>
    implb ((connected_to a =? fd b) && (connected_to a' =? fd b))
          (fd a =? fd a')) l) l) l.

Definition idle_fd_b (f : Z) (l : list FdItem) : bool :=
  forallb (fun x => negb (fd x =? f) || (connected_to x =? -1)) l.

(** The registry and the world after the first [k] iterations of the
    loop of [dosigalrm] over the registry [l]. *)
Definition partner_timed_out (l : list FdItem) (it : FdItem) : bool :=
  existsb (fun t => timed_out t && routed t && (connected_to t =? fd it)) l.

Definition tick_item_upto (l : list FdItem) (k i : nat) (it : FdItem) : FdItem :=
  if is_stream (kind it) then
    if (i <? k)%nat then tick_item l it else it
  else if partner_timed_out (take k l) it then disarm it else it.

Definition tick_world (w : World) (k : nat) : World :=
  mkWorld (env w) (imap (tick_item_upto (fdList w) k) (fdList w)) (default_backend w)
          (sent w ++ tick_replies (take k (fdList w))) (unlinked w) (inputlog w).

Fixpoint guarded_b (ops : list routing_op) (l : list FdItem) : bool :=
  match ops with
  | [] => true
  | op :: ops' =>
      match op with
      | Connect c b => idle_fd_b c l && idle_fd_b b l
      | Disconnect _ => true
      end && guarded_b ops' (run_op l op)
  end.

(** ** Replies *)

(** The routing fields of the record with descriptor [f]. *)
Definition routing_state (l : list FdItem) (f : Z) : option (Z * Z) :=
  match FdList.find_fd f l with
  | None => None
  | Some i => (fun x => (connected_to x, ticks x)) <$> (l !! i)
  end.

Definition has_token (line : string) : bool :=
  match strtok WS_TNR (strncpy PACKET_SIZE line) with
  | (Some _, _) => true
  | (None, _) => false
  end.

Definition routes_to_backends_b (l : list FdItem) : bool :=
  forallb (fun t => forallb (fun s =>
    negb (is_stream (kind t) && (0 <? ticks t) && is_stream (kind s)
          && (connected_to t =? fd s))) l) l.

(** A second backend (command socket 12, fifo 13) has connected and has
    not yet answered. *)
Definition w_second_backend : World :=
  world_of (process_item_input (new_item 4 BACKEND (-1)) (Accepted 12 13) w_clients).

Definition hangup : revents := mkRevents false false false true.

Definition kind_and_id (w : World) (f : Z) : option (fd_kind * string) :=
  match FdList.find_fd f (fdList w) with
  | None => None
  | Some i => (fun x => (kind x, id x)) <$> (fdList w !! i)
  end.

(** ** Replies on the wire *)

(** The lines [ls], each closed by a newline. *)
Fixpoint payload (ls : list string) : string :=
  match ls with
  | [] => ""
  | l :: ls' => l +:+ NL +:+ payload ls'
  end.

Fixpoint last_char (s : string) : option ascii :=
  match s with
  | EmptyString => None
  | String c EmptyString => Some c
  | String _ s' => last_char s'
  end.

(** A line the protocol can carry as it is: not empty, no newline inside,
    no white space at its end. *)
Definition clean_line (s : string) : bool :=
  none_in NL s &&
  match last_char s with
  | Some c => negb (in_set c WS_TNR)
  | None => false
  end.

(** What the reader hands to the parser for the line [l]. *)
Definition fed (keep : bool) (l : string) : string :=
  strip_cr l +:+ (if keep then NL else "").

(** The parser after the lines of [packet], fed one at a time. *)
Definition parse (keep : bool) (packet : string) : ReplyParser.t :=
  ReplyParser.feed_all (next_lines keep packet) ReplyParser.new.

(** The reply has been parsed to the end and holds these fields. *)
Definition parsed_as (p : ReplyParser.t) (command data : string) (ok : bool) : Prop :=
  ReplyParser.state p = ReplyParser.DONE /\
  ReplyParser.get_command p = command /\
  ReplyParser.get_data p = data /\
  ReplyParser.get_success p = ok.

(** What holds of the count line of 1 to 99 payload lines. *)
Definition count_line_ok (n : nat) : bool :=
  let c := dec (Z.of_nat n) in
  clean_line c
  && String.eqb (strncpy 31 (c +:+ NL)) (c +:+ NL)
  && String.eqb (strncpy 3 (c +:+ NL)) (c +:+ NL)
  && match Scan.scan_d 2 c with
     | Some (v, _) => v =? Z.of_nat n
     | None => false
     end.

(** ** The handshake *)

Fixpoint none_space (s : string) : bool :=
  match s with
  | EmptyString => true
  | String c s' => negb (isspace c) && none_space s'
  end.

Fixpoint all_digits (s : string) : bool :=
  match s with
  | EmptyString => true
  | String c s' =>
      match Scan.digit_val c with Some _ => true | None => false end && all_digits s'
  end.

(** A field of the backend's answer that ["%<w>s"] reads whole. *)
Definition field (w : nat) (s : string) : Prop :=
  s <> "" /\ none_space s = true /\ (String.length s <= w)%nat.

(** A field that ["%<w>d"] reads whole. *)
Definition number_field (w : nat) (s : string) : Prop :=
  s <> "" /\ all_digits s = true /\ (String.length s <= w)%nat.

Definition id_of (w : World) (i : nat) : option string := id <$> (fdList w !! i).

(** An answer whose process id has seven digits. *)
Definition long_pid_reply : list string :=
  ["BEGIN"; "GET_BACKEND_INFO"; "SUCCESS"; "DATA"; "1"; "std 1234567 acme /dev/ir0"; "END"].

(** * Further parts of the sources *)

(** ** Writes that fall short *)

(** A client record to which decoded events are broadcast: a client
    connection that is not in command mode. *)
Definition receives_broadcast (it : FdItem) : bool :=
  fd_kind_eqb (kind it) CLIENT_STREAM && (connected_to it =? -1).

(** The descriptors [broadcast_message(message, fd)] of lircd_commands.cpp
    collects. *)
Definition broadcast_fds (l : list FdItem) : list Z :=
  fold_right (fun it acc =>
                if negb (fd_kind_eqb (kind it) CLIENT_STREAM) then acc
                else if negb (connected_to it =? -1) then acc
                else fd it :: acc) [] l.

(** lircd_messages.cpp, [broadcast_message(message, fds)]: the descriptors
    to which [write_socket] wrote less than the message.  [written f] is
    the value [write_socket(f, message, len)] returns. *)
Definition broadcast_message_fds (written : Z -> Z) (message : string)
    (fds : list Z) : list Z :=
  fold_left (fun bad_fds f => if written f <? slen message then bad_fds ++ [f] else bad_fds)
            fds [].

(** lircd_commands.cpp, [broadcast_message(message, fd)] on the registry,
    when writes may fall short: the clients that could not be written to
    are removed. *)
Definition broadcast_message_faulty (written : Z -> Z) (message : string)
    (l : list FdItem) : bool * list FdItem :=
  let fds := broadcast_fds l in
  let bad_fds := broadcast_message_fds written message fds in
  (true, fold_left (fun l f => snd (FdList.remove_client f l)) bad_fds l).

(** A record [broadcast_message] drops. *)
Definition broadcast_drops (written : Z -> Z) (message : string) (it : FdItem) : bool :=
  receives_broadcast it && (written (fd it) <? slen message).

(** lircd.cpp, [dosighup()] once the log file is reopened.  [written f] is
    the value [send_sighup(f)] returns.  The loop walks the registry with
    the iterator [it]; after [remove_client] it goes on from the iterator
    that call returns, the position of the erased record.  The result is
    the registry and the descriptors [send_sighup] was called on;
    [fuel] bounds the number of iterations. *)
Fixpoint dosighup_loop (written : Z -> Z) (fuel : nat) (it : nat) (l : list FdItem)
    (hups : list Z) : option (list FdItem * list Z) :=
  match fuel with
  | O => None
  | S fuel' =>
      match l !! it with
      | None => Some (l, hups)
      | Some x =>
          if negb (fd_kind_eqb (kind x) CLIENT_STREAM) then
            dosighup_loop written fuel' (S it) l hups
          else if negb (written (fd x) =? 0) then
            dosighup_loop written fuel' (S it) l (hups ++ [fd x])
          else
            match FdList.find_fd (fd x) l with
            | None => Some (l, hups ++ [fd x])
            | Some erased =>
                dosighup_loop written fuel' erased (snd (FdList.remove_client (fd x) l))
                              (hups ++ [fd x])
            end
      end
  end.

(** Every iteration either advances the iterator or erases a record, and
    an erase moves the iterator back to the erased position at most. *)
Definition dosighup (written : Z -> Z) (l : list FdItem) : option (list FdItem * list Z) :=
  dosighup_loop written (S (length l) * S (length l)) 0 l [].

(** A record [dosighup] drops: a client connection whose write returned 0. *)
Definition sighup_drops (written : Z -> Z) (it : FdItem) : bool :=
  fd_kind_eqb (kind it) CLIENT_STREAM && (written (fd it) =? 0).

(** ** lircd_messages.cpp: [write_socket] with its loop *)

(** [buf + n] *)
Fixpoint advance (n : nat) (s : string) : string :=
  match n, s with
  | O, _ => s
  | S n', String _ s' => advance n' s'
  | S _, EmptyString => EmptyString
  end.

(** [write_socket(fd, buf, len)].  [answers] are the values the successive
    calls of [write] return; a call that returns [done > 0] has
    transferred the first [done] bytes it was given.  The result is the
    value [write_socket] returns together with the bytes transferred, and
    [None] when the answers run out before the loop ends. *)
Fixpoint write_socket_loop (answers : list Z) (buf : string) (todo len : Z)
    (out : string) {struct answers} : option (Z * string) :=
  if todo =? 0 then Some (len, out)
  else
    match answers with
    | [] => None
    | done :: answers' =>
        if done <=? 0 then Some (done, out)
        else write_socket_loop answers' (advance (Z.to_nat done) buf) (todo - done) len
                               (out +:+ strncpy (Z.to_nat done) buf)
    end.

Definition write_socket_answers (answers : list Z) (buf : string) (len : Z)
  : option (Z * string) :=
  write_socket_loop answers buf len len "".



(** ** Replies as the parser sees them *)

(** The lines of a reply with a payload. *)
Definition reply_lines (m : string) (flag : bool) (ls : list string) : list string :=
  ["BEGIN"; m; if flag then "SUCCESS" else "ERROR"; "DATA"; dec (Z.of_nat (length ls))]
    ++ ls ++ ["END"].

(** The parser has read the status line of the reply. *)
Definition past_result (p : ReplyParser.t) : bool :=
  match ReplyParser.state p with
  | ReplyParser.BEGIN | ReplyParser.COMMAND | ReplyParser.RESULT => false
  | _ => true
  end.


(** * Properties *)

(** ** Lists and lookups *)

Lemma find_Some cond l i :
  FdList.find cond l = Some i ->
  exists x, l !! i = Some x /\ cond x = true /\
            forall j y, (j < i)%nat -> l !! j = Some y -> cond y = false.
Proof.
  revert i. induction l as [|a l IH]; intros i H; simpl in H; [discriminate|].
  destruct (cond a) eqn:Ha.
  - inversion H; subst. exists a. split; [reflexivity|]. split; [assumption|].
    intros j y Hj. lia.
  - destruct (FdList.find cond l) as [k|] eqn:Hk; simpl in H; [|discriminate].
    inversion H; subst. destruct (IH k eq_refl) as (x & Hx & Hc & Hmin).
    exists x. split; [exact Hx|]. split; [exact Hc|].
    intros [|j] y Hj Hy; simpl in Hy.
    + inversion Hy; subst. exact Ha.
    + apply (Hmin j); [lia|exact Hy].
Qed.

Lemma find_None cond l :
  FdList.find cond l = None -> forall x, x ∈ l -> cond x = false.
Proof.
  induction l as [|a l IH]; intros H x Hx.
  - inversion Hx.
  - simpl in H. destruct (cond a) eqn:Ha; [discriminate|].
    destruct (FdList.find cond l) eqn:Hk; simpl in H; [discriminate|].
    apply elem_of_cons in Hx as [->|Hx]; [assumption|]. apply IH; auto.
Qed.

Lemma find_fd_Some f l i :
  FdList.find_fd f l = Some i -> exists x, l !! i = Some x /\ fd x = f.
Proof.
  intros H. apply find_Some in H as (x & Hx & Hc & _).
  exists x. split; [assumption|]. unfold FdList.item_fd_equals in Hc. lia.
Qed.

Lemma find_fd_None f l x : FdList.find_fd f l = None -> x ∈ l -> fd x <> f.
Proof.
  intros H Hx. pose proof (find_None _ _ H x Hx) as Hc.
  unfold FdList.item_fd_equals in Hc. lia.
Qed.

Lemma unique_fds_lookup l i j x y :
  unique_fds l -> l !! i = Some x -> l !! j = Some y -> fd x = fd y -> i = j.
Proof.
  unfold unique_fds. intros Hnd Hi Hj Hfd.
  eapply NoDup_lookup; [exact Hnd| |].
  - rewrite list_lookup_fmap, Hi. reflexivity.
  - rewrite list_lookup_fmap, Hj. simpl. congruence.
Qed.

Lemma unique_fds_elem l x y :
  unique_fds l -> x ∈ l -> y ∈ l -> fd x = fd y -> x = y.
Proof.
  intros Hnd Hx Hy Hfd.
  apply list_elem_of_lookup in Hx as [i Hi]. apply list_elem_of_lookup in Hy as [j Hj].
  assert (i = j) by (eapply unique_fds_lookup; eauto). subst. congruence.
Qed.

Lemma find_fd_unique l i x :
  unique_fds l -> l !! i = Some x -> FdList.find_fd (fd x) l = Some i.
Proof.
  intros Hnd Hi.
  destruct (FdList.find_fd (fd x) l) as [j|] eqn:Hf.
  - apply find_fd_Some in Hf as (y & Hy & Hfd).
    f_equal. eapply unique_fds_lookup; eauto.
  - exfalso. eapply find_fd_None; [exact Hf| |reflexivity].
    apply list_elem_of_lookup. eauto.
Qed.

(** Under unique descriptors an update through the iterator that
    [find_fd] returns is a map over the list. *)
Lemma alter_find_fd l f i g :
  unique_fds l -> FdList.find_fd f l = Some i -> alter g i l = update_fd f g l.
Proof.
  intros Hnd Hf. apply find_fd_Some in Hf as (x & Hx & Hfd).
  apply list_eq. intros j. unfold update_fd. rewrite list_lookup_fmap.
  destruct (decide (i = j)) as [->|Hne].
  - rewrite list_lookup_alter_eq, Hx. simpl.
    replace (fd x =? f) with true by lia. reflexivity.
  - rewrite list_lookup_alter_ne by assumption.
    destruct (l !! j) as [y|] eqn:Hy; simpl; [|reflexivity].
    destruct (fd y =? f) eqn:E; [|reflexivity].
    exfalso. apply Hne. eapply unique_fds_lookup; eauto. lia.
Qed.

Lemma update_fd_absent l f g : FdList.find_fd f l = None -> update_fd f g l = l.
Proof.
  intros Hf. unfold update_fd. rewrite <- (map_id l) at 2.
  apply map_ext_in. intros x Hx. apply list_elem_of_In in Hx.
  pose proof (find_fd_None _ _ _ Hf Hx). replace (fd x =? f) with false by lia.
  reflexivity.
Qed.

Lemma fd_set_connected_to v it : fd (set_connected_to v it) = fd it.
Proof. reflexivity. Qed.

Lemma fd_set_ticks v it : fd (set_ticks v it) = fd it.
Proof. reflexivity. Qed.

Lemma map_fd_update_fd f g l :
  (forall x, fd (g x) = fd x) -> map fd (update_fd f g l) = map fd l.
Proof.
  intros Hg. unfold update_fd. rewrite map_map. apply map_ext.
  intros x. destruct (fd x =? f); auto.
Qed.

Lemma find_fd_map_fd f l l' : map fd l = map fd l' -> FdList.find_fd f l = FdList.find_fd f l'.
Proof.
  revert l'. induction l as [|a l IH]; intros [|b l'] H; simpl in H; try discriminate.
  - reflexivity.
  - inversion H as [[Hab Hl]]. unfold FdList.find_fd in *. simpl.
    unfold FdList.item_fd_equals at 1 3. rewrite Hab.
    destruct (fd b =? f); [reflexivity|]. f_equal. apply IH. assumption.
Qed.

(** ** Routing as maps over the registry *)

Lemma unique_fds_update_fd f g l :
  (forall x, fd (g x) = fd x) -> unique_fds l -> unique_fds (update_fd f g l).
Proof. intros Hg H. unfold unique_fds. rewrite map_fd_update_fd; assumption. Qed.

Lemma find_fd_update_fd f' f g l :
  (forall x, fd (g x) = fd x) ->
  FdList.find_fd f' (update_fd f g l) = FdList.find_fd f' l.
Proof. intros Hg. apply find_fd_map_fd, map_fd_update_fd, Hg. Qed.

Lemma update_fd_compose f g h l :
  (forall x, fd (h x) = fd x) ->
  update_fd f g (update_fd f h l) = update_fd f (fun x => g (h x)) l.
Proof.
  intros Hh. unfold update_fd. rewrite map_map. apply map_ext. intros x.
  destruct (fd x =? f) eqn:E.
  - rewrite Hh, E. reflexivity.
  - rewrite E. reflexivity.
Qed.

Lemma alter_update_fd l0 l f i g :
  unique_fds l0 -> map fd l = map fd l0 -> FdList.find_fd f l0 = Some i ->
  alter g i l = update_fd f g l.
Proof.
  intros Hnd Hm Hf. apply alter_find_fd.
  - unfold unique_fds. rewrite Hm. exact Hnd.
  - rewrite (find_fd_map_fd f l l0); assumption.
Qed.

Lemma alter_update_fd_absent l0 l f g :
  map fd l = map fd l0 -> FdList.find_fd f l0 = None -> update_fd f g l = l.
Proof.
  intros Hm Hf. apply update_fd_absent. rewrite (find_fd_map_fd f l l0); assumption.
Qed.

Lemma connect_fds_list_spec c b l :
  unique_fds l -> snd (connect_fds_list c b l) = connect_spec c b l.
Proof.
  intros Hnd. unfold connect_fds_list, connect_spec.
  destruct (FdList.find_fd b l) as [bi|] eqn:Hb; [|reflexivity].
  destruct (c =? 0) eqn:Hc; simpl.
  - apply alter_find_fd; assumption.
  - rewrite (alter_find_fd l b bi) by assumption.
    assert (Hm : map fd (update_fd b (set_connected_to c) l) = map fd l)
      by (apply map_fd_update_fd; reflexivity).
    destruct (FdList.find_fd c l) as [ci|] eqn:Hci; simpl.
    + rewrite (alter_update_fd l (update_fd b (set_connected_to c) l) c ci
                 (set_connected_to b)) by assumption.
      assert (Hm2 : map fd (update_fd c (set_connected_to b)
                              (update_fd b (set_connected_to c) l)) = map fd l)
        by (rewrite map_fd_update_fd; [assumption|reflexivity]).
      rewrite (alter_update_fd l _ c ci) by assumption.
      rewrite update_fd_compose by reflexivity. reflexivity.
    + symmetry. eapply alter_update_fd_absent; eassumption.
Qed.

Lemma disconnect_fds_list_spec f l :
  unique_fds l -> snd (disconnect_fds_list f l) = disconnect_spec f l.
Proof.
  intros Hnd. unfold disconnect_fds_list, disconnect_spec.
  destruct (FdList.find_fd f l) as [me|] eqn:Hme; [|reflexivity].
  destruct (l !! me) as [m|] eqn:Hm; [|reflexivity].
  destruct (connected_to m =? 0) eqn:H0; simpl.
  { apply alter_find_fd; assumption. }
  rewrite (alter_find_fd l f me) by assumption.
  destruct (connected_to m =? -1) eqn:H1; simpl; [reflexivity|].
  assert (Hm1 : map fd (update_fd f (set_ticks (-1)) l) = map fd l)
    by (apply map_fd_update_fd; reflexivity).
  rewrite (alter_update_fd l (update_fd f (set_ticks (-1)) l) f me
             (set_connected_to (-1))) by assumption.
  rewrite update_fd_compose by reflexivity.
  change (fun x => set_connected_to (-1) (set_ticks (-1) x)) with disarm.
  assert (Hm2 : map fd (update_fd f disarm l) = map fd l)
    by (apply map_fd_update_fd; reflexivity).
  rewrite (find_fd_map_fd _ _ l Hm1).
  destruct (FdList.find_fd (connected_to m) l) as [oi|] eqn:Ho; simpl.
  - rewrite (alter_update_fd l (update_fd f disarm l) (connected_to m) oi
               (set_connected_to (-1))) by assumption.
    assert (Hm3 : map fd (update_fd (connected_to m) (set_connected_to (-1))
                            (update_fd f disarm l)) = map fd l)
      by (rewrite map_fd_update_fd; [assumption|reflexivity]).
    rewrite (alter_update_fd l _ (connected_to m) oi) by assumption.
    rewrite update_fd_compose by reflexivity. reflexivity.
  - symmetry. eapply alter_update_fd_absent; eassumption.
Qed.

Lemma map_fd_connect_spec c b l : map fd (connect_spec c b l) = map fd l.
Proof.
  unfold connect_spec. destruct (FdList.find_fd b l); [|reflexivity].
  destruct (c =? 0); repeat (rewrite map_fd_update_fd; [|reflexivity]); reflexivity.
Qed.

Lemma map_fd_disconnect_spec f l : map fd (disconnect_spec f l) = map fd l.
Proof.
  unfold disconnect_spec. destruct (FdList.find_fd f l); [|reflexivity].
  destruct (l !! n); [|reflexivity].
  destruct (connected_to f0 =? 0); [apply map_fd_update_fd; reflexivity|].
  destruct (connected_to f0 =? -1);
    repeat (rewrite map_fd_update_fd; [|reflexivity]); reflexivity.
Qed.

(** ** Routing invariants *)

Lemma elem_of_update_fd (x' : FdItem) f g l :
  x' ∈ update_fd f g l -> exists x, x ∈ l /\ x' = (if fd x =? f then g x else x).
Proof.
  unfold update_fd. intros H. apply list_elem_of_fmap in H as (x & -> & Hx). eauto.
Qed.

Lemma paired_map (h : FdItem -> FdItem) (l : list FdItem) :
  (forall a b, a ∈ l -> b ∈ l -> connected_to (h a) = fd (h b) ->
               connected_to (h b) = fd (h a)) ->
  paired (map h l).
Proof.
  intros H a' b' Ha' Hb'.
  apply list_elem_of_fmap in Ha' as (a & -> & Ha).
  apply list_elem_of_fmap in Hb' as (b & -> & Hb). auto.
Qed.

Lemma positive_fds_elem l (x : FdItem) : positive_fds l -> x ∈ l -> 0 < fd x.
Proof. unfold positive_fds. rewrite Forall_forall. auto. Qed.

Lemma positive_fds_map_fd l l' : map fd l' = map fd l -> positive_fds l -> positive_fds l'.
Proof.
  unfold positive_fds. rewrite !Forall_forall. intros Hm H x Hx.
  assert (Hin : In (fd x) (map fd l')) by (apply in_map, list_elem_of_In, Hx).
  rewrite Hm in Hin. apply in_map_iff in Hin as (y & Hy & Hiny).
  rewrite <- Hy. apply H, list_elem_of_In, Hiny.
Qed.

(** [NoDup] of a list of integer literals. *)
Ltac nodup_Z :=
  repeat (apply NoDup_cons_2;
          [ let H := fresh in
            intros H;
            repeat (apply elem_of_cons in H as [H|H]; [discriminate H|]);
            inversion H
          | ]);
  apply NoDup_nil_2.

Ltac zeqb :=
  repeat match goal with
         | |- context [?a =? ?b] => destruct (Z.eqb_spec a b)
         | H : context [?a =? ?b] |- _ => destruct (Z.eqb_spec a b)
         end; simpl in *.

Lemma paired_connect c b l :
  unique_fds l -> positive_fds l -> paired l ->
  idle_fd c l -> idle_fd b l -> paired (connect_spec c b l).
Proof.
  intros Hnd Hpos Hp Hic Hib. unfold connect_spec.
  destruct (FdList.find_fd b l); [|assumption].
  destruct (c =? 0) eqn:Hc.
  - unfold update_fd. apply paired_map. intros x y Hx Hy.
    pose proof (positive_fds_elem _ x Hpos Hx).
    pose proof (positive_fds_elem _ y Hpos Hy).
    pose proof (Hp x y Hx Hy). pose proof (Hib y Hy).
    zeqb; lia.
  - unfold update_fd. rewrite map_map. apply paired_map. intros x y Hx Hy.
    pose proof (positive_fds_elem _ x Hpos Hx).
    pose proof (positive_fds_elem _ y Hpos Hy).
    pose proof (Hp x y Hx Hy). pose proof (Hib y Hy). pose proof (Hic y Hy).
    unfold COMMAND_TIMEOUT_TICKS.
    zeqb; lia.
Qed.

Lemma paired_disconnect f l :
  unique_fds l -> positive_fds l -> paired l -> paired (disconnect_spec f l).
Proof.
  intros Hnd Hpos Hp. unfold disconnect_spec.
  destruct (FdList.find_fd f l) as [me|] eqn:Hme; [|assumption].
  destruct (l !! me) as [m|] eqn:Hm; [|assumption].
  assert (Hml : m ∈ l) by (apply list_elem_of_lookup; eauto).
  assert (Hfm : fd m = f).
  { apply find_fd_Some in Hme as (x & Hx & Hfx). congruence. }
  assert (Huniq : forall y, y ∈ l -> fd y = f -> y = m).
  { intros y Hy Hfy. apply (unique_fds_elem l); auto. congruence. }
  destruct (connected_to m =? 0) eqn:H0; [|destruct (connected_to m =? -1) eqn:H1].
  - unfold update_fd. apply paired_map. intros x y Hx Hy.
    pose proof (positive_fds_elem _ x Hpos Hx).
    pose proof (positive_fds_elem _ y Hpos Hy).
    pose proof (Hp x y Hx Hy). pose proof (Huniq y Hy).
    zeqb; try lia.
    assert (y = m) by auto. subst y. lia.
  - unfold update_fd. apply paired_map. intros x y Hx Hy.
    pose proof (Hp x y Hx Hy). zeqb; auto.
  - unfold update_fd. rewrite map_map. apply paired_map. intros x y Hx Hy.
    pose proof (positive_fds_elem _ x Hpos Hx).
    pose proof (positive_fds_elem _ y Hpos Hy).
    pose proof (Hp x y Hx Hy). pose proof (Huniq y Hy).
    pose proof (Hp m y Hml Hy).
    zeqb; try lia.
    all: try (assert (y = m) by auto; subst y; lia).
Qed.

Lemma routing_wf_run_op l op :
  routing_wf l -> op_allowed op l -> routing_wf (run_op l op).
Proof.
  intros (Hnd & Hpos & Hp) Hal. destruct op as [c b|f]; simpl.
  - destruct Hal as [Hic Hib]. rewrite connect_fds_list_spec by assumption.
    split; [|split].
    + unfold unique_fds. rewrite map_fd_connect_spec. assumption.
    + eapply positive_fds_map_fd; [apply map_fd_connect_spec|assumption].
    + apply paired_connect; assumption.
  - rewrite disconnect_fds_list_spec by assumption.
    split; [|split].
    + unfold unique_fds. rewrite map_fd_disconnect_spec. assumption.
    + eapply positive_fds_map_fd; [apply map_fd_disconnect_spec|assumption].
    + apply paired_disconnect; assumption.
Qed.

Lemma routing_wf_idle l :
  unique_fds l -> positive_fds l -> all_idle l -> routing_wf l.
Proof.
  intros Hnd Hpos Hidle. split; [assumption|]. split; [assumption|].
  intros a b Ha Hb Hab.
  pose proof (positive_fds_elem _ b Hpos Hb).
  unfold all_idle in Hidle. rewrite Forall_forall in Hidle.
  pose proof (Hidle a Ha). lia.
Qed.

Lemma routing_wf_run_ops ops l :
  routing_wf l -> guarded ops l -> routing_wf (run_ops ops l).
Proof.
  revert l. induction ops as [|op ops IH]; intros l Hwf Hg; simpl in *.
  - assumption.
  - destruct Hg as [Hal Hg]. apply IH; [|assumption].
    apply routing_wf_run_op; assumption.
Qed.

(** X29: what callers that test their ends would get.  In every state
    reached from an idle registry with unique, positive descriptors by
    [disconnect_fds] calls and by [connect_fds] calls that find both
    their ends idle, the routing relation is symmetric and at most one
    client is connected to any backend. *)
Theorem guarded_routing_symmetric (l0 : list FdItem) (ops : list routing_op) :
  unique_fds l0 -> positive_fds l0 -> all_idle l0 -> guarded ops l0 ->
  routing_symmetric (run_ops ops l0) /\ one_client_per_backend (run_ops ops l0).
Proof.
  intros Hnd Hpos Hidle Hg.
  destruct (routing_wf_run_ops ops l0) as (Hnd' & Hpos' & Hp');
    [apply routing_wf_idle; assumption|assumption|].
  split.
  - intros a b Ha Hb Hab. left. apply Hp'; assumption.
  - intros a a' b Ha Ha' Hb Hab Hab'.
    apply (unique_fds_elem (run_ops ops l0)); try assumption.
    rewrite <- (Hp' a b), <- (Hp' a' b); auto.
Qed.

Lemma routing_symmetric_test l : routing_symmetric l -> routing_symmetric_b l = true.
Proof.
  intros H. unfold routing_symmetric_b.
  apply forallb_forall. intros a Ha. apply forallb_forall. intros b Hb.
  apply list_elem_of_In in Ha, Hb.
  destruct (Z.eqb_spec (connected_to a) (fd b)) as [E|E]; simpl; [|reflexivity].
  destruct (H a b Ha Hb E) as [-> | ->].
  - rewrite Z.eqb_refl. reflexivity.
  - rewrite orb_true_r. reflexivity.
Qed.

Lemma one_client_per_backend_test l :
  one_client_per_backend l -> one_client_per_backend_b l = true.
Proof.
  intros H. unfold one_client_per_backend_b.
  apply forallb_forall. intros a Ha. apply forallb_forall. intros a' Ha'.
  apply forallb_forall. intros b Hb.
  apply list_elem_of_In in Ha, Ha', Hb.
  destruct (Z.eqb_spec (connected_to a) (fd b)) as [E|E]; simpl; [|reflexivity].
  destruct (Z.eqb_spec (connected_to a') (fd b)) as [E'|E']; simpl; [|reflexivity].
  rewrite (H a a' b Ha Ha' Hb E E'). apply Z.eqb_refl.
Qed.

Lemma idle_fd_test f l : idle_fd_b f l = true -> idle_fd f l.
Proof.
  unfold idle_fd_b. rewrite forallb_forall. intros H x Hx Hf.
  apply list_elem_of_In in Hx. specialize (H x Hx).
  destruct (Z.eqb_spec (fd x) f); simpl in H; [lia|contradiction].
Qed.

Lemma guarded_test ops l : guarded_b ops l = true -> guarded ops l.
Proof.
  revert l. induction ops as [|op ops IH]; intros l H; simpl in *; [exact I|].
  apply andb_true_iff in H as [Hop Hrest]. split; [|apply IH; assumption].
  destruct op as [c b|f]; simpl; [|exact I].
  apply andb_true_iff in Hop as [Hc Hb]. split; apply idle_fd_test; assumption.
Qed.

Lemma guarded_routing_symmetric_witness :
  routing_symmetric
    (run_ops [Connect 9 7; Disconnect 7; Connect 11 7; Connect 0 4; Disconnect 11]
             (fdList w_clients)) /\
  one_client_per_backend
    (run_ops [Connect 9 7; Disconnect 7; Connect 11 7; Connect 0 4; Disconnect 11]
             (fdList w_clients)).
Proof.
  apply guarded_routing_symmetric.
  - unfold unique_fds. vm_compute. nodup_Z.
  - vm_compute. repeat constructor.
  - vm_compute. repeat constructor.
  - apply guarded_test. vm_compute. reflexivity.
Defined.

(** ** The heartbeat: the loop of [dosigalrm] against [tick_spec] *)

Lemma kind_tick_item_upto l k i it : kind (tick_item_upto l k i it) = kind it.
Proof.
  unfold tick_item_upto, tick_item.
  destruct (is_stream (kind it)); repeat (case_match; try reflexivity).
Qed.

Lemma fd_tick_item_upto l k i it : fd (tick_item_upto l k i it) = fd it.
Proof.
  unfold tick_item_upto, tick_item.
  destruct (is_stream (kind it)); repeat (case_match; try reflexivity).
Qed.

Lemma map_fd_imap_upto l0 k l :
  map fd (imap (tick_item_upto l0 k) l) = map fd l.
Proof.
  apply list_eq. intros i.
  change (map fd) with (fmap (M:=list) fd).
  rewrite !list_lookup_fmap, list_lookup_imap.
  destruct (l !! i); simpl; [|reflexivity]. rewrite fd_tick_item_upto. reflexivity.
Qed.

Lemma tick_replies_app l1 l2 : tick_replies (l1 ++ l2) = tick_replies l1 ++ tick_replies l2.
Proof. unfold tick_replies. rewrite filter_app, map_app. reflexivity. Qed.

Lemma tick_replies_quiet it : timed_out it = false -> tick_replies [it] = [].
Proof.
  intros H. unfold tick_replies. rewrite filter_cons_False by (rewrite H; discriminate).
  reflexivity.
Qed.

Lemma tick_replies_timed_out it :
  timed_out it = true -> tick_replies [it] = [timeout_reply it].
Proof.
  intros H. unfold tick_replies. rewrite filter_cons_True by assumption.
  reflexivity.
Qed.

Lemma partner_timed_out_snoc l t it :
  partner_timed_out (l ++ [t]) it =
  partner_timed_out l it || (timed_out t && routed t && (connected_to t =? fd it)).
Proof.
  unfold partner_timed_out. rewrite existsb_app. simpl. rewrite orb_false_r. reflexivity.
Qed.

Lemma disarm_idem it : disarm (disarm it) = disarm it.
Proof. reflexivity. Qed.

(** An iteration at a record that is not about to time out leaves the
    other records of the partial result as they are. *)
Lemma upto_succ_quiet l k it j y :
  l !! k = Some it -> l !! j = Some y -> j <> k -> timed_out it = false ->
  tick_item_upto l (S k) j y = tick_item_upto l k j y.
Proof.
  intros Hk Hj Hne Hto. unfold tick_item_upto.
  rewrite (take_S_r l k it Hk), partner_timed_out_snoc, Hto. simpl.
  rewrite orb_false_r.
  replace (j <? S k)%nat with (j <? k)%nat; [reflexivity|].
  destruct (Nat.ltb_spec j k), (Nat.ltb_spec j (S k)); try reflexivity; lia.
Qed.

Lemma tick_world_step_quiet w k it :
  fdList w !! k = Some it -> timed_out it = false ->
  (is_stream (kind it) = true -> tick_item (fdList w) it = it) ->
  tick_world w (S k) = tick_world w k.
Proof.
  intros Hk Hto Hsame. unfold tick_world. f_equal.
  - apply list_eq. intros j. rewrite !list_lookup_imap.
    destruct (fdList w !! j) as [y|] eqn:Hj; simpl; [|reflexivity]. f_equal.
    destruct (decide (j = k)) as [->|Hne].
    + assert (y = it) by congruence. subst y. unfold tick_item_upto.
      rewrite (take_S_r _ k it Hk), partner_timed_out_snoc, Hto. simpl.
      rewrite orb_false_r. rewrite Nat.ltb_irrefl.
      replace (k <? S k)%nat with true by (symmetry; apply Nat.ltb_lt; lia).
      destruct (is_stream (kind it)); [|reflexivity]. apply Hsame. reflexivity.
    + eapply upto_succ_quiet; eassumption.
  - rewrite (take_S_r _ k it Hk), tick_replies_app.
    rewrite (tick_replies_quiet it Hto), app_nil_r. reflexivity.
Qed.

Lemma lookup_update_fd f g l j :
  update_fd f g l !! j = (fun y => if fd y =? f then g y else y) <$> (l !! j).
Proof. unfold update_fd. apply list_lookup_fmap. Qed.

Lemma lookup_tick_world w k j :
  fdList (tick_world w k) !! j = tick_item_upto (fdList w) k j <$> (fdList w !! j).
Proof. unfold tick_world. simpl. apply list_lookup_imap. Qed.

Lemma tick_item_upto_self l k it :
  is_stream (kind it) = true -> tick_item_upto l k k it = it.
Proof. intros Hs. unfold tick_item_upto. rewrite Hs, Nat.ltb_irrefl. reflexivity. Qed.

(** Iterations that change nothing: the record is no stream, or its
    counter is not armed. *)
Lemma dosigalrm_step_skip w k it :
  fdList w !! k = Some it ->
  is_stream (kind it) = false \/ ticks it <= 0 ->
  dosigalrm_step (tick_world w k) k = tick_world w (S k).
Proof.
  intros Hk Hcase. unfold dosigalrm_step. rewrite lookup_tick_world, Hk. simpl.
  rewrite kind_tick_item_upto.
  assert (Hto : timed_out it = false).
  { unfold timed_out. destruct Hcase as [-> | Ht]; [reflexivity|].
    replace (ticks it =? 1) with false by lia. apply andb_false_r. }
  assert (Hsame : is_stream (kind it) = true -> tick_item (fdList w) it = it).
  { intros Hs. unfold tick_item. rewrite Hs.
    destruct Hcase as [Hn | Ht]; [congruence|].
    replace (ticks it <=? 0) with true by lia. reflexivity. }
  rewrite (tick_world_step_quiet w k it Hk Hto Hsame).
  destruct (is_stream (kind it)) eqn:Hs; simpl; [|reflexivity].
  rewrite tick_item_upto_self by assumption.
  destruct Hcase as [Hn | Ht]; [discriminate|].
  replace (ticks it <=? 0) with true by lia. reflexivity.
Qed.

(** An armed counter above one is decremented. *)
Lemma dosigalrm_step_decrement w k it :
  fdList w !! k = Some it -> is_stream (kind it) = true -> 1 < ticks it ->
  dosigalrm_step (tick_world w k) k = tick_world w (S k).
Proof.
  intros Hk Hs Ht. unfold dosigalrm_step. rewrite lookup_tick_world, Hk. simpl.
  rewrite kind_tick_item_upto, Hs. simpl.
  rewrite tick_item_upto_self by assumption.
  replace (ticks it <=? 0) with false by lia.
  replace (ticks it - 1 >? 0) with true by lia.
  assert (Hto : timed_out it = false).
  { unfold timed_out. replace (ticks it =? 1) with false by lia. apply andb_false_r. }
  unfold upd_fdList, set_fdList, tick_world. simpl. f_equal.
  - apply list_eq. intros j. rewrite list_lookup_imap.
    destruct (decide (j = k)) as [->|Hne].
    + rewrite list_lookup_alter_eq, list_lookup_imap, Hk. simpl. f_equal.
      rewrite tick_item_upto_self by assumption.
      unfold tick_item_upto. rewrite Hs.
      replace (k <? S k)%nat with true by (symmetry; apply Nat.ltb_lt; lia).
      unfold tick_item. rewrite Hs.
      replace (ticks it <=? 0) with false by lia.
      replace (ticks it =? 1) with false by lia. reflexivity.
    + rewrite list_lookup_alter_ne by auto. rewrite list_lookup_imap.
      destruct (fdList w !! j) as [y|] eqn:Hj; simpl; [|reflexivity]. f_equal.
      symmetry. eapply upto_succ_quiet; eassumption.
  - rewrite (take_S_r _ k it Hk), tick_replies_app.
    rewrite (tick_replies_quiet it Hto), app_nil_r. reflexivity.
Qed.

(** The counter reaches zero: the error goes out and both ends are
    disconnected. *)
Lemma dosigalrm_step_timeout w k it :
  unique_fds (fdList w) -> routes_to_backends (fdList w) ->
  fdList w !! k = Some it -> is_stream (kind it) = true -> ticks it = 1 ->
  dosigalrm_step (tick_world w k) k = tick_world w (S k).
Proof.
  intros Hnd Hrb Hk Hs Ht. unfold dosigalrm_step. rewrite lookup_tick_world, Hk. simpl.
  rewrite kind_tick_item_upto, Hs. simpl.
  rewrite tick_item_upto_self by assumption.
  replace (ticks it <=? 0) with false by lia.
  replace (ticks it - 1 >? 0) with false by lia.
  assert (Hto : timed_out it = true).
  { unfold timed_out. rewrite Hs. simpl. lia. }
  set (l := fdList w) in *.
  set (L1 := alter (set_ticks (ticks it - 1)) k (imap (tick_item_upto l k) l)).
  assert (HmL1 : map fd L1 = map fd l).
  { unfold L1. apply list_eq. intros j. change (map fd) with (fmap (M:=list) fd).
    rewrite !list_lookup_fmap.
    destruct (decide (j = k)) as [->|Hne].
    - rewrite list_lookup_alter_eq, list_lookup_imap, Hk. simpl.
      rewrite tick_item_upto_self by assumption. reflexivity.
    - rewrite list_lookup_alter_ne by auto. rewrite list_lookup_imap.
      destruct (l !! j); simpl; [|reflexivity]. rewrite fd_tick_item_upto. reflexivity. }
  assert (HndL1 : unique_fds L1) by (unfold unique_fds; rewrite HmL1; exact Hnd).
  assert (HL1k : L1 !! k = Some (set_ticks (ticks it - 1) it)).
  { unfold L1. rewrite list_lookup_alter_eq, list_lookup_imap, Hk. simpl.
    rewrite tick_item_upto_self by assumption. reflexivity. }
  assert (Hfind : FdList.find_fd (fd it) L1 = Some k).
  { apply (find_fd_unique L1 k (set_ticks (ticks it - 1) it)); assumption. }
  unfold disconnect_fds, send_error, write_socket, upd_fdList, set_fdList, tick_world.
  simpl. fold l. fold L1.
  pose proof (disconnect_fds_list_spec (fd it) L1 HndL1) as Hspec.
  destruct (disconnect_fds_list (fd it) L1) as [r L2] eqn:Hd. simpl in Hspec. subst L2.
  simpl. f_equal.
  - apply list_eq. intros j. rewrite list_lookup_imap.
    unfold disconnect_spec. rewrite Hfind, HL1k. simpl.
    destruct (decide (j = k)) as [->|Hne].
    + rewrite list_lookup_alter_eq, Hk. simpl.
      assert (Hup : tick_item_upto l (S k) k it = disarm it).
      { unfold tick_item_upto. rewrite Hs.
        replace (k <? S k)%nat with true by (symmetry; apply Nat.ltb_lt; lia).
        unfold tick_item. rewrite Hs.
        replace (ticks it <=? 0) with false by lia.
        replace (ticks it =? 1) with true by lia. reflexivity. }
      rewrite Hup.
      assert (Hself : connected_to it <> fd it).
      { apply (Hrb it it); try assumption; try lia; apply list_elem_of_lookup; eauto. }
      destruct (connected_to it =? 0) eqn:H0;
        [|destruct (connected_to it =? -1) eqn:H1];
        rewrite ?lookup_update_fd, HL1k; simpl; rewrite ?Z.eqb_refl; simpl.
      * reflexivity.
      * f_equal. destruct it; simpl in *. unfold disarm, set_ticks, set_connected_to.
        simpl. f_equal. lia.
      * replace (fd it =? connected_to it) with false by lia. reflexivity.
    + rewrite list_lookup_alter_ne by auto.
      assert (HL1j : L1 !! j = tick_item_upto l k j <$> l !! j).
      { unfold L1. rewrite list_lookup_alter_ne by auto. apply list_lookup_imap. }
      destruct (l !! j) as [y|] eqn:Hj.
      2:{ destruct (connected_to it =? 0); [|destruct (connected_to it =? -1)];
          rewrite ?lookup_update_fd, HL1j; reflexivity. }
      assert (Hfy : fd y <> fd it).
      { intros E. apply Hne. exact (unique_fds_lookup l j k y it Hnd Hj Hk E). }
      assert (Hup : tick_item_upto l (S k) j y =
                    if negb (is_stream (kind y)) && routed it && (connected_to it =? fd y)
                    then disarm (tick_item_upto l k j y) else tick_item_upto l k j y).
      { unfold tick_item_upto.
        rewrite (take_S_r l k it Hk), partner_timed_out_snoc, Hto. simpl.
        replace (j <? S k)%nat with (j <? k)%nat
          by (destruct (Nat.ltb_spec j k), (Nat.ltb_spec j (S k)); try reflexivity; lia).
        destruct (is_stream (kind y)); simpl; [reflexivity|].
        destruct (routed it && (connected_to it =? fd y)); simpl.
        - rewrite orb_true_r. destruct (partner_timed_out (take k l) y); reflexivity.
        - rewrite orb_false_r. reflexivity. }
      simpl. rewrite Hup.
      assert (Hstream : is_stream (kind y) = true -> connected_to it <> fd y).
      { intros Hsy. apply (Hrb it y); try assumption; try lia;
          apply list_elem_of_lookup; eauto. }
      unfold routed.
      destruct (connected_to it =? 0) eqn:H0;
        [|destruct (connected_to it =? -1) eqn:H1];
        rewrite ?lookup_update_fd, HL1j; simpl; rewrite ?fd_tick_item_upto;
        replace (fd y =? fd it) with false by lia; simpl.
      * rewrite andb_false_r. reflexivity.
      * rewrite andb_false_r. reflexivity.
      * rewrite fd_tick_item_upto.
        replace (fd y =? fd it) with false by lia.
        rewrite andb_true_r.
        destruct (is_stream (kind y)) eqn:Hsy; simpl.
        -- replace (fd y =? connected_to it) with false
             by (specialize (Hstream eq_refl); lia).
           reflexivity.
        -- rewrite (Z.eqb_sym (fd y)). destruct (connected_to it =? fd y); reflexivity.
  - rewrite (take_S_r _ k it Hk), tick_replies_app.
    rewrite (tick_replies_timed_out it Hto), <- app_assoc. reflexivity.
Qed.

Lemma tick_world_0 w : tick_world w 0 = w.
Proof.
  unfold tick_world. destruct w as [e l d s u i]. simpl. f_equal.
  - apply list_eq. intros j. rewrite list_lookup_imap.
    destruct (l !! j) as [y|]; simpl; [|reflexivity]. f_equal.
    unfold tick_item_upto. rewrite take_0. simpl.
    destruct (is_stream (kind y)); reflexivity.
  - unfold tick_replies. rewrite take_0. simpl. apply app_nil_r.
Qed.

Lemma tick_world_length w :
  fdList (tick_world w (length (fdList w))) = tick_spec (fdList w) /\
  sent (tick_world w (length (fdList w))) = sent w ++ tick_replies (fdList w).
Proof.
  unfold tick_world. simpl. rewrite firstn_all. split; [|reflexivity].
  unfold tick_spec. apply list_eq. intros j.
  change (map (tick_item (fdList w))) with (fmap (M:=list) (tick_item (fdList w))).
  rewrite list_lookup_imap, list_lookup_fmap.
  destruct (fdList w !! j) as [y|] eqn:Hj; simpl; [|reflexivity]. f_equal.
  unfold tick_item_upto. apply lookup_lt_Some in Hj.
  replace (j <? length (fdList w))%nat with true by (symmetry; apply Nat.ltb_lt; lia).
  rewrite firstn_all. unfold tick_item, partner_timed_out.
  destruct (is_stream (kind y)); reflexivity.
Qed.

Lemma dosigalrm_step_spec w k :
  unique_fds (fdList w) -> routes_to_backends (fdList w) ->
  (k < length (fdList w))%nat ->
  dosigalrm_step (tick_world w k) k = tick_world w (S k).
Proof.
  intros Hnd Hrb Hk. destruct (lookup_lt_is_Some_2 _ _ Hk) as [it Hit].
  destruct (is_stream (kind it)) eqn:Hs.
  - destruct (Z_lt_le_dec 1 (ticks it)) as [Hgt|Hle].
    + eapply dosigalrm_step_decrement; eassumption.
    + destruct (Z.eq_dec (ticks it) 1) as [H1|H1].
      * eapply dosigalrm_step_timeout; eassumption.
      * eapply dosigalrm_step_skip; [eassumption|]. right. lia.
  - eapply dosigalrm_step_skip; [eassumption|]. left. assumption.
Qed.

Lemma dosigalrm_loop w m k :
  unique_fds (fdList w) -> routes_to_backends (fdList w) ->
  (k + m <= length (fdList w))%nat ->
  fold_left dosigalrm_step (seq k m) (tick_world w k) = tick_world w (k + m).
Proof.
  intros Hnd Hrb. revert k. induction m as [|m IH]; intros k Hk; simpl.
  - rewrite Nat.add_0_r. reflexivity.
  - rewrite dosigalrm_step_spec by (try assumption; lia).
    rewrite IH by lia. f_equal. lia.
Qed.

Lemma dosigalrm_tick_world w :
  unique_fds (fdList w) -> routes_to_backends (fdList w) ->
  dosigalrm w = tick_world w (length (fdList w)).
Proof.
  intros Hnd Hrb. unfold dosigalrm.
  rewrite <- (tick_world_0 w) at 2.
  rewrite (dosigalrm_loop w (length (fdList w)) 0 Hnd Hrb) by lia.
  reflexivity.
Qed.

(** ** Strings *)

Lemma strncpy_short n s : (String.length s <= n)%nat -> strncpy n s = s.
Proof.
  revert s. induction n as [|n IH]; intros [|c s] H; simpl in *; try reflexivity; try lia.
  rewrite IH by lia. reflexivity.
Qed.

Lemma in_set_NL c : in_set c NL = Ascii.eqb c nl.
Proof. simpl. apply orb_false_r. Qed.

Lemma strrchr_none_in s : none_in NL s = true -> strrchr nl s = None.
Proof.
  induction s as [|c s IH]; simpl; intros H; [reflexivity|].
  apply andb_true_iff in H as [Hc Hs]. rewrite (IH Hs).
  rewrite orb_false_r in Hc. destruct (Ascii.eqb c nl); [discriminate|reflexivity].
Qed.

Lemma strip_trailing_nl_none_in s : none_in NL s = true -> strip_trailing_nl s = s.
Proof. intros H. unfold strip_trailing_nl. rewrite strrchr_none_in; auto. Qed.



Lemma routes_to_backends_test l : routes_to_backends_b l = true -> routes_to_backends l.
Proof.
  unfold routes_to_backends_b. rewrite forallb_forall. intros H t s Ht Hs Hst Hticks Hss E.
  apply list_elem_of_In in Ht, Hs. specialize (H t Ht). rewrite forallb_forall in H.
  specialize (H s Hs). rewrite Hst, Hss in H.
  replace (0 <? ticks t) with true in H by lia.
  replace (connected_to t =? fd s) with true in H by lia. discriminate.
Qed.


(** ** Settling a command line *)


Lemma alter_keeps_routing (g : FdItem -> FdItem) i l :
  (forall x, fd (g x) = fd x) ->
  (forall x, connected_to (g x) = connected_to x) ->
  (forall x, ticks (g x) = ticks x) ->
  map fd (alter g i l) = map fd l /\
  map (fun x => (connected_to x, ticks x)) (alter g i l)
  = map (fun x => (connected_to x, ticks x)) l.
Proof.
  intros Hfd Hc Ht. split; apply list_eq; intros j;
    [change (map fd) with (fmap (M:=list) fd)
    |change (map (fun x => (connected_to x, ticks x)))
       with (fmap (M:=list) (fun x => (connected_to x, ticks x)))];
    rewrite !list_lookup_fmap;
    (destruct (decide (j = i)) as [->|Hne];
     [rewrite list_lookup_alter_eq; destruct (l !! i); simpl; rewrite ?Hfd, ?Hc, ?Ht;
      reflexivity
     |rewrite list_lookup_alter_ne by auto; reflexivity]).
Qed.


Lemma unique_fds_alter (g : FdItem -> FdItem) i l :
  (forall x, fd (g x) = fd x) -> unique_fds l -> unique_fds (alter g i l).
Proof.
  intros Hfd H. unfold unique_fds.
  replace (map fd (alter g i l)) with (map fd l); [assumption|].
  apply list_eq. intros j. change (map fd) with (fmap (M:=list) fd).
  rewrite !list_lookup_fmap.
  destruct (decide (j = i)) as [->|Hne].
  - rewrite list_lookup_alter_eq. destruct (l !! i); simpl; rewrite ?Hfd; reflexivity.
  - rewrite list_lookup_alter_ne by auto. reflexivity.
Qed.

Lemma routing_state_lookup l f i x :
  FdList.find_fd f l = Some i -> l !! i = Some x ->
  routing_state l f = Some (connected_to x, ticks x).
Proof. intros Hf Hx. unfold routing_state. rewrite Hf, Hx. reflexivity. Qed.


Lemma routing_state_disconnect f l i x :
  unique_fds l -> FdList.find_fd f l = Some i -> l !! i = Some x ->
  connected_to x <> 0 ->
  routing_state (disconnect_spec f l) f = Some (-1, -1).
Proof.
  intros Hnd Hf Hx H0. unfold routing_state.
  rewrite (find_fd_map_fd f _ l (map_fd_disconnect_spec f l)), Hf.
  unfold disconnect_spec. rewrite Hf, Hx.
  replace (connected_to x =? 0) with false by lia.
  assert (Hfx : fd x = f).
  { apply find_fd_Some in Hf as (y & Hy & Hfy). congruence. }
  destruct (connected_to x =? -1) eqn:H1; rewrite !lookup_update_fd, Hx; simpl.
  - replace (fd x =? f) with true by lia. simpl. f_equal. f_equal. lia.
  - replace (fd x =? f) with true by lia. simpl.
    destruct (fd x =? connected_to x); reflexivity.
Qed.

Lemma connect_fds_world c b w :
  unique_fds (fdList w) ->
  snd (connect_fds c b w) = set_fdList (connect_spec c b (fdList w)) w.
Proof.
  intros Hnd. unfold connect_fds.
  pose proof (connect_fds_list_spec c b (fdList w) Hnd) as H.
  destruct (connect_fds_list c b (fdList w)) as [r l]. simpl in *. rewrite H. reflexivity.
Qed.

Lemma disconnect_fds_world f w :
  unique_fds (fdList w) ->
  snd (disconnect_fds f w) = set_fdList (disconnect_spec f (fdList w)) w.
Proof.
  intros Hnd. unfold disconnect_fds.
  pose proof (disconnect_fds_list_spec f (fdList w) Hnd) as H.
  destruct (disconnect_fds_list f (fdList w)) as [r l]. simpl in *. rewrite H. reflexivity.
Qed.



Lemma unique_fds_connect_spec c b l : unique_fds l -> unique_fds (connect_spec c b l).
Proof. intros H. unfold unique_fds. rewrite map_fd_connect_spec. exact H. Qed.

Lemma routing_state_found l f r :
  routing_state l f = Some r ->
  exists i y, FdList.find_fd f l = Some i /\ l !! i = Some y /\
              r = (connected_to y, ticks y).
Proof.
  unfold routing_state. intros H.
  destruct (FdList.find_fd f l) as [i|]; [|discriminate].
  destruct (l !! i) as [y|] eqn:Hy; [|discriminate]. simpl in H. inversion H.
  exists i, y. split; [reflexivity|]. split; [exact Hy|reflexivity].
Qed.



Lemma has_token_strtok line :
  has_token line = true ->
  exists tok saved, strtok WS_TNR (strncpy PACKET_SIZE line) = (Some tok, saved).
Proof.
  unfold has_token. destruct (strtok WS_TNR (strncpy PACKET_SIZE line)) as [[tok|] saved];
    [eauto|discriminate].
Qed.

Lemma no_token_strtok line :
  has_token line = false ->
  exists saved, strtok WS_TNR (strncpy PACKET_SIZE line) = (None, saved).
Proof.
  unfold has_token. destruct (strtok WS_TNR (strncpy PACKET_SIZE line)) as [[tok|] saved];
    [discriminate|eauto].
Qed.

Lemma handle_ctrl_cmd_no_token line f w :
  has_token line = false -> handle_ctrl_cmd line f w = Returned true w.
Proof.
  intros H. unfold handle_ctrl_cmd. destruct (no_token_strtok line H) as (saved & ->).
  reflexivity.
Qed.


(** ** A backend that two clients address *)

Lemma routing_state_connect_spec c b l f :
  FdList.find_fd b l <> None -> c <> 0 ->
  routing_state (connect_spec c b l) f =
  match routing_state l f with
  | None => None
  | Some (ct, t) =>
      Some (if f =? c then (b, COMMAND_TIMEOUT_TICKS)
            else if f =? b then (c, t) else (ct, t))
  end.
Proof.
  intros Hb Hc. unfold routing_state.
  rewrite (find_fd_map_fd f _ l (map_fd_connect_spec c b l)).
  destruct (FdList.find_fd f l) as [i|] eqn:Hf; [|reflexivity].
  apply find_fd_Some in Hf as (x & Hx & Hfx).
  unfold connect_spec. destruct (FdList.find_fd b l); [|contradiction].
  replace (c =? 0) with false by lia.
  rewrite !lookup_update_fd, Hx. cbn [fmap option_fmap option_map].
  subst f. cbn beta.
  destruct (fd x =? b) eqn:Eb; cbn [fd set_connected_to];
    destruct (fd x =? c) eqn:Ec; cbn [fd set_connected_to set_ticks connected_to ticks];
    reflexivity.
Qed.

Lemma routing_state_record l f ct t :
  routing_state l f = Some (ct, t) ->
  exists x, x ∈ l /\ fd x = f /\ connected_to x = ct /\ ticks x = t.
Proof.
  intros H. apply routing_state_found in H as (i & y & Hf & Hy & E). inversion E; subst.
  apply find_fd_Some in Hf as (y' & Hy' & Hfy). rewrite Hy in Hy'. inversion Hy'; subst y'.
  exists y. split; [apply list_elem_of_lookup; eauto|]. repeat split; assumption.
Qed.

(** C2: [connect_fds] has no test of whether its ends are engaged.  When
    a second client is connected to a backend that a first client waits
    for, the record of the backend points at the second client while the
    first still points at the backend with its counter armed: the routing
    relation is no longer symmetric and two clients are connected to one
    backend.  The command handlers make these calls: the lines of two
    clients to the default backend leave the registry in that state, and
    the reply of the backend then goes to the second client alone. *)
Theorem second_client_takes_backend :
  (forall (c1 c2 b : Z) (l : list FdItem),
     unique_fds l -> c1 <> 0 -> c2 <> 0 -> c1 <> c2 -> c1 <> b -> c2 <> b ->
     routing_state l c1 <> None -> routing_state l c2 <> None ->
     routing_state l b <> None ->
     let l' := run_ops [Connect c1 b; Connect c2 b] l in
     routing_state l' c1 = Some (b, COMMAND_TIMEOUT_TICKS) /\
     routing_state l' c2 = Some (b, COMMAND_TIMEOUT_TICKS) /\
     (exists t, routing_state l' b = Some (c2, t)) /\
     ~ routing_symmetric l' /\ ~ one_client_per_backend l') /\
  (let w1 := world_of (handle_client_line "SEND_ONCE rem KEY_1" 9 w_clients) in
   let w2 := world_of (handle_client_line "SEND_ONCE rem KEY_2" 11 w1) in
   let w3 := world_of (handle_lines handle_backend_line
                         ["BEGIN"; "SEND_ONCE rem KEY_1"; "SUCCESS"; "END"] 7 w2) in
   all_idle (fdList w_clients) /\
   routing_state (fdList w2) 9 = Some (7, 20) /\
   routing_state (fdList w2) 11 = Some (7, 20) /\
   routing_state (fdList w2) 7 = Some (11, -1) /\
   sent_to 9 w3 = [] /\
   sent_to 11 w3 = ["BEGIN"; "SEND_ONCE rem KEY_1"; "SUCCESS"; "END"] /\
   routing_state (fdList w3) 9 = Some (7, 20)).
Proof.
  split.
  - intros c1 c2 b l Hnd H1 H2 H12 H1b H2b Hr1 Hr2 Hrb l'.
    assert (Hb : FdList.find_fd b l <> None).
    { unfold routing_state in Hrb. destruct (FdList.find_fd b l); [discriminate|congruence]. }
    assert (El : l' = connect_spec c2 b (connect_spec c1 b l)).
    { unfold l', run_ops. cbn [fold_left run_op].
      rewrite (connect_fds_list_spec c1 b l Hnd).
      rewrite connect_fds_list_spec by (apply unique_fds_connect_spec; exact Hnd).
      reflexivity. }
    assert (Hb' : FdList.find_fd b (connect_spec c1 b l) <> None).
    { rewrite (find_fd_map_fd b _ l (map_fd_connect_spec c1 b l)). exact Hb. }
    assert (S : forall f, routing_state l' f =
              match routing_state l f with
              | None => None
              | Some (ct, t) =>
                  Some (if f =? c2 then (b, COMMAND_TIMEOUT_TICKS)
                        else if f =? b then (c2, t)
                        else if f =? c1 then (b, COMMAND_TIMEOUT_TICKS) else (ct, t))
              end).
    { intros f. rewrite El.
      rewrite (routing_state_connect_spec c2 b _ f Hb' H2).
      rewrite (routing_state_connect_spec c1 b l f Hb H1).
      destruct (routing_state l f) as [[ct t]|]; [|reflexivity].
      destruct (Z.eqb_spec f c2); destruct (Z.eqb_spec f b); destruct (Z.eqb_spec f c1);
        try reflexivity; subst; contradiction. }
    assert (S1 : routing_state l' c1 = Some (b, COMMAND_TIMEOUT_TICKS)).
    { rewrite S. destruct (routing_state l c1) as [[ct t]|]; [|contradiction].
      replace (c1 =? c2) with false by lia. replace (c1 =? b) with false by lia.
      rewrite Z.eqb_refl. reflexivity. }
    assert (S2 : routing_state l' c2 = Some (b, COMMAND_TIMEOUT_TICKS)).
    { rewrite S. destruct (routing_state l c2) as [[ct t]|]; [|contradiction].
      rewrite Z.eqb_refl. reflexivity. }
    assert (Sb : exists t, routing_state l' b = Some (c2, t)).
    { rewrite S. destruct (routing_state l b) as [[ct t]|]; [|contradiction].
      replace (b =? c2) with false by lia. rewrite Z.eqb_refl. eauto. }
    split; [exact S1|]. split; [exact S2|]. split; [exact Sb|].
    destruct Sb as (t & Sb).
    apply routing_state_record in S1 as (x1 & I1 & F1 & C1 & _).
    apply routing_state_record in S2 as (x2 & I2 & F2 & C2 & _).
    apply routing_state_record in Sb as (xb & Ib & Fb & Cb & _).
    split.
    + intros Hs. destruct (Hs x1 xb I1 Ib ltac:(congruence)) as [E|E]; lia.
    + intros Ho. pose proof (Ho x1 x2 xb I1 I2 Ib ltac:(congruence) ltac:(congruence)) as E.
      subst x2. lia.
  - cbv zeta. split; [vm_compute; repeat constructor|].
    repeat split; vm_compute; reflexivity.
Qed.

Lemma second_client_takes_backend_witness :
  let l' := run_ops [Connect 9 7; Connect 11 7] (fdList w_clients) in
  routing_state l' 9 = Some (7, COMMAND_TIMEOUT_TICKS) /\
  routing_state l' 11 = Some (7, COMMAND_TIMEOUT_TICKS) /\
  (exists t, routing_state l' 7 = Some (11, t)) /\
  ~ routing_symmetric l' /\ ~ one_client_per_backend l'.
Proof.
  apply (proj1 second_client_takes_backend 9 11 7 (fdList w_clients)); try lia;
    try (vm_compute; discriminate).
  unfold unique_fds. vm_compute. nodup_Z.
Defined.

(** ** Counting down to the timeout *)

Lemma tick_item_fd l it : fd (tick_item l it) = fd it.
Proof. unfold tick_item. repeat case_match; reflexivity. Qed.

Lemma tick_item_kind l it : kind (tick_item l it) = kind it.
Proof. unfold tick_item. repeat case_match; reflexivity. Qed.

Lemma tick_item_expected l it : expected (tick_item l it) = expected it.
Proof. unfold tick_item. repeat case_match; reflexivity. Qed.

Lemma map_fd_tick_spec l : map fd (tick_spec l) = map fd l.
Proof.
  unfold tick_spec. rewrite map_map. apply map_ext. intros x. apply tick_item_fd.
Qed.

Lemma unique_fds_tick_spec l : unique_fds l -> unique_fds (tick_spec l).
Proof. unfold unique_fds. rewrite map_fd_tick_spec. auto. Qed.

Lemma routes_to_backends_tick_spec l :
  routes_to_backends l -> routes_to_backends (tick_spec l).
Proof.
  intros H t' s' Ht' Hs'. unfold tick_spec in *.
  apply list_elem_of_fmap in Ht' as (t & -> & Ht).
  apply list_elem_of_fmap in Hs' as (s & -> & Hs).
  rewrite !tick_item_kind, tick_item_fd. intros Hst Hticks Hss.
  specialize (H t s Ht Hs Hst).
  unfold tick_item in *. rewrite Hst in *.
  destruct (ticks t <=? 0) eqn:E0; [apply H; [lia|assumption]|].
  destruct (ticks t =? 1) eqn:E1; simpl in *; [lia|].
  apply H; [lia|assumption].
Qed.

Lemma filter_fd_unique l i it :
  unique_fds l -> l !! i = Some it -> filter (fun x => fd x = fd it) l = [it].
Proof.
  revert i. induction l as [|a l IH]; intros i Hnd Hi; [discriminate|].
  unfold unique_fds in Hnd. simpl in Hnd. apply NoDup_cons in Hnd as [Hnotin Hnd].
  destruct i as [|i]; simpl in Hi.
  - inversion Hi; subst a. rewrite filter_cons_True by reflexivity. f_equal.
    clear -Hnotin. induction l as [|b l IH]; [reflexivity|].
    rewrite filter_cons_False.
    + apply IH. intros Hin. apply Hnotin. simpl. apply elem_of_cons. right. exact Hin.
    + intros E. apply Hnotin. simpl. rewrite E. apply elem_of_cons. left. reflexivity.
  - rewrite filter_cons_False.
    + apply (IH i); assumption.
    + intros E. apply Hnotin. rewrite E.
      apply list_elem_of_fmap. exists it. split; [reflexivity|].
      apply list_elem_of_lookup. eauto.
Qed.

Lemma sent_to_app f w extra :
  map snd (filter (fun m => fst m = f) (sent w ++ extra)) =
  sent_to f w ++ map snd (filter (fun m => fst m = f) extra).
Proof. unfold sent_to. rewrite filter_app, map_app. reflexivity. Qed.

Lemma sent_to_tick_replies l i it :
  unique_fds l -> l !! i = Some it ->
  map snd (filter (fun m => fst m = fd it) (tick_replies l)) =
  if timed_out it then [error_packet (expected it) "TIMEOUT"] else [].
Proof.
  intros Hnd Hi. unfold tick_replies.
  assert (E : filter (fun m : Z * string => fst m = fd it)
                (map timeout_reply (filter (fun x => timed_out x = true) l))
              = map timeout_reply
                  (filter (fun x => timed_out x = true) (filter (fun x => fd x = fd it) l))).
  { clear. induction l as [|a l IH]; [reflexivity|].
    destruct (timed_out a) eqn:Ta.
    - rewrite (filter_cons_True (fun x => timed_out x = true)) by assumption. simpl.
      destruct (decide (fd a = fd it)) as [E|E].
      + rewrite (filter_cons_True (fun m : Z * string => fst m = fd it)) by exact E.
        rewrite (filter_cons_True (fun x => fd x = fd it)) by exact E.
        rewrite (filter_cons_True (fun x => timed_out x = true)) by assumption.
        simpl. f_equal. exact IH.
      + rewrite (filter_cons_False (fun m : Z * string => fst m = fd it)) by exact E.
        rewrite (filter_cons_False (fun x => fd x = fd it)) by exact E. exact IH.
    - rewrite (filter_cons_False (fun x => timed_out x = true)) by congruence.
      destruct (decide (fd a = fd it)) as [E|E].
      + rewrite (filter_cons_True (fun x => fd x = fd it)) by exact E.
        rewrite (filter_cons_False (fun x => timed_out x = true)) by congruence.
        exact IH.
      + rewrite (filter_cons_False (fun x => fd x = fd it)) by exact E. exact IH. }
  rewrite E, (filter_fd_unique l i it Hnd Hi).
  destruct (timed_out it) eqn:T.
  - rewrite filter_cons_True by assumption. reflexivity.
  - rewrite filter_cons_False by congruence. reflexivity.
Qed.

(** One tick, seen from one stream record. *)
Lemma dosigalrm_at w i it :
  unique_fds (fdList w) -> routes_to_backends (fdList w) ->
  fdList w !! i = Some it -> is_stream (kind it) = true ->
  unique_fds (fdList (dosigalrm w)) /\ routes_to_backends (fdList (dosigalrm w)) /\
  fdList (dosigalrm w) !! i = Some (tick_item (fdList w) it) /\
  sent_to (fd it) (dosigalrm w) =
    sent_to (fd it) w ++ (if ticks it =? 1 then [error_packet (expected it) "TIMEOUT"] else []).
Proof.
  intros Hnd Hrb Hi Hs.
  rewrite (dosigalrm_tick_world w Hnd Hrb).
  destruct (tick_world_length w) as [Hl Hsent]. rewrite Hl.
  split; [apply unique_fds_tick_spec; assumption|].
  split; [apply routes_to_backends_tick_spec; assumption|].
  split.
  - unfold tick_spec. change (map (tick_item (fdList w)))
      with (fmap (M:=list) (tick_item (fdList w))).
    rewrite list_lookup_fmap, Hi. reflexivity.
  - unfold sent_to at 1. rewrite Hsent, sent_to_app.
    rewrite (sent_to_tick_replies _ i it Hnd Hi). unfold timed_out. rewrite Hs. reflexivity.
Qed.

Lemma iter_succ_r {A} (f : A -> A) n x : Nat.iter (S n) f x = Nat.iter n f (f x).
Proof. induction n as [|n IH]; [reflexivity|]. simpl in *. rewrite IH. reflexivity. Qed.

(** A disarmed stream record hears nothing from the heartbeat. *)
Lemma disarmed_silent n : forall w i it,
  unique_fds (fdList w) -> routes_to_backends (fdList w) ->
  fdList w !! i = Some it -> is_stream (kind it) = true -> ticks it <= 0 ->
  sent_to (fd it) (Nat.iter n dosigalrm w) = sent_to (fd it) w.
Proof.
  induction n as [|n IH]; intros w i it Hnd Hrb Hi Hs Ht; [reflexivity|].
  rewrite iter_succ_r.
  destruct (dosigalrm_at w i it Hnd Hrb Hi Hs) as (Hnd' & Hrb' & Hi' & Hsent).
  assert (E : tick_item (fdList w) it = it).
  { unfold tick_item. rewrite Hs. replace (ticks it <=? 0) with true by lia. reflexivity. }
  rewrite E in Hi'.
  rewrite (IH (dosigalrm w) i it Hnd' Hrb' Hi' Hs Ht), Hsent.
  replace (ticks it =? 1) with false by lia. apply app_nil_r.
Qed.

(** An armed stream record hears nothing until its counter expires, then
    one TIMEOUT error, then nothing. *)
Lemma armed_countdown n : forall w i it,
  unique_fds (fdList w) -> routes_to_backends (fdList w) ->
  fdList w !! i = Some it -> is_stream (kind it) = true ->
  ticks it = Z.of_nat (S n) ->
  sent_to (fd it) (Nat.iter n dosigalrm w) = sent_to (fd it) w /\
  forall m, sent_to (fd it) (Nat.iter (S n + m) dosigalrm w) =
            sent_to (fd it) w ++ [error_packet (expected it) "TIMEOUT"].
Proof.
  induction n as [|n IH]; intros w i it Hnd Hrb Hi Hs Ht.
  - split; [reflexivity|]. intros m.
    replace (1 + m)%nat with (S m) by lia. rewrite iter_succ_r.
    destruct (dosigalrm_at w i it Hnd Hrb Hi Hs) as (Hnd' & Hrb' & Hi' & Hsent).
    assert (E : tick_item (fdList w) it = disarm it).
    { unfold tick_item. rewrite Hs. replace (ticks it <=? 0) with false by lia.
      replace (ticks it =? 1) with true by lia. reflexivity. }
    rewrite E in Hi'.
    pose proof (disarmed_silent m (dosigalrm w) i (disarm it) Hnd' Hrb' Hi' Hs) as Hq.
    change (fd (disarm it)) with (fd it) in Hq. rewrite Hq by (simpl; lia).
    rewrite Hsent.
    replace (ticks it =? 1) with true by lia. reflexivity.
  - destruct (dosigalrm_at w i it Hnd Hrb Hi Hs) as (Hnd' & Hrb' & Hi' & Hsent).
    assert (E : tick_item (fdList w) it = set_ticks (ticks it - 1) it).
    { unfold tick_item. rewrite Hs. replace (ticks it <=? 0) with false by lia.
      replace (ticks it =? 1) with false by lia. reflexivity. }
    rewrite E in Hi'.
    destruct (IH (dosigalrm w) i (set_ticks (ticks it - 1) it) Hnd' Hrb' Hi' Hs)
      as [Hquiet Hfire]; [simpl; lia|].
    change (fd (set_ticks (ticks it - 1) it)) with (fd it) in *.
    change (expected (set_ticks (ticks it - 1) it)) with (expected it) in *.
    replace (ticks it =? 1) with false in Hsent by lia. rewrite app_nil_r in Hsent.
    split.
    + rewrite iter_succ_r, Hquiet, Hsent. reflexivity.
    + intros m. replace (S (S n) + m)%nat with (S (S n + m)) by lia.
      rewrite iter_succ_r, Hfire, Hsent. reflexivity.
Qed.

Lemma routing_state_disconnect_other f l i x :
  unique_fds l -> FdList.find_fd f l = Some i -> l !! i = Some x ->
  connected_to x <> 0 -> connected_to x <> -1 ->
  routing_state l (connected_to x) <> None ->
  routing_state (disconnect_spec f l) (connected_to x) = Some (-1, -1).
Proof.
  intros Hnd Hf Hx H0 H1 Hfound. unfold routing_state in *.
  rewrite (find_fd_map_fd (connected_to x) _ l (map_fd_disconnect_spec f l)).
  destruct (FdList.find_fd (connected_to x) l) as [j|] eqn:Hj; [|contradiction].
  apply find_fd_Some in Hj as (y & Hy & Hfy).
  unfold disconnect_spec. rewrite Hf, Hx.
  replace (connected_to x =? 0) with false by lia.
  replace (connected_to x =? -1) with false by lia.
  rewrite !lookup_update_fd, Hy. simpl.
  destruct (fd y =? f); simpl; replace (fd y =? connected_to x) with true by lia;
    reflexivity.
Qed.

(** A line of the backend a client waits for goes to that client as it
    is; a line that starts with END ends the conversation on both sides. *)
Lemma handle_backend_line_forwards line b w c tb :
  unique_fds (fdList w) -> routing_state (fdList w) b = Some (c, tb) -> 0 < c ->
  exists w', handle_backend_line line b w = Returned true w' /\
    sent w' = sent w ++ [(c, line)] /\
    (strncpy 3 line <> "END" -> fdList w' = fdList w) /\
    (strncpy 3 line = "END" ->
       routing_state (fdList w') b = Some (-1, -1) /\
       (routing_state (fdList w) c <> None ->
        routing_state (fdList w') c = Some (-1, -1))).
Proof.
  intros Hnd Hr Hc. apply routing_state_found in Hr as (i & x & Hi & Hx & E).
  inversion E; subst c tb. unfold handle_backend_line. rewrite Hi, Hx.
  replace (connected_to x <? 0) with false by lia.
  replace (connected_to x =? 0) with false by lia.
  destruct (String.eqb_spec (strncpy 3 line) "END") as [Hend|Hend].
  - rewrite disconnect_fds_world by exact Hnd.
    eexists. split; [reflexivity|]. split; [reflexivity|]. split; [contradiction|].
    intros _. simpl. split.
    + eapply routing_state_disconnect; try eassumption. lia.
    + intros Hfound. eapply routing_state_disconnect_other; try eassumption; lia.
  - eexists. split; [reflexivity|]. split; [reflexivity|]. split; [reflexivity|].
    contradiction.
Qed.

(** A line of a backend that no one waits for is refused. *)
Lemma handle_backend_line_unsolicited line b w c t :
  routing_state (fdList w) b = Some (c, t) -> c < 0 ->
  handle_backend_line line b w = Returned false w.
Proof.
  intros Hr Hc. apply routing_state_found in Hr as (i & x & Hi & Hx & E).
  inversion E; subst c t. unfold handle_backend_line. rewrite Hi, Hx.
  replace (connected_to x <? 0) with true by lia. reflexivity.
Qed.

(** C1: command lines that get no terminal reply.  [handle_backend_line]
    compares the first three characters of a line of the backend with
    END: a line of the reply that only starts with these letters, like the
    remote name ENDURO, is relayed and ends the conversation on both sides,
    and the line that follows it is refused as unsolicited, which makes
    [process_item_input] remove the backend.  The client has then
    received the reply up to that line and, being disarmed, gets neither
    the END line nor a TIMEOUT at any later tick.  A control line without
    a token is not answered either, and the connection is kept. *)
Theorem reply_cut_at_end_prefix :
  (forall line next b c tb w,
     unique_fds (fdList w) -> routing_state (fdList w) b = Some (c, tb) -> 0 < c ->
     routing_state (fdList w) c <> None -> strncpy 3 line = "END" ->
     exists w', handle_backend_line line b w = Returned true w' /\
       sent w' = sent w ++ [(c, line)] /\
       routing_state (fdList w') b = Some (-1, -1) /\
       routing_state (fdList w') c = Some (-1, -1) /\
       handle_backend_line next b w' = Returned false w') /\
  (forall line f w, has_token line = false -> handle_ctrl_cmd line f w = Returned true w) /\
  (let w' := world_of (process_item_input (new_item 7 BACKEND_CMD (-1)) (Lines cut_reply)
                                          w_list_in_flight) in
   routing_state (fdList w_list_in_flight) 9 = Some (7, 20) /\
   sent_to 9 w_list_in_flight = [] /\
   sent_to 9 w' = ["BEGIN"; "LIST"; "SUCCESS"; "DATA"; "2"; "ENDURO"] /\
   routing_state (fdList w') 9 = Some (-1, -1) /\
   routing_state (fdList w') 7 = None /\ default_backend w' = -1 /\
   forall n, sent_to 9 (Nat.iter n dosigalrm w') = sent_to 9 w').
Proof.
  split; [|split].
  - intros line next b c tb w Hnd Hr Hc Hreg Hend.
    destruct (handle_backend_line_forwards line b w c tb Hnd Hr Hc)
      as (w' & H1 & H2 & _ & H4).
    destruct (H4 Hend) as [Hb Hcl]. exists w'.
    split; [exact H1|]. split; [exact H2|]. split; [exact Hb|].
    split; [exact (Hcl Hreg)|].
    apply (handle_backend_line_unsolicited next b w' (-1) (-1) Hb). lia.
  - intros line f w. apply handle_ctrl_cmd_no_token.
  - cbv zeta.
    set (w' := world_of (process_item_input (new_item 7 BACKEND_CMD (-1)) (Lines cut_reply)
                                            w_list_in_flight)).
    split; [vm_compute; reflexivity|]. split; [vm_compute; reflexivity|].
    split; [vm_compute; reflexivity|]. split; [vm_compute; reflexivity|].
    split; [vm_compute; reflexivity|]. split; [vm_compute; reflexivity|].
    intros n.
    assert (Hi : fdList w' !! 4%nat = Some (new_item 9 CLIENT_STREAM (-1)))
      by (vm_compute; reflexivity).
    pose proof (disarmed_silent n w' 4 (new_item 9 CLIENT_STREAM (-1))) as H.
    change (fd (new_item 9 CLIENT_STREAM (-1))) with 9 in H.
    apply H.
    + unfold unique_fds. vm_compute. nodup_Z.
    + apply routes_to_backends_test. vm_compute. reflexivity.
    + exact Hi.
    + reflexivity.
    + vm_compute. discriminate.
Qed.

Lemma reply_cut_at_end_prefix_witness :
  exists w', handle_backend_line "ENDURO" 7 w_list_in_flight = Returned true w' /\
    sent w' = sent w_list_in_flight ++ [(9, "ENDURO")] /\
    routing_state (fdList w') 7 = Some (-1, -1) /\
    routing_state (fdList w') 9 = Some (-1, -1) /\
    handle_backend_line "DENON" 7 w' = Returned false w'.
Proof.
  apply (proj1 reply_cut_at_end_prefix "ENDURO" "DENON" 7 9 (-1) w_list_in_flight).
  - unfold unique_fds. vm_compute. nodup_Z.
  - vm_compute. reflexivity.
  - lia.
  - vm_compute. discriminate.
  - reflexivity.
Defined.

(** ** Strings *)

Lemma append_nil (b : string) : "" +:+ b = b.
Proof. reflexivity. Qed.

Lemma append_cons x (a b : string) : String x a +:+ b = String x (a +:+ b).
Proof. reflexivity. Qed.

Lemma append_assoc (a b c : string) : (a +:+ b) +:+ c = a +:+ b +:+ c.
Proof.
  induction a as [|x a IH]; [reflexivity|]. rewrite !append_cons. f_equal. exact IH.
Qed.

Lemma append_empty_r (a : string) : a +:+ "" = a.
Proof. induction a as [|c a IH]; [reflexivity|]. rewrite append_cons, IH. reflexivity. Qed.

Lemma span_until_props d s t r :
  span_until d s = (t, r) ->
  none_in d t = true /\ (String.length t <= String.length s)%nat.
Proof.
  revert t r. induction s as [|c s IH]; intros t r H; simpl in H.
  - injection H as <- <-. split; [reflexivity|simpl; lia].
  - destruct (in_set c d) eqn:Ec.
    + injection H as <- <-. split; [reflexivity|simpl; lia].
    + destruct (span_until d s) as [t' r'] eqn:E. injection H as <- <-.
      destruct (IH t' r' eq_refl) as [Hn Hl]. split.
      * simpl. rewrite Ec, Hn. reflexivity.
      * simpl. lia.
Qed.

Lemma none_in_app d a b : none_in d (a +:+ b) = none_in d a && none_in d b.
Proof.
  induction a as [|c a IH]; [rewrite append_nil; reflexivity|].
  rewrite append_cons. simpl. rewrite IH, andb_assoc. reflexivity.
Qed.

Lemma none_in_weaken d d' s :
  (forall c, in_set c d' = true -> in_set c d = true) ->
  none_in d s = true -> none_in d' s = true.
Proof.
  intros H. induction s as [|c s IH]; simpl; [reflexivity|]. intros Hs.
  apply andb_true_iff in Hs as [Hc Hs]. rewrite (IH Hs), andb_true_r.
  destruct (in_set c d') eqn:E; [|reflexivity].
  rewrite (H c E) in Hc. discriminate.
Qed.


(** ** Commands in flight *)

(** C4 (the code departs from it): a command line of a client is sent on
    to the default backend as soon as it is read, whatever the routing
    state of the client: a line that arrives while a command is in
    flight is not held back. *)
Theorem in_flight_line_dispatched (line : string) (f : Z) (w : World) (ci bi : nat) :
  has_token line = true ->
  FdList.find_fd f (fdList w) = Some ci ->
  FdList.find_fd (default_backend w) (fdList w) = Some bi ->
  exists w', handle_client_line line f w = Returned true w' /\
             sent w' = sent w ++ [(default_backend w, line)].
Proof.
  intros Htok Hc Hb. unfold handle_client_line.
  destruct (has_token_strtok line Htok) as (cmdptr & saved & ->).
  rewrite Hc. unfold commands_get_backend. rewrite Hb.
  eexists. split; [reflexivity|]. unfold connect_fds. simpl.
  destruct (connect_fds_list _ _ _). reflexivity.
Qed.

Lemma in_flight_line_dispatched_witness :
  routing_state (fdList (Nat.iter 5 dosigalrm w_in_flight)) 9 = Some (7, 15) /\
  exists w', handle_client_line "SEND_ONCE rem KEY_2" 9 (Nat.iter 5 dosigalrm w_in_flight)
             = Returned true w' /\
             sent w' = sent (Nat.iter 5 dosigalrm w_in_flight)
                       ++ [(default_backend (Nat.iter 5 dosigalrm w_in_flight),
                            "SEND_ONCE rem KEY_2")].
Proof.
  split; [vm_compute; reflexivity|].
  assert (Ht : has_token "SEND_ONCE rem KEY_2" = true) by (vm_compute; reflexivity).
  assert (Hc : FdList.find_fd 9 (fdList (Nat.iter 5 dosigalrm w_in_flight)) = Some 5%nat)
    by (vm_compute; reflexivity).
  assert (Hb : FdList.find_fd (default_backend (Nat.iter 5 dosigalrm w_in_flight))
                 (fdList (Nat.iter 5 dosigalrm w_in_flight)) = Some 4%nat)
    by (vm_compute; reflexivity).
  exact (in_flight_line_dispatched "SEND_ONCE rem KEY_2" 9
           (Nat.iter 5 dosigalrm w_in_flight) 5 4 Ht Hc Hb).
Defined.

(** Two lines read in one go are both sent on at once, and the second
    re-arms the counter. *)
Example two_lines_one_read :
  let w' := world_of (process_item_input (new_item 9 CLIENT_STREAM (-1))
                        (Lines ["SEND_ONCE rem KEY_1"; "SEND_ONCE rem KEY_2"]) w_clients) in
  sent w' = sent w_clients ++ [(7, "SEND_ONCE rem KEY_1"); (7, "SEND_ONCE rem KEY_2")] /\
  routing_state (fdList w') 9 = Some (7, 20).
Proof. vm_compute. split; reflexivity. Qed.

(** ** Removing a backend *)

Lemma elem_of_delete_other (l : list FdItem) i x y :
  l !! i = Some y -> x ∈ l -> x <> y -> x ∈ delete i l.
Proof.
  revert i. induction l as [|a l IH]; intros i Hi Hx Hne; [inversion Hx|].
  destruct i as [|i]; simpl in *.
  - inversion Hi; subst a. apply elem_of_cons in Hx as [Hx|Hx]; [contradiction|exact Hx].
  - apply elem_of_cons in Hx as [->|Hx]; apply elem_of_cons; [left; reflexivity|].
    right. apply (IH i); assumption.
Qed.

Lemma remove_and_log_keeps f w (x : FdItem) :
  x ∈ fdList w -> fd x <> f -> x ∈ fdList (remove_and_log f w).
Proof.
  intros Hx Hf. unfold remove_and_log, FdList.remove_client. simpl.
  destruct (FdList.find_fd f (fdList w)) as [i|] eqn:Hi; simpl; [|exact Hx].
  apply find_fd_Some in Hi as (y & Hy & Hfy).
  eapply elem_of_delete_other; try eassumption. congruence.
Qed.

(** C7 (the code departs from it): when the main loop drops a backend
    record, on a hang-up, an error condition or a failed read, every
    record with another descriptor stays in the registry, the peer of
    the pair among them. *)
Theorem backend_removal_keeps_peer (item : FdItem) (ev : revents) (w : World)
    (x : FdItem) :
  kind item = BACKEND_CMD \/ kind item = BACKEND_DATA ->
  x ∈ fdList w -> fd x <> fd item ->
  exists w', main_loop_item item ev ReadError w = Returned tt w' /\ x ∈ fdList w'.
Proof.
  intros Hk Hx Hf. unfold main_loop_item.
  set (w1 := if POLLERR ev then remove_and_log (fd item) w else w).
  assert (H1 : x ∈ fdList w1).
  { unfold w1. destruct (POLLERR ev); [apply remove_and_log_keeps|]; assumption. }
  set (w2 := if POLLNVAL ev then remove_and_log (fd item) w1 else w1).
  assert (H2 : x ∈ fdList w2).
  { unfold w2. destruct (POLLNVAL ev); [apply remove_and_log_keeps|]; assumption. }
  assert (H3 : exists w3,
             (if POLLIN ev then process_item_input item ReadError w2 else Returned tt w2)
             = Returned tt w3 /\ x ∈ fdList w3).
  { destruct (POLLIN ev).
    - unfold process_item_input, find_new_default_backend.
      destruct Hk as [-> | ->]; simpl;
        (eexists; split; [reflexivity|]);
        destruct (FdList.find _ _); simpl; apply remove_and_log_keeps; assumption.
    - eauto. }
  destruct H3 as (w3 & -> & H3).
  eexists. split; [reflexivity|].
  destruct (POLLHUP ev); [apply remove_and_log_keeps|]; assumption.
Qed.

Lemma backend_removal_keeps_peer_witness :
  exists w', main_loop_item (new_item 7 BACKEND_CMD (-1)) hangup ReadError w_registered
             = Returned tt w' /\
             set_peer 7 (new_item 8 BACKEND_DATA (-1)) ∈ fdList w'.
Proof.
  apply backend_removal_keeps_peer.
  - left. reflexivity.
  - vm_compute. repeat (first [apply list_elem_of_here | apply list_elem_of_further]).
  - vm_compute. discriminate.
Defined.

Example hangup_leaves_fifo :
  map (fun it => (fd it, kind it, peer it))
      (fdList (world_of (main_loop_item (new_item 7 BACKEND_CMD (-1)) hangup ReadError
                                        w_registered)))
  = [(3, CLIENT, -1); (4, BACKEND, -1); (5, CTRL, -1); (8, BACKEND_DATA, 7)] /\
  default_backend (world_of (main_loop_item (new_item 7 BACKEND_CMD (-1)) hangup ReadError
                                            w_registered)) = 7.
Proof. vm_compute. split; reflexivity. Qed.

(** [remove_backend] itself takes both records when it is given the
    descriptor of the fifo, which [add_backend] has put first. *)
Example remove_backend_fifo :
  option_map (fun r => map fd (snd r)) (FdList.remove_backend 8 (fdList w_registered))
  = Some [3; 4; 5].
Proof. vm_compute. reflexivity. Qed.

(** ** The default backend *)

(** C8 (the code departs from it): [SET_DEFAULT_BACKEND] compares the id
    of every record, so the placeholder id selects the first record of
    the registry, the listening client socket; and the replacement taken
    when the default disappears is the first command socket, registered
    or not. *)
Theorem default_backend_not_a_registered_backend :
  (let w' := world_of (handle_ctrl_cmd "SET_DEFAULT_BACKEND undef" 10 w_clients) in
   default_backend w' = 3 /\ kind_and_id w' 3 = Some (CLIENT, "undef")) /\
  (let w' := world_of (process_item_input (new_item 7 BACKEND_CMD (-1)) ReadError
                                          w_second_backend) in
   default_backend w' = 12 /\ kind_and_id w' 12 = Some (BACKEND_CMD, "undef")
   /\ routing_state (fdList w') 12 = Some (0, -1)).
Proof. vm_compute. repeat split; reflexivity. Qed.


(** ** Tokens *)

Lemma strncpy_length s : strncpy (String.length s) s = s.
Proof. apply strncpy_short. lia. Qed.

Lemma skip_set_all_in d s : skip_set d s = "" <-> all_in d s = true.
Proof.
  induction s as [|c s IH]; simpl; [tauto|].
  destruct (in_set c d); simpl; [exact IH|]. split; discriminate.
Qed.

Lemma skip_set_head d s c s1 : skip_set d s = String c s1 -> in_set c d = false.
Proof.
  induction s as [|a s IH]; simpl; [discriminate|].
  destruct (in_set a d) eqn:E; [exact IH|]. intros H. inversion H; subst. exact E.
Qed.

Lemma skip_set_app d pre s : all_in d pre = true -> skip_set d (pre +:+ s) = skip_set d s.
Proof.
  induction pre as [|c pre IH]; simpl; [reflexivity|].
  intros H. apply andb_true_iff in H as [Hc Hp]. rewrite Hc. auto.
Qed.

Lemma skip_set_token d tok s :
  tok <> "" -> none_in d tok = true -> skip_set d (tok +:+ s) = tok +:+ s.
Proof.
  destruct tok as [|c tok]; [contradiction|]. simpl. intros _ H.
  apply andb_true_iff in H as [Hc _]. apply negb_true_iff in Hc. rewrite Hc. reflexivity.
Qed.

Lemma span_until_token d tok post :
  none_in d tok = true ->
  (post = "" \/ exists c r, post = String c r /\ in_set c d = true) ->
  span_until d (tok +:+ post) = (tok, post).
Proof.
  intros Htok Hpost. induction tok as [|a tok IH]; simpl in *.
  - destruct Hpost as [-> | (c & r & -> & Hc)]; simpl; [reflexivity|].
    rewrite Hc. reflexivity.
  - apply andb_true_iff in Htok as [Ha Ht]. apply negb_true_iff in Ha. rewrite Ha.
    rewrite (IH Ht). reflexivity.
Qed.

Lemma span_until_first d c s : in_set c d = false -> exists t r, span_until d (String c s) = (String c t, r).
Proof.
  intros H. simpl. rewrite H. destruct (span_until d s) as [t r]. eauto.
Qed.

Lemma strtok_none d s : all_in d s = true -> strtok d s = (None, "").
Proof. intros H. unfold strtok. apply skip_set_all_in in H. rewrite H. reflexivity. Qed.

Lemma strtok_some d s :
  all_in d s = false -> exists c t saved, strtok d s = (Some (String c t), saved).
Proof.
  intros H. unfold strtok.
  destruct (skip_set d s) as [|c s1] eqn:E.
  - apply skip_set_all_in in E. congruence.
  - apply skip_set_head in E.
    destruct (span_until_first d c s1 E) as (t & r & ->). eauto.
Qed.


Lemma append_nonempty a b : a <> "" -> a +:+ b <> "".
Proof. destruct a; [contradiction|discriminate]. Qed.

Lemma eqb_nonempty tok : tok <> "" -> String.eqb tok "" = false.
Proof. destruct tok; [contradiction|reflexivity]. Qed.


Lemma none_in_NL_head rest : rest <> "" -> none_in NL rest = true -> all_in NL rest = false.
Proof.
  destruct rest as [|c r]; [contradiction|]. simpl. intros _ H.
  apply andb_true_iff in H as [Hc _]. apply negb_true_iff in Hc. rewrite Hc. reflexivity.
Qed.

(** ** [strtok] on the block of [split_once] *)

(** [strtok_end] is [strtok] that also tells whether the scan ran to the
    end of the string it was given. *)
Lemma strtok_end_strtok d s :
  strtok d s = (fst (fst (strtok_end d s)), snd (fst (strtok_end d s))).
Proof.
  unfold strtok, strtok_end. destruct (skip_set d s) as [|c s1]; [reflexivity|].
  destruct (span_until d (String c s1)) as [tok [|x r]]; reflexivity.
Qed.

Lemma strtok_end_none d s : all_in d s = true -> strtok_end d s = (None, "", true).
Proof. intros H. unfold strtok_end. apply skip_set_all_in in H. rewrite H. reflexivity. Qed.

Lemma strtok_end_skip d pre s :
  all_in d pre = true -> strtok_end d (pre +:+ s) = strtok_end d s.
Proof. intros H. unfold strtok_end. rewrite skip_set_app by assumption. reflexivity. Qed.

(** A token that a delimiter of the buffer ends: the scan stops there. *)
Lemma strtok_end_token d pre tok c r :
  all_in d pre = true -> tok <> "" -> none_in d tok = true -> in_set c d = true ->
  strtok_end d (pre +:+ tok +:+ String c r) = (Some tok, r, false).
Proof.
  intros Hpre Hne Htok Hc. rewrite strtok_end_skip by assumption. unfold strtok_end.
  rewrite skip_set_token by assumption.
  destruct (tok +:+ String c r) as [|a s1] eqn:E.
  - destruct tok; [contradiction|discriminate].
  - rewrite <- E. rewrite span_until_token; [reflexivity|assumption|right; eauto].
Qed.

(** A token that nothing ends: the scan comes to the end of the buffer. *)
Lemma strtok_end_last d pre tok :
  all_in d pre = true -> tok <> "" -> none_in d tok = true ->
  strtok_end d (pre +:+ tok) = (Some tok, "", true).
Proof.
  intros Hpre Hne Htok. rewrite strtok_end_skip by assumption. unfold strtok_end.
  rewrite <- (append_empty_r tok) at 1 2. rewrite skip_set_token by assumption.
  rewrite append_empty_r.
  destruct tok as [|a s1] eqn:E; [contradiction|].
  rewrite <- E. rewrite <- (append_empty_r tok) at 1.
  rewrite span_until_token; [reflexivity|subst; assumption|left; reflexivity].
Qed.

Lemma strtok_end_nonempty d s tok saved e :
  strtok_end d s = (Some tok, saved, e) -> tok <> "".
Proof.
  unfold strtok_end. destruct (skip_set d s) as [|c s1] eqn:E; [discriminate|].
  apply skip_set_head in E. destruct (span_until_first d c s1 E) as (t & r & Hs).
  rewrite Hs. destruct r; intros H; inversion H; discriminate.
Qed.

(** ** [split_once] *)

Lemma split_once_with_nonempty d spare s :
  s <> "" ->
  split_once_with d spare (Some s) =
  let '(token, saved, at_end) := strtok_end d (s +:+ strncpy 2 spare) in
  if at_end && (2 <=? String.length spare)%nat then None
  else
    match token with
    | None => Some []
    | Some token =>
        let '(token2, _, at_end2) := strtok_end NL saved in
        if at_end2 && (2 <=? String.length spare)%nat then None
        else match token2 with
             | None => Some [token]
             | Some token2 => Some [token; token2]
             end
    end.
Proof.
  intros H. unfold split_once_with. destruct s as [|c s]; [contradiction|].
  rewrite strncpy_length.
  destruct (strtok_end d _) as [[[token|] saved] at_end] eqn:E1; [|reflexivity].
  rewrite (eqb_nonempty token (strtok_end_nonempty _ _ _ _ _ E1)).
  destruct (at_end && _); [reflexivity|].
  destruct (strtok_end NL saved) as [[[token2|] saved2] at_end2] eqn:E2; [|reflexivity].
  rewrite (eqb_nonempty token2 (strtok_end_nonempty _ _ _ _ _ E2)). reflexivity.
Qed.

(** A line of two parts that its newline ends is split as the comment of
    the function says, whatever the unwritten bytes hold: both scans stop
    inside the copy. *)
Lemma split_once_with_two d spare pre tok c nls rest tail :
  all_in d pre = true -> tok <> "" -> none_in d tok = true ->
  in_set c d = true -> all_in NL nls = true ->
  rest <> "" -> none_in NL rest = true ->
  split_once_with d spare
    (Some (pre +:+ tok +:+ String c (nls +:+ rest +:+ String nl tail)))
  = Some [tok; rest].
Proof.
  intros Hpre Hne Htok Hc Hnls Hrne Hrest.
  assert (Hs : pre +:+ tok +:+ String c (nls +:+ rest +:+ String nl tail) <> "").
  { destruct pre; simpl; [exact (append_nonempty tok _ Hne)|discriminate]. }
  rewrite (split_once_with_nonempty d spare _ Hs).
  repeat (rewrite append_assoc || rewrite append_cons).
  rewrite strtok_end_token by assumption. cbn [andb].
  rewrite strtok_end_token by (try assumption; reflexivity). reflexivity.
Qed.

(** X30: [split_once] on a line of two parts that carries its newline.
    For a line made of optional leading white space, a first word, one
    white-space character, a remainder that is not empty and holds no
    newline, and a newline (whatever follows it), both versions of
    [split_once] return exactly the word and the remainder, whatever the
    two unwritten bytes of the block hold: the newline stops the second
    scan inside the bytes that were copied. *)
Theorem split_once_two_parts (spare pre tok rest tail : string) (c : ascii) :
  all_in WS_TN pre = true -> tok <> "" -> none_in WS_TRN tok = true ->
  in_set c WS_TN = true -> rest <> "" -> none_in NL rest = true ->
  split_once spare (Some (pre +:+ tok +:+ String c (rest +:+ NL +:+ tail)))
  = Some [tok; rest] /\
  split_once_lircd spare (Some (pre +:+ tok +:+ String c (rest +:+ NL +:+ tail)))
  = Some [tok; rest].
Proof.
  intros Hpre Hne Htok Hc Hrne Hrest.
  assert (Hsub : forall x, in_set x WS_TN = true -> in_set x WS_TRN = true).
  { intros x. cbn [in_set WS_TN WS_TRN]. intros H.
    repeat (apply orb_true_iff in H as [H|H]); rewrite ?H, ?orb_true_r; reflexivity. }
  assert (Hpre' : all_in WS_TRN pre = true).
  { clear -Hpre Hsub. induction pre as [|x pre IH]; [reflexivity|].
    cbn [all_in] in *. apply andb_true_iff in Hpre as [Hx Hp].
    rewrite (Hsub x Hx), (IH Hp). reflexivity. }
  assert (Htn : none_in WS_TN tok = true).
  { apply (none_in_weaken WS_TRN); [exact Hsub|exact Htok]. }
  split.
  - exact (split_once_with_two WS_TRN spare pre tok c "" rest tail
             Hpre' Hne Htok (Hsub c Hc) eq_refl Hrne Hrest).
  - exact (split_once_with_two WS_TN spare pre tok c "" rest tail
             Hpre Hne Htn Hc eq_refl Hrne Hrest).
Qed.

Lemma split_once_two_parts_witness :
  split_once "xy" (Some ("SEND_ONCE rem KEY_1" +:+ NL)) = Some ["SEND_ONCE"; "rem KEY_1"] /\
  split_once_lircd "xy" (Some ("SEND_ONCE rem KEY_1" +:+ NL))
  = Some ["SEND_ONCE"; "rem KEY_1"].
Proof.
  exact (split_once_two_parts "xy" "" "SEND_ONCE" "rem KEY_1" "" " "
           eq_refl ltac:(discriminate) eq_refl eq_refl ltac:(discriminate) eq_refl).
Defined.

(** A line of one part: what follows the newline that ends the token lies
    in the unwritten bytes, and the second scan reads them. *)
Lemma split_once_with_one d spare pre tok c nls :
  all_in d pre = true -> tok <> "" -> none_in d tok = true ->
  in_set c d = true -> all_in NL nls = true ->
  split_once_with d spare (Some (pre +:+ tok +:+ String c nls)) =
  let '(token2, _, at_end2) := strtok_end NL (strncpy 2 spare) in
  if at_end2 && (2 <=? String.length spare)%nat then None
  else match token2 with
       | None => Some [tok]
       | Some token2 => Some [tok; token2]
       end.
Proof.
  intros Hpre Hne Htok Hc Hnls.
  assert (Hs : pre +:+ tok +:+ String c nls <> "").
  { destruct pre; simpl; [exact (append_nonempty tok _ Hne)|discriminate]. }
  rewrite (split_once_with_nonempty d spare _ Hs).
  repeat (rewrite append_assoc || rewrite append_cons).
  rewrite strtok_end_token by assumption. cbn [andb].
  rewrite strtok_end_skip by assumption. reflexivity.
Qed.

(** The three results a line of one part can have. *)
Lemma split_once_with_one_cases d spare pre tok c nls :
  all_in d pre = true -> tok <> "" -> none_in d tok = true ->
  in_set c d = true -> all_in NL nls = true ->
  split_once_with d spare (Some (pre +:+ tok +:+ String c nls)) = None \/
  split_once_with d spare (Some (pre +:+ tok +:+ String c nls)) = Some [tok] \/
  exists g, g <> "" /\ none_in NL g = true /\
    split_once_with d spare (Some (pre +:+ tok +:+ String c nls)) = Some [tok; g].
Proof.
  intros Hpre Hne Htok Hc Hnls.
  rewrite (split_once_with_one d spare pre tok c nls) by assumption.
  destruct (strtok_end NL (strncpy 2 spare)) as [[[g|] saved] e] eqn:E;
    destruct (e && _); auto.
  right. right. exists g. split; [exact (strtok_end_nonempty _ _ _ _ _ E)|].
  split; [|reflexivity].
  unfold strtok_end in E. destruct (skip_set NL (strncpy 2 spare)) as [|a s1]; [discriminate|].
  destruct (span_until NL (String a s1)) as [t r] eqn:Es.
  destruct (span_until_props NL _ _ _ Es) as [P _].
  destruct r; inversion E; subst; exact P.
Qed.

(** A token that nothing in the copy ends: the first scan runs into the
    unwritten bytes. *)
Lemma split_once_with_open_token d pre tok g :
  all_in d pre = true -> tok <> "" -> none_in d tok = true -> in_set g d = false ->
  split_once_with d "" (Some (pre +:+ tok)) = Some [tok] /\
  split_once_with d (String g "") (Some (pre +:+ tok)) = Some [tok +:+ String g ""].
Proof.
  intros Hpre Hne Htok Hg.
  assert (Hs : pre +:+ tok <> "").
  { destruct pre; simpl; [assumption|discriminate]. }
  split; rewrite (split_once_with_nonempty d _ _ Hs).
  - cbn [strncpy String.length Nat.leb andb]. rewrite append_empty_r.
    rewrite strtok_end_last by assumption. cbn [andb].
    rewrite strtok_end_none by reflexivity. reflexivity.
  - cbn [strncpy String.length Nat.leb]. rewrite append_assoc.
    rewrite strtok_end_last; try assumption.
    + reflexivity.
    + apply append_nonempty. assumption.
    + rewrite none_in_app, Htok. simpl. rewrite Hg. reflexivity.
Qed.

Lemma strtok_end_one_byte g : g <> nl -> strtok_end NL (String g "") = (Some (String g ""), "", true).
Proof.
  intros Hg. apply Ascii.eqb_neq in Hg. unfold strtok_end.
  cbn [skip_set in_set NL]. rewrite Hg. cbn [orb span_until in_set NL]. rewrite Hg.
  reflexivity.
Qed.

Lemma strtok_end_two_bytes g h :
  g <> nl -> h <> nl ->
  strtok_end NL (String g (String h "")) = (Some (String g (String h "")), "", true).
Proof.
  intros Hg Hh. apply Ascii.eqb_neq in Hg, Hh. unfold strtok_end.
  cbn [skip_set in_set NL]. rewrite Hg. cbn [orb span_until in_set NL]. rewrite Hg, Hh.
  reflexivity.
Qed.

(** C10 (the code departs from it): [split_once] copies its argument
    without the terminator, so what it returns for a line of one token
    is decided by the two bytes of the block that are never written.  For
    a token followed by its newline the result is the token alone when
    the byte after the copy is NUL, the token and that byte as a second
    element when the byte is another character followed by NUL, and the
    scan leaves the block when neither byte is NUL or a newline.  For a
    token without newline the byte after the copy is taken into the
    token.  The version in lircd.cpp does the same. *)
Theorem split_once_reads_unwritten_bytes (tok : string) :
  tok <> "" -> none_in WS_TRN tok = true ->
  split_once "" (Some (tok +:+ NL)) = Some [tok] /\
  (forall g, g <> nl ->
     split_once (String g "") (Some (tok +:+ NL)) = Some [tok; String g ""] /\
     split_once_lircd (String g "") (Some (tok +:+ NL)) = Some [tok; String g ""]) /\
  (forall g h, g <> nl -> h <> nl ->
     split_once (String g (String h "")) (Some (tok +:+ NL)) = None) /\
  (forall g, in_set g WS_TRN = false ->
     split_once "" (Some tok) = Some [tok] /\
     split_once (String g "") (Some tok) = Some [tok +:+ String g ""]).
Proof.
  intros Hne Htok.
  assert (Htn : none_in WS_TN tok = true).
  { apply (none_in_weaken WS_TRN); [|exact Htok].
    intros c. cbn [in_set WS_TN WS_TRN]. intros H.
    repeat (apply orb_true_iff in H as [H|H]); rewrite ?H, ?orb_true_r; try reflexivity. }
  assert (One : forall d spare, none_in d tok = true -> in_set nl d = true ->
            split_once_with d spare (Some (tok +:+ NL)) =
            let '(token2, _, at_end2) := strtok_end NL (strncpy 2 spare) in
            if at_end2 && (2 <=? String.length spare)%nat then None
            else match token2 with
                 | None => Some [tok]
                 | Some token2 => Some [tok; token2]
                 end).
  { intros d spare Hd Hnl.
    exact (split_once_with_one d spare "" tok nl "" eq_refl Hne Hd Hnl eq_refl). }
  split; [|split; [|split]].
  - unfold split_once. rewrite One by (try assumption; reflexivity). reflexivity.
  - intros g Hg. unfold split_once, split_once_lircd.
    rewrite !One by (try assumption; reflexivity).
    cbn [strncpy String.length Nat.leb]. rewrite strtok_end_one_byte by exact Hg.
    split; reflexivity.
  - intros g h Hg Hh. unfold split_once. rewrite One by (try assumption; reflexivity).
    cbn [strncpy String.length Nat.leb]. rewrite strtok_end_two_bytes by assumption.
    reflexivity.
  - intros g Hg. unfold split_once.
    exact (split_once_with_open_token WS_TRN "" tok g eq_refl Hne Htok Hg).
Qed.

Lemma split_once_reads_unwritten_bytes_witness :
  split_once "" (Some ("SEND_ONCE" +:+ NL)) = Some ["SEND_ONCE"] /\
  split_once "x" (Some ("SEND_ONCE" +:+ NL)) = Some ["SEND_ONCE"; "x"] /\
  split_once_lircd "x" (Some ("SEND_ONCE" +:+ NL)) = Some ["SEND_ONCE"; "x"] /\
  split_once "xy" (Some ("SEND_ONCE" +:+ NL)) = None /\
  split_once "x" (Some "acme@/dev/ir0") = Some ["acme@/dev/ir0x"].
Proof.
  destruct (split_once_reads_unwritten_bytes "SEND_ONCE" ltac:(discriminate) eq_refl)
    as (H1 & H2 & H3 & _).
  destruct (split_once_reads_unwritten_bytes "acme@/dev/ir0" ltac:(discriminate) eq_refl)
    as (_ & _ & _ & H4).
  split; [exact H1|]. split; [exact (proj1 (H2 "x"%char ltac:(discriminate)))|].
  split; [exact (proj2 (H2 "x"%char ltac:(discriminate)))|].
  split; [exact (H3 "x"%char "y"%char ltac:(discriminate) ltac:(discriminate))|].
  exact (proj2 (H4 "x"%char eq_refl)).
Defined.

(** ** Argument counts *)

(** C9 (the code departs from it): [SET_TRANSMITTERS] with the backend id
    alone, on a line that carries its newline.  [setup_backend_cmd] is
    called with count 0 and only asks for one argument.  Whatever the
    unwritten bytes of the blocks of [split_once] hold, no reply is
    written to the sender.  When the handler returns, the backend has
    been looked up and connected, the counter of the sender is armed, and
    what the second scan of [split_once] found in the unwritten bytes
    has been sent to the backend as the mask.  When the byte after the
    copy of the argument is NUL, the vector has the one element the line
    holds: the sender is connected and armed, no error is sent, and the
    handler reads [arguments[1]], which the vector does not have. *)
Theorem set_transmitters_one_argument (spare : string -> string) :
  let line := "SET_TRANSMITTERS acme@/dev/ir0" +:+ NL in
  let w := with_spare spare w_clients in
  sent_to 10 (world_of (handle_ctrl_cmd line 10 w)) = [] /\
  (forall r w', handle_ctrl_cmd line 10 w = Returned r w' ->
     routing_state (fdList w') 10 = Some (7, 20) /\
     routing_state (fdList w') 7 = Some (10, -1) /\
     exists g, g <> "" /\ none_in NL g = true /\
       sent w' = sent w_clients ++ [(7, "SET_TRANSMITTERS " +:+ g +:+ NL)]) /\
  (spare ("acme@/dev/ir0" +:+ NL) = "" ->
   exists w', handle_ctrl_cmd line 10 w = Undefined w' /\
     sent w' = sent w_clients /\
     routing_state (fdList w') 10 = Some (7, 20) /\
     routing_state (fdList w') 7 = Some (10, -1)).
Proof.
  intros line w.
  set (args := "acme@/dev/ir0" +:+ NL).
  set (w0 := upd_fdList (alter (set_expected "SET_TRANSMITTERS") 6%nat) w).
  assert (E0 : handle_ctrl_cmd line 10 w =
               match set_transmitters_cmd 10 line (Some args) w0 with
               | Returned _ w' => Returned true w'
               | Undefined w' => Undefined w'
               end) by (vm_compute; reflexivity).
  assert (Ec : split_once_in w0 (Some line) = Some ["SET_TRANSMITTERS"; "acme@/dev/ir0"]).
  { exact (split_once_with_two WS_TRN (spare line) "" "SET_TRANSMITTERS" " " ""
             "acme@/dev/ir0" "" eq_refl ltac:(discriminate) eq_refl eq_refl eq_refl
             ltac:(discriminate) eq_refl). }
  assert (Ea : split_once_in w0 (Some args) = None \/
               split_once_in w0 (Some args) = Some ["acme@/dev/ir0"] \/
               exists g, g <> "" /\ none_in NL g = true /\
                 split_once_in w0 (Some args) = Some ["acme@/dev/ir0"; g]).
  { exact (split_once_with_one_cases WS_TRN (spare args) "" "acme@/dev/ir0" nl ""
             eq_refl ltac:(discriminate) eq_refl eq_refl eq_refl). }
  assert (Ea0 : spare args = "" -> split_once_in w0 (Some args) = Some ["acme@/dev/ir0"]).
  { intros Hs. unfold split_once_in. change (spare_bytes (env w0) args) with (spare args).
    rewrite Hs. reflexivity. }
  rewrite E0. unfold set_transmitters_cmd, with_backend. rewrite Ec.
  split; [|split].
  - destruct Ea as [Ea | [Ea | (g & Hg & Hgn & Ea)]]; rewrite Ea; vm_compute; reflexivity.
  - intros r w' H.
    destruct Ea as [Ea | [Ea | (g & Hg & Hgn & Ea)]]; rewrite Ea in H;
      vm_compute in H; try discriminate H.
    injection H as _ <-.
    split; [vm_compute; reflexivity|]. split; [vm_compute; reflexivity|].
    exists g. split; [exact Hg|]. split; [exact Hgn|]. vm_compute. reflexivity.
  - intros Hs. rewrite (Ea0 Hs). eexists. split; [vm_compute; reflexivity|].
    repeat split; vm_compute; reflexivity.
Qed.

(** ** Lines on the wire *)

Lemma payload_app xs ys : payload (xs ++ ys) = payload xs +:+ payload ys.
Proof.
  induction xs as [|x xs IH]; [reflexivity|].
  cbn [payload app]. rewrite IH, !append_assoc. reflexivity.
Qed.

Lemma raw_lines_line l rest :
  none_in NL l = true -> raw_lines (l +:+ NL +:+ rest) = l :: raw_lines rest.
Proof.
  induction l as [|c l IH]; intros H.
  - reflexivity.
  - cbn [none_in] in H. apply andb_true_iff in H as [Hc Hl]. rewrite in_set_NL in Hc.
    apply negb_true_iff in Hc. rewrite append_cons. cbn [raw_lines].
    rewrite Hc. rewrite (IH Hl). reflexivity.
Qed.

Lemma clean_line_none_in l : clean_line l = true -> none_in NL l = true.
Proof. unfold clean_line. intros H. apply andb_true_iff in H as [H _]. exact H. Qed.

Lemma raw_lines_payload ls :
  Forall (fun l => clean_line l = true) ls -> raw_lines (payload ls) = ls.
Proof.
  induction 1 as [|l ls Hl _ IH]; simpl; [reflexivity|].
  rewrite raw_lines_line by (apply clean_line_none_in; exact Hl). rewrite IH. reflexivity.
Qed.

Lemma count_newlines_app a b : count_newlines (a +:+ b) = count_newlines a + count_newlines b.
Proof.
  induction a as [|c a IH]; [reflexivity|].
  rewrite append_cons. cbn [count_newlines]. rewrite IH. lia.
Qed.

Lemma count_newlines_none_in l : none_in NL l = true -> count_newlines l = 0.
Proof.
  induction l as [|c l IH]; intros H; [reflexivity|].
  cbn [none_in] in H. apply andb_true_iff in H as [Hc Hl]. rewrite in_set_NL in Hc.
  apply negb_true_iff in Hc. cbn [count_newlines]. rewrite Hc, (IH Hl). reflexivity.
Qed.

Lemma count_newlines_payload ls :
  Forall (fun l => clean_line l = true) ls ->
  count_newlines (payload ls) = Z.of_nat (length ls).
Proof.
  induction 1 as [|l ls Hl _ IH]; [reflexivity|].
  cbn [payload length]. rewrite !count_newlines_app, IH.
  rewrite count_newlines_none_in by (apply clean_line_none_in; exact Hl).
  change (count_newlines NL) with 1. lia.
Qed.

Lemma last_char_clean l c :
  last_char l = Some c -> in_set c WS_TNR = false -> forall t,
  all_in WS_TNR t = true ->
  find_last_not_of WS_TNR (l +:+ t) = Some (String.length l - 1)%nat.
Proof.
  intros Hl Hc t Ht. induction l as [|a l IH]; [discriminate|].
  destruct l as [|b l].
  - simpl in Hl. inversion Hl; subst a. rewrite append_cons, append_nil.
    cbn [find_last_not_of].
    assert (E : find_last_not_of WS_TNR t = None).
    { clear -Ht. induction t as [|x t IH]; [reflexivity|].
      cbn [all_in] in Ht. apply andb_true_iff in Ht as [Hx Ht].
      cbn [find_last_not_of]. rewrite (IH Ht), Hx. reflexivity. }
    rewrite E, Hc. reflexivity.
  - rewrite append_cons. cbn [find_last_not_of].
    rewrite (IH Hl). cbn [String.length]. f_equal. lia.
Qed.

Lemma prefix_length_app l t : prefix (String.length l) (l +:+ t) = l.
Proof.
  unfold prefix. induction l as [|a l IH].
  - destruct t; reflexivity.
  - rewrite append_cons. cbn [String.length String.substring]. rewrite IH. reflexivity.
Qed.

Lemma strip_cr_clean l : clean_line l = true -> strip_cr l = l.
Proof.
  unfold clean_line. intros H. apply andb_true_iff in H as [_ H].
  induction l as [|a l IH]; [reflexivity|].
  destruct l as [|b l].
  - cbn [strip_cr]. destruct (Ascii.eqb a cr) eqn:E; [|reflexivity].
    apply Ascii.eqb_eq in E. subst a. discriminate H.
  - change (strip_cr (String a (String b l))) with (String a (strip_cr (String b l))).
    rewrite (IH H). reflexivity.
Qed.

Lemma clean_line_nonempty l : clean_line l = true -> l <> "".
Proof. intros H ->. discriminate. Qed.

(** The parser sees a clean line as it was written. *)
Lemma trim_input_fed keep l : clean_line l = true -> ReplyParser.trim_input (fed keep l) = l.
Proof.
  intros H. unfold fed. rewrite strip_cr_clean by exact H.
  unfold clean_line in H. apply andb_true_iff in H as [_ H].
  destruct (last_char l) as [c|] eqn:Hl; [|discriminate].
  apply negb_true_iff in H. unfold ReplyParser.trim_input.
  rewrite (last_char_clean l c Hl H) by (destruct keep; reflexivity).
  assert (Hlen : (0 < String.length l)%nat) by (destruct l; [discriminate|simpl; lia]).
  replace (S (String.length l - 1)) with (String.length l) by lia.
  apply prefix_length_app.
Qed.

Lemma parse_payload keep xs :
  Forall (fun l => clean_line l = true) xs ->
  parse keep (payload xs) = ReplyParser.feed_all (map (fed keep) xs) ReplyParser.new.
Proof.
  intros H. unfold parse, next_lines. rewrite raw_lines_payload by exact H. reflexivity.
Qed.

(** ** The parser on the lines of a reply *)

Lemma trim_input_clean l : clean_line l = true -> ReplyParser.trim_input l = l.
Proof.
  intros H. pose proof (trim_input_fed false l H) as E. unfold fed in E.
  rewrite strip_cr_clean, append_empty_r in E by exact H. exact E.
Qed.

Lemma feed_trim a b p :
  ReplyParser.trim_input a = ReplyParser.trim_input b ->
  ReplyParser.feed a p = ReplyParser.feed b p.
Proof. intros E. unfold ReplyParser.feed. rewrite E. reflexivity. Qed.

Lemma feed_fed keep l p :
  clean_line l = true -> ReplyParser.feed (fed keep l) p = ReplyParser.feed l p.
Proof.
  intros H. apply feed_trim. rewrite trim_input_fed, trim_input_clean by exact H.
  reflexivity.
Qed.

Lemma feed_all_fed keep xs p :
  Forall (fun l => clean_line l = true) xs ->
  ReplyParser.feed_all (map (fed keep) xs) p = ReplyParser.feed_all xs p.
Proof.
  intros H. revert p. induction H as [|l xs Hl _ IH]; intros p; [reflexivity|].
  unfold ReplyParser.feed_all in *. cbn [map fold_left].
  rewrite feed_fed by exact Hl. apply IH.
Qed.

Lemma feed_all_app xs ys p :
  ReplyParser.feed_all (xs ++ ys) p = ReplyParser.feed_all ys (ReplyParser.feed_all xs p).
Proof. unfold ReplyParser.feed_all. apply fold_left_app. Qed.

Lemma count_line_ok_range n : (1 <= n <= 99)%nat -> count_line_ok n = true.
Proof.
  intros H.
  assert (A : forallb count_line_ok (seq 1 99) = true) by (vm_compute; reflexivity).
  rewrite forallb_forall in A. apply A. apply in_seq. lia.
Qed.

Lemma count_line_facts n :
  (1 <= n <= 99)%nat ->
  clean_line (dec (Z.of_nat n)) = true /\
  strncpy 31 (dec (Z.of_nat n) +:+ NL) = dec (Z.of_nat n) +:+ NL /\
  strncpy 3 (dec (Z.of_nat n) +:+ NL) = dec (Z.of_nat n) +:+ NL /\
  exists r, Scan.scan_d 2 (dec (Z.of_nat n)) = Some (Z.of_nat n, r).
Proof.
  intros H. pose proof (count_line_ok_range n H) as E. unfold count_line_ok in E.
  apply andb_true_iff in E as [E E4]. apply andb_true_iff in E as [E E3].
  apply andb_true_iff in E as [E1 E2].
  apply String.eqb_eq in E2, E3.
  split; [exact E1|]. split; [exact E2|]. split; [exact E3|].
  destruct (Scan.scan_d 2 (dec (Z.of_nat n))) as [[v r]|]; [|discriminate].
  exists r. f_equal. f_equal. lia.
Qed.

Ltac feed_step Hst :=
  unfold ReplyParser.feed;
  rewrite ?trim_input_clean by (first [assumption | reflexivity]);
  cbn [ReplyParser.state ReplyParser.command ReplyParser.lines ReplyParser.last_line
       ReplyParser.line_count ReplyParser.success];
  rewrite Hst.

Lemma step_begin p :
  ReplyParser.state p = ReplyParser.BEGIN ->
  let q := ReplyParser.feed "BEGIN" p in
  ReplyParser.state q = ReplyParser.COMMAND /\ ReplyParser.lines q = ReplyParser.lines p.
Proof. intros Hst. feed_step Hst. split; reflexivity. Qed.

Lemma step_command m p :
  clean_line m = true -> ReplyParser.state p = ReplyParser.COMMAND ->
  let q := ReplyParser.feed m p in
  ReplyParser.state q = ReplyParser.RESULT /\ ReplyParser.command q = m /\
  ReplyParser.lines q = ReplyParser.lines p.
Proof.
  intros Hm Hst. feed_step Hst.
  rewrite (eqb_nonempty m (clean_line_nonempty m Hm)). repeat split; reflexivity.
Qed.

Lemma step_result (flag : bool) p :
  ReplyParser.state p = ReplyParser.RESULT ->
  let q := ReplyParser.feed (if flag then "SUCCESS" else "ERROR") p in
  ReplyParser.state q = ReplyParser.DATA /\ ReplyParser.command q = ReplyParser.command p /\
  ReplyParser.lines q = ReplyParser.lines p /\ ReplyParser.success q = flag.
Proof.
  intros Hst. destruct flag; feed_step Hst; repeat split; reflexivity.
Qed.

Lemma step_data p :
  ReplyParser.state p = ReplyParser.DATA ->
  let q := ReplyParser.feed "DATA" p in
  ReplyParser.state q = ReplyParser.LINE_COUNT /\
  ReplyParser.command q = ReplyParser.command p /\
  ReplyParser.lines q = ReplyParser.lines p /\
  ReplyParser.success q = ReplyParser.success p.
Proof. intros Hst. feed_step Hst. repeat split; reflexivity. Qed.

Lemma step_count n p :
  (1 <= n <= 99)%nat -> ReplyParser.state p = ReplyParser.LINE_COUNT ->
  let q := ReplyParser.feed (dec (Z.of_nat n)) p in
  ReplyParser.state q = ReplyParser.LINES /\
  ReplyParser.command q = ReplyParser.command p /\
  ReplyParser.lines q = ReplyParser.lines p /\
  ReplyParser.success q = ReplyParser.success p /\
  ReplyParser.line_count q = Z.of_nat n.
Proof.
  intros Hn Hst. destruct (count_line_facts n Hn) as (Hc & _ & _ & r & Hscan).
  feed_step Hst. rewrite Hscan. repeat split; reflexivity.
Qed.

Lemma step_end p :
  ReplyParser.state p = ReplyParser.END \/ ReplyParser.state p = ReplyParser.DATA ->
  let q := ReplyParser.feed "END" p in
  ReplyParser.state q = ReplyParser.DONE /\
  ReplyParser.command q = ReplyParser.command p /\
  ReplyParser.lines q = ReplyParser.lines p /\
  ReplyParser.success q = ReplyParser.success p.
Proof. intros [Hst|Hst]; feed_step Hst; repeat split; reflexivity. Qed.

(** The head of a reply with data: up to the count line. *)
Lemma feed_head (m : string) (flag : bool) (n : nat) :
  clean_line m = true -> (1 <= n <= 99)%nat ->
  let p := ReplyParser.feed_all
             ["BEGIN"; m; if flag then "SUCCESS" else "ERROR"; "DATA"; dec (Z.of_nat n)]
             ReplyParser.new in
  ReplyParser.state p = ReplyParser.LINES /\ ReplyParser.command p = m /\
  ReplyParser.lines p = "" /\ ReplyParser.line_count p = Z.of_nat n /\
  ReplyParser.success p = flag.
Proof.
  intros Hm Hn. unfold ReplyParser.feed_all. cbn [fold_left].
  destruct (step_begin ReplyParser.new eq_refl) as (S1 & L1).
  set (p1 := ReplyParser.feed "BEGIN" ReplyParser.new) in *.
  destruct (step_command m p1 Hm S1) as (S2 & C2 & L2).
  set (p2 := ReplyParser.feed m p1) in *.
  destruct (step_result flag p2 S2) as (S3 & C3 & L3 & B3).
  set (p3 := ReplyParser.feed _ p2) in *.
  destruct (step_data p3 S3) as (S4 & C4 & L4 & B4).
  set (p4 := ReplyParser.feed "DATA" p3) in *.
  destruct (step_count n p4 Hn S4) as (S5 & C5 & L5 & B5 & N5).
  set (p5 := ReplyParser.feed _ p4) in *.
  split; [exact S5|]. split; [congruence|]. split; [|split; [exact N5|congruence]].
  rewrite L5, L4, L3, L2, L1. reflexivity.
Qed.

(** The payload lines, from the state [LINES] with their number as the
    count. *)
Lemma feed_lines ls : forall p,
  Forall (fun l => clean_line l = true) ls -> ls <> [] ->
  ReplyParser.state p = ReplyParser.LINES ->
  ReplyParser.line_count p = Z.of_nat (length ls) ->
  let q := ReplyParser.feed_all ls p in
  ReplyParser.state q = ReplyParser.END /\ ReplyParser.command q = ReplyParser.command p /\
  ReplyParser.lines q = ReplyParser.lines p +:+ payload ls /\
  ReplyParser.success q = ReplyParser.success p.
Proof.
  induction ls as [|l ls IH]; intros p Hall Hne Hst Hcnt; [contradiction|].
  apply Forall_cons in Hall as [Hl Hall].
  unfold ReplyParser.feed_all. cbn [fold_left].
  set (p1 := ReplyParser.feed l p).
  assert (H1 : ReplyParser.state p1 =
               (if (Z.of_nat (length ls) <=? 0) then ReplyParser.END else ReplyParser.LINES)
               /\ ReplyParser.command p1 = ReplyParser.command p
               /\ ReplyParser.lines p1 = ReplyParser.lines p +:+ l +:+ NL
               /\ ReplyParser.line_count p1 = Z.of_nat (length ls)
               /\ ReplyParser.success p1 = ReplyParser.success p).
  { unfold p1, ReplyParser.feed. rewrite (trim_input_clean l Hl).
    cbn [ReplyParser.state ReplyParser.command ReplyParser.lines ReplyParser.last_line
         ReplyParser.line_count ReplyParser.success].
    rewrite Hst. rewrite (eqb_nonempty l (clean_line_nonempty l Hl)). cbn [negb].
    cbn [ReplyParser.state ReplyParser.command ReplyParser.lines ReplyParser.last_line
         ReplyParser.line_count ReplyParser.success].
    rewrite Hcnt. cbn [length].
    replace (Z.of_nat (S (length ls)) - 1) with (Z.of_nat (length ls)) by lia.
    repeat split; reflexivity. }
  destruct H1 as (S1 & C1 & L1 & N1 & B1).
  destruct ls as [|l2 ls].
  - cbn [fold_left payload]. simpl in S1. rewrite S1, C1, L1, B1.
    repeat split; reflexivity.
  - assert (S1' : ReplyParser.state p1 = ReplyParser.LINES).
    { rewrite S1. change (length (l2 :: ls)) with (S (length ls)).
      replace (Z.of_nat (S (length ls)) <=? 0) with false
        by (symmetry; apply Z.leb_gt; lia).
      reflexivity. }
    destruct (IH p1 Hall ltac:(discriminate) S1' N1) as (S2 & C2 & L2 & B2).
    unfold ReplyParser.feed_all in *.
    rewrite S2, C2, L2, B2, C1, L1, B1.
    repeat split; try reflexivity.
    change (payload (l :: l2 :: ls)) with (l +:+ NL +:+ payload (l2 :: ls)).
    rewrite !append_assoc. reflexivity.
Qed.

(** A whole reply with data. *)
Lemma parse_data_reply keep (m : string) (flag : bool) (ls : list string) :
  clean_line m = true -> Forall (fun l => clean_line l = true) ls ->
  (1 <= length ls <= 99)%nat ->
  parsed_as (parse keep (payload (["BEGIN"; m; if flag then "SUCCESS" else "ERROR"; "DATA";
                                   dec (Z.of_nat (length ls))] ++ ls ++ ["END"])))
            m (payload ls) flag.
Proof.
  intros Hm Hls Hn. destruct (count_line_facts _ Hn) as (Hc & _).
  assert (Hall : Forall (fun l => clean_line l = true)
                   (["BEGIN"; m; if flag then "SUCCESS" else "ERROR"; "DATA";
                     dec (Z.of_nat (length ls))] ++ ls ++ ["END"])).
  { apply Forall_app. split.
    - repeat constructor; try assumption. destruct flag; reflexivity.
    - apply Forall_app. split; [assumption|]. repeat constructor. }
  rewrite parse_payload by exact Hall. rewrite feed_all_fed by exact Hall.
  rewrite !feed_all_app.
  destruct (feed_head m flag (length ls) Hm Hn) as (S0 & C0 & L0 & N0 & B0).
  set (p0 := ReplyParser.feed_all _ ReplyParser.new) in *.
  assert (Hne : ls <> []) by (destruct ls; [simpl in Hn; lia|discriminate]).
  destruct (feed_lines ls p0 Hls Hne S0 N0) as (S1 & C1 & L1 & B1).
  set (p1 := ReplyParser.feed_all ls p0) in *.
  unfold ReplyParser.feed_all at 1. cbn [fold_left].
  destruct (step_end p1 (or_introl S1)) as (S2 & C2 & L2 & B2).
  unfold parsed_as, ReplyParser.get_command, ReplyParser.get_data,
    ReplyParser.get_success.
  rewrite S2, C2, L2, B2, C1, L1, B1, C0, L0, B0. repeat split; reflexivity.
Qed.

(** A reply without data. *)
Lemma parse_plain_reply keep m :
  clean_line m = true ->
  parsed_as (parse keep (payload ["BEGIN"; m; "SUCCESS"; "END"])) m "" true.
Proof.
  intros Hm.
  assert (Hall : Forall (fun l => clean_line l = true) ["BEGIN"; m; "SUCCESS"; "END"])
    by (repeat constructor; assumption).
  rewrite parse_payload by exact Hall. rewrite feed_all_fed by exact Hall.
  unfold ReplyParser.feed_all. cbn [fold_left].
  destruct (step_begin ReplyParser.new eq_refl) as (S1 & L1).
  set (p1 := ReplyParser.feed "BEGIN" ReplyParser.new) in *.
  destruct (step_command m p1 Hm S1) as (S2 & C2 & L2).
  set (p2 := ReplyParser.feed m p1) in *.
  destruct (step_result true p2 S2) as (S3 & C3 & L3 & B3).
  set (p3 := ReplyParser.feed _ p2) in *.
  destruct (step_end p3 (or_intror S3)) as (S4 & C4 & L4 & B4).
  unfold parsed_as, ReplyParser.get_command, ReplyParser.get_data,
    ReplyParser.get_success.
  rewrite S4, C4, L4, B4, C3, L3, B3, C2, L2, L1. repeat split; reflexivity.
Qed.

(** ** The packets as lines *)

Lemma length_line m : String.length (m +:+ NL) = S (String.length m).
Proof. induction m as [|c m IH]; [reflexivity|]. rewrite append_cons. simpl. rewrite IH. reflexivity. Qed.

Lemma strrchr_line m : none_in NL m = true -> strrchr nl (m +:+ NL) = Some (String.length m).
Proof.
  induction m as [|c m IH]; intros H; [reflexivity|].
  cbn [none_in] in H. apply andb_true_iff in H as [_ H].
  rewrite append_cons. cbn [strrchr]. rewrite (IH H). reflexivity.
Qed.

(** The message line of a reply: [m], with or without its newline. *)
Lemma message_buffer_error m message :
  clean_line m = true -> (String.length message <= PACKET_SIZE)%nat ->
  message = m \/ message = m +:+ NL ->
  strip_trailing_nl (strncpy (S PACKET_SIZE) message) = m.
Proof.
  intros Hm Hlen Hmsg. pose proof (clean_line_none_in m Hm) as Hnl.
  unfold PACKET_SIZE in *. destruct Hmsg as [-> | ->].
  - rewrite strncpy_short by lia. apply strip_trailing_nl_none_in. exact Hnl.
  - rewrite strncpy_short by lia.
    unfold strip_trailing_nl. rewrite strrchr_line by exact Hnl.
    apply prefix_length_app.
Qed.

Lemma message_buffer_success m message :
  clean_line m = true -> (String.length message < 127)%nat ->
  message = m \/ message = m +:+ NL ->
  match strrchr nl (strncpy 127 message) with
  | Some i =>
      if (S i =? String.length (strncpy 127 message))%nat
      then prefix i (strncpy 127 message) else strncpy 127 message
  | None => strncpy 127 message
  end = m.
Proof.
  intros Hm Hlen Hmsg. pose proof (clean_line_none_in m Hm) as Hnl.
  destruct Hmsg as [-> | ->].
  - rewrite strncpy_short by lia. rewrite strrchr_none_in by exact Hnl. reflexivity.
  - rewrite strncpy_short by lia.
    rewrite strrchr_line by exact Hnl. rewrite length_line, Nat.eqb_refl.
    apply prefix_length_app.
Qed.

Lemma success_packet_lines m :
  success_packet (m +:+ NL) = payload ["BEGIN"; m; "SUCCESS"; "END"].
Proof.
  unfold success_packet, P_BEGIN, P_SUCCESS, P_END. cbn [payload].
  rewrite !append_assoc, append_empty_r. reflexivity.
Qed.

Lemma success_data_packet_lines m message ls :
  clean_line m = true -> send_success_data_fits message = true ->
  message = m \/ message = m +:+ NL ->
  Forall (fun l => clean_line l = true) ls -> (1 <= length ls <= 99)%nat ->
  success_data_packet message (payload ls) =
  payload (["BEGIN"; m; "SUCCESS"; "DATA"; dec (Z.of_nat (length ls))] ++ ls ++ ["END"]).
Proof.
  intros Hm Hlen Hmsg Hls Hn. unfold success_data_packet. cbv zeta.
  unfold send_success_data_fits in Hlen. apply Nat.ltb_lt in Hlen.
  rewrite (message_buffer_success m message Hm Hlen Hmsg).
  rewrite count_newlines_payload by exact Hls.
  destruct (count_line_facts _ Hn) as (_ & -> & _).
  rewrite !payload_app. unfold P_BEGIN, P_SUCCESS, P_DATA, P_END. cbn [payload].
  rewrite !append_assoc, !append_empty_r. reflexivity.
Qed.

Lemma error_packet_lines m message text ls :
  clean_line m = true -> send_error_fits message text = true ->
  message = m \/ message = m +:+ NL ->
  Forall (fun l => clean_line l = true) ls -> (1 <= length ls <= 99)%nat ->
  strip_trailing_nl text +:+ NL = payload ls ->
  error_packet message text =
  payload (["BEGIN"; m; "ERROR"; "DATA"; dec (Z.of_nat (length ls))] ++ ls ++ ["END"]).
Proof.
  intros Hm Hlen Hmsg Hls Hn Htext. unfold error_packet. cbv zeta.
  unfold send_error_fits in Hlen. apply andb_true_iff in Hlen as [Hlen _].
  apply Nat.leb_le in Hlen.
  rewrite (message_buffer_error m message Hm Hlen Hmsg).
  assert (Hcnt : count_newlines (strip_trailing_nl text) + 1 = Z.of_nat (length ls)).
  { rewrite <- (count_newlines_payload ls Hls), <- Htext, count_newlines_app.
    reflexivity. }
  rewrite Hcnt. destruct (count_line_facts _ Hn) as (_ & _ & -> & _).
  rewrite !payload_app. unfold P_BEGIN, P_ERROR, P_DATA, P_END. cbn [payload].
  rewrite <- Htext. rewrite !append_assoc, !append_empty_r. reflexivity.
Qed.

(** C5 (as amended): round trip through the wire codec and the reply
    parser, for a clean message line and a payload of 1 to 99 clean
    lines, where the strings fit the buffers of the call: the lines of a
    reply written by [send_success] without data (message with its
    newline), by [send_success] with the payload (message, its newline
    included, of at most 126 characters), or by [send_error] with a text
    whose lines are the payload (message and text of at most 256
    characters each), fed one at a time to a fresh parser, leave it in
    [DONE] with the message, the payload and the success flag. *)
Theorem reply_round_trip (keep : bool) (m : string) (ls : list string) :
  clean_line m = true ->
  Forall (fun l => clean_line l = true) ls -> (1 <= length ls <= 99)%nat ->
  parsed_as (parse keep (success_packet (m +:+ NL))) m "" true /\
  (forall message, message = m \/ message = m +:+ NL ->
     send_success_data_fits message = true ->
     parsed_as (parse keep (success_data_packet message (payload ls))) m (payload ls) true) /\
  (forall message text, message = m \/ message = m +:+ NL ->
     send_error_fits message text = true ->
     strip_trailing_nl text +:+ NL = payload ls ->
     parsed_as (parse keep (error_packet message text)) m (payload ls) false).
Proof.
  intros Hm Hls Hn. split; [|split].
  - rewrite success_packet_lines. apply parse_plain_reply. exact Hm.
  - intros message Hmsg Hfit.
    rewrite (success_data_packet_lines m message ls Hm Hfit Hmsg Hls Hn).
    apply (parse_data_reply keep m true ls Hm Hls Hn).
  - intros message text Hmsg Hfit Htext.
    rewrite (error_packet_lines m message text ls Hm Hfit Hmsg Hls Hn Htext).
    apply (parse_data_reply keep m false ls Hm Hls Hn).
Qed.

Lemma reply_round_trip_witness :
  parsed_as (parse false (error_packet "SEND_ONCE" "TIMEOUT")) "SEND_ONCE"
            (payload ["TIMEOUT"]) false /\
  parsed_as (parse true (success_data_packet "LIST_BACKENDS"
                                             (payload ["acme@/dev/ir0"; "b@/dev/ir1"])))
            "LIST_BACKENDS" (payload ["acme@/dev/ir0"; "b@/dev/ir1"]) true.
Proof.
  split.
  - destruct (reply_round_trip false "SEND_ONCE" ["TIMEOUT"]) as (_ & _ & H).
    + vm_compute. reflexivity.
    + repeat constructor.
    + simpl. lia.
    + apply (H "SEND_ONCE" "TIMEOUT");
        [left; reflexivity|vm_compute; reflexivity|vm_compute; reflexivity].
  - destruct (reply_round_trip true "LIST_BACKENDS" ["acme@/dev/ir0"; "b@/dev/ir1"])
      as (_ & H & _).
    + vm_compute. reflexivity.
    + repeat constructor.
    + simpl. lia.
    + apply (H "LIST_BACKENDS"); [left; reflexivity|vm_compute; reflexivity].
Defined.

(** C5, counterexample: a reply with no payload line leaves the parser
    in [END] with the END line as data; one with 100 payload lines, of
    which the parser reads a count of 10, and one written without data for
    a message that has no newline end in [BAD_DATA].  The strings of
    these calls fit the buffers. *)
Lemma reply_round_trip_fails :
  send_success_data_fits "LIST_BACKENDS" = true /\
  send_success_data_fits "LIST" = true /\
  send_error_fits "LIST" (payload (repeat "x"%string 100)) = true /\
  (let p := parse false (success_data_packet "LIST_BACKENDS" (payload [])) in
   ReplyParser.state p = ReplyParser.END /\ ReplyParser.get_data p = payload ["END"]) /\
  (let p := parse false (success_data_packet "LIST" (payload (repeat "x"%string 100))) in
   ReplyParser.state p = ReplyParser.BAD_DATA /\
   ReplyParser.get_data p = payload (repeat "x"%string 10)) /\
  (let p := parse false (error_packet "LIST" (payload (repeat "x"%string 100))) in
   ReplyParser.state p = ReplyParser.BAD_DATA) /\
  (let p := parse false (success_packet "VERSION") in
   ReplyParser.state p = ReplyParser.BAD_DATA).
Proof. vm_compute. repeat split; reflexivity. Qed.

(** ** Scanning the answer to GET_BACKEND_INFO *)

Lemma take_nonspace_field w tok rest :
  none_space tok = true -> (String.length tok <= w)%nat ->
  (rest = "" \/ exists c r, rest = String c r /\ isspace c = true) ->
  Scan.take_nonspace w (tok +:+ rest) = (tok, rest).
Proof.
  revert w. induction tok as [|a tok IH]; intros w Hns Hlen Hrest.
  - rewrite append_nil. destruct Hrest as [-> | (c & r & -> & Hc)].
    + destruct w; reflexivity.
    + destruct w; [reflexivity|]. cbn [Scan.take_nonspace]. rewrite Hc. reflexivity.
  - cbn [none_space] in Hns. apply andb_true_iff in Hns as [Ha Hns].
    apply negb_true_iff in Ha. cbn [String.length] in Hlen.
    destruct w as [|w]; [lia|]. rewrite append_cons. cbn [Scan.take_nonspace].
    rewrite Ha, (IH w Hns) by (try assumption; lia). reflexivity.
Qed.

Lemma skip_space_field tok rest :
  tok <> "" -> none_space tok = true ->
  Scan.skip_space (tok +:+ rest) = tok +:+ rest.
Proof.
  destruct tok as [|a tok]; [contradiction|]. intros _ Hns.
  cbn [none_space] in Hns. apply andb_true_iff in Hns as [Ha _].
  apply negb_true_iff in Ha. rewrite append_cons. cbn [Scan.skip_space].
  rewrite Ha. reflexivity.
Qed.

Lemma scan_s_field w tok rest :
  field w tok ->
  (rest = "" \/ exists c r, rest = String c r /\ isspace c = true) ->
  Scan.scan_s w (tok +:+ rest) = Some (tok, rest) /\
  Scan.scan_s w (String sp (tok +:+ rest)) = Some (tok, rest).
Proof.
  intros (Hne & Hns & Hlen) Hrest.
  assert (E : Scan.scan_s w (tok +:+ rest) = Some (tok, rest)).
  { unfold Scan.scan_s. rewrite skip_space_field by assumption.
    rewrite take_nonspace_field by assumption.
    destruct tok; [contradiction|reflexivity]. }
  split; [exact E|]. unfold Scan.scan_s in *. exact E.
Qed.

Lemma all_digits_none_space s : all_digits s = true -> none_space s = true.
Proof.
  induction s as [|c s IH]; [reflexivity|]. cbn [all_digits none_space]. intros H.
  apply andb_true_iff in H as [Hc Hs]. rewrite (IH Hs), andb_true_r.
  unfold Scan.digit_val in Hc. unfold isspace.
  destruct c as [[] [] [] [] [] [] [] []]; try discriminate Hc; reflexivity.
Qed.

Lemma take_digits_field ds : forall w rest cnt acc,
  all_digits ds = true -> (String.length ds <= w)%nat ->
  (rest = "" \/ exists c r, rest = String c r /\ isspace c = true) ->
  exists v, Scan.take_digits Scan.digit_val 10 w (ds +:+ rest) cnt acc
            = ((cnt + String.length ds)%nat, v, rest).
Proof.
  induction ds as [|a ds IH]; intros w rest cnt acc Hd Hlen Hrest.
  - rewrite append_nil. exists acc. cbn [String.length]. rewrite Nat.add_0_r.
    destruct Hrest as [-> | (c & r & -> & Hc)].
    + destruct w; reflexivity.
    + destruct w; [reflexivity|]. cbn [Scan.take_digits].
      assert (E : Scan.digit_val c = None).
      { unfold isspace in Hc. unfold Scan.digit_val.
        destruct c as [[] [] [] [] [] [] [] []]; try discriminate Hc; reflexivity. }
      rewrite E. reflexivity.
  - cbn [all_digits] in Hd. apply andb_true_iff in Hd as [Ha Hd].
    cbn [String.length] in Hlen. destruct w as [|w]; [lia|].
    rewrite append_cons. cbn [Scan.take_digits].
    destruct (Scan.digit_val a) as [d|]; [|discriminate].
    destruct (IH w rest (S cnt) (10 * acc + d) Hd ltac:(lia) Hrest) as (v & ->).
    exists v. cbn [String.length]. f_equal. f_equal. lia.
Qed.

Lemma scan_d_field w ds rest :
  number_field w ds ->
  (rest = "" \/ exists c r, rest = String c r /\ isspace c = true) ->
  exists v, Scan.scan_d w (String sp (ds +:+ rest)) = Some (v, rest).
Proof.
  intros (Hne & Hd & Hlen) Hrest. unfold Scan.scan_d.
  change (Scan.skip_space (String sp (ds +:+ rest))) with (Scan.skip_space (ds +:+ rest)).
  rewrite skip_space_field by (try assumption; apply all_digits_none_space; assumption).
  destruct ds as [|a ds]; [contradiction|].
  assert (Hsign : Scan.take_sign w (String a ds +:+ rest) = (false, w, String a ds +:+ rest)).
  { rewrite append_cons. unfold Scan.take_sign. cbn [String.length] in Hlen.
    destruct w as [|w]; [lia|].
    cbn [all_digits] in Hd. apply andb_true_iff in Hd as [Ha _].
    unfold Scan.digit_val in Ha.
    destruct a as [[] [] [] [] [] [] [] []]; try discriminate Ha; reflexivity. }
  rewrite Hsign.
  destruct (take_digits_field (String a ds) w rest 0%nat 0 Hd Hlen Hrest) as (v & ->).
  cbn [String.length Nat.add]. eauto.
Qed.

(** The four fields of an answer ["<type> <pid> <driver> <device>"]. *)
Lemma scan_backend_info_fields typ pid driver device :
  field 32 typ -> number_field 6 pid -> field 32 driver -> field 64 device ->
  exists p, scan_backend_info (typ +:+ " " +:+ pid +:+ " " +:+ driver +:+ " " +:+ device
                               +:+ NL)
            = Some (typ, p, driver, device).
Proof.
  intros Ht Hp Hdr Hdev. unfold scan_backend_info.
  assert (Hsp : forall r, exists c r', " " +:+ r = String c r' /\ isspace c = true).
  { intros r. exists sp, r. split; reflexivity. }
  destruct (scan_s_field 32 typ (" " +:+ pid +:+ " " +:+ driver +:+ " " +:+ device +:+ NL)
              Ht) as [E1 _]; [right; apply Hsp|]. rewrite E1.
  destruct (scan_d_field 6 pid (" " +:+ driver +:+ " " +:+ device +:+ NL) Hp)
    as (v & E2); [right; apply Hsp|].
  change (" " +:+ pid +:+ " " +:+ driver +:+ " " +:+ device +:+ NL)
    with (String sp (pid +:+ " " +:+ driver +:+ " " +:+ device +:+ NL)).
  rewrite E2.
  destruct (scan_s_field 32 driver (" " +:+ device +:+ NL) Hdr) as [_ E3];
    [right; apply Hsp|].
  change (" " +:+ driver +:+ " " +:+ device +:+ NL)
    with (String sp (driver +:+ " " +:+ device +:+ NL)).
  rewrite E3.
  destruct (scan_s_field 64 device NL Hdev) as [_ E4].
  { right. exists nl, "". split; reflexivity. }
  change (" " +:+ device +:+ NL) with (String sp (device +:+ NL)).
  rewrite E4. eauto.
Qed.

(** Fields below the widths of the scan leave the arrays intact. *)
Lemma scan_backend_info_within typ pid driver device :
  field 31 typ -> number_field 6 pid -> field 31 driver -> field 63 device ->
  scan_backend_info_overruns (typ +:+ " " +:+ pid +:+ " " +:+ driver +:+ " " +:+ device
                              +:+ NL) = false.
Proof.
  intros Ht Hp Hdr Hdev. unfold scan_backend_info_overruns.
  assert (Hsp : forall r, exists c r', " " +:+ r = String c r' /\ isspace c = true).
  { intros r. exists sp, r. split; reflexivity. }
  assert (Ht' : field 32 typ) by (destruct Ht as (? & ? & ?); repeat split; auto; lia).
  assert (Hdr' : field 32 driver) by (destruct Hdr as (? & ? & ?); repeat split; auto; lia).
  assert (Hdev' : field 64 device) by (destruct Hdev as (? & ? & ?); repeat split; auto; lia).
  destruct (scan_s_field 32 typ (" " +:+ pid +:+ " " +:+ driver +:+ " " +:+ device +:+ NL)
              Ht') as [E1 _]; [right; apply Hsp|]. rewrite E1.
  destruct (scan_d_field 6 pid (" " +:+ driver +:+ " " +:+ device +:+ NL) Hp)
    as (v & E2); [right; apply Hsp|].
  change (" " +:+ pid +:+ " " +:+ driver +:+ " " +:+ device +:+ NL)
    with (String sp (pid +:+ " " +:+ driver +:+ " " +:+ device +:+ NL)).
  rewrite E2.
  destruct (scan_s_field 32 driver (" " +:+ device +:+ NL) Hdr') as [_ E3];
    [right; apply Hsp|].
  change (" " +:+ driver +:+ " " +:+ device +:+ NL)
    with (String sp (driver +:+ " " +:+ device +:+ NL)).
  rewrite E3.
  destruct (scan_s_field 64 device NL Hdev') as [_ E4].
  { right. exists nl, "". split; reflexivity. }
  change (" " +:+ device +:+ NL) with (String sp (device +:+ NL)).
  rewrite E4.
  destruct Ht as (_ & _ & L1). destruct Hdr as (_ & _ & L2). destruct Hdev as (_ & _ & L3).
  replace (String.length typ =? 32)%nat with false by (symmetry; apply Nat.eqb_neq; lia).
  replace (String.length driver =? 32)%nat with false by (symmetry; apply Nat.eqb_neq; lia).
  replace (String.length device =? 64)%nat with false by (symmetry; apply Nat.eqb_neq; lia).
  reflexivity.
Qed.

(** ** The registration handshake *)

Lemma find_fd_alter (g : FdItem -> FdItem) i l f :
  (forall x, fd (g x) = fd x) -> FdList.find_fd f (alter g i l) = FdList.find_fd f l.
Proof.
  intros Hfd. apply find_fd_map_fd.
  apply list_eq. intros j. change (map fd) with (fmap (M:=list) fd).
  rewrite !list_lookup_fmap.
  destruct (decide (j = i)) as [->|Hne].
  - rewrite list_lookup_alter_eq. destruct (l !! i); simpl; rewrite ?Hfd; reflexivity.
  - rewrite list_lookup_alter_ne by auto. reflexivity.
Qed.

Lemma field_weaken w w' s : (w <= w')%nat -> field w s -> field w' s.
Proof. intros Hw (H1 & H2 & H3). repeat split; try assumption. lia. Qed.


(** C6 (the code departs from it): a process id of seven digits, in an
    answer whose fields all fit their arrays.  ["%6d"] takes six of the
    digits, the seventh is read as the driver and the driver as the
    device: the record gets the id [7@acme], not [acme@/dev/ir0], the
    registration goes on with SET_DATA_SOCKET, and the backend becomes
    the default backend under that id. *)
Theorem long_pid_shifts_fields :
  let w1 := world_of (process_item_input (new_item 7 BACKEND_CMD (-1))
                                         (Lines long_pid_reply) w_backend) in
  let w2 := world_of (process_item_input (new_item 7 BACKEND_CMD (-1))
                                         (Lines socket_reply) w1) in
  scan_backend_info_overruns ("std 1234567 acme /dev/ir0" +:+ NL) = false /\
  scan_backend_info ("std 1234567 acme /dev/ir0" +:+ NL) = Some ("std", 123456, "7", "acme") /\
  id_of w_backend 4 = Some "undef" /\
  id_of w1 4 = Some "7@acme" /\
  sent w1 = [(7, "GET_BACKEND_INFO" +:+ NL);
             (7, "SET_DATA_SOCKET /var/run/lirc/lircd-data-7" +:+ NL)] /\
  default_backend w2 = 7 /\
  kind_and_id w2 7 = Some (BACKEND_CMD, "7@acme").
Proof. vm_compute. repeat split; reflexivity. Qed.

Example handshake_scenario :
  kind_and_id w_registered 7 = Some (BACKEND_CMD, "acme@/dev/ir0") /\
  default_backend w_registered = 7 /\
  routing_state (fdList w_registered) 7 = Some (-1, -1) /\
  unlinked w_registered = ["/var/run/lirc/lircd-data-7"] /\
  sent w_registered = [(7, "GET_BACKEND_INFO" +:+ NL);
                       (7, "SET_DATA_SOCKET /var/run/lirc/lircd-data-7" +:+ NL)].
Proof. vm_compute. repeat split; reflexivity. Qed.

(** * The registry (fd_list.cpp) *)

Lemma find_app cond (l1 l2 : list FdItem) :
  FdList.find cond (l1 ++ l2) =
  match FdList.find cond l1 with
  | Some i => Some i
  | None => option_map (fun j => (length l1 + j)%nat) (FdList.find cond l2)
  end.
Proof.
  induction l1 as [|x l1 IH]; simpl.
  - destruct (FdList.find cond l2); reflexivity.
  - destruct (cond x); [reflexivity|]. rewrite IH.
    destruct (FdList.find cond l1); [reflexivity|].
    destruct (FdList.find cond l2); reflexivity.
Qed.

Lemma find_fd_app f (l1 l2 : list FdItem) :
  FdList.find_fd f (l1 ++ l2) =
  match FdList.find_fd f l1 with
  | Some i => Some i
  | None => option_map (fun j => (length l1 + j)%nat) (FdList.find_fd f l2)
  end.
Proof. apply find_app. Qed.

Lemma find_fd_singleton f x :
  FdList.find_fd f [x] = if fd x =? f then Some O else None.
Proof. unfold FdList.find_fd, FdList.item_fd_equals. simpl. destruct (fd x =? f); reflexivity. Qed.

Lemma find_fd_None_iff f l : FdList.find_fd f l = None <-> f ∉ map fd l.
Proof.
  split.
  - intros H Hin. apply list_elem_of_fmap in Hin as (x & -> & Hx).
    exact (find_fd_None _ _ _ H Hx eq_refl).
  - intros H. destruct (FdList.find_fd f l) as [i|] eqn:E; [|reflexivity].
    destruct (find_fd_Some _ _ _ E) as (x & Hx & Hf). exfalso. apply H.
    apply list_elem_of_fmap. exists x. split; [symmetry; exact Hf|].
    eapply list_elem_of_lookup_2. exact Hx.
Qed.

(** X1: [find_fd] returns the position of the first record whose
    descriptor is [fd], and [end()] exactly when no record has it. *)
Theorem find_fd_first_match (f : Z) (l : list FdItem) :
  match FdList.find_fd f l with
  | Some i => exists x, l !! i = Some x /\ fd x = f /\
                forall j y, (j < i)%nat -> l !! j = Some y -> fd y <> f
  | None => forall x, x ∈ l -> fd x <> f
  end.
Proof.
  destruct (FdList.find_fd f l) as [i|] eqn:E.
  - destruct (find_Some _ _ _ E) as (x & Hx & Hc & Hbefore).
    exists x. split; [exact Hx|]. split.
    + apply Z.eqb_eq. exact Hc.
    + intros j y Hj Hy. apply Z.eqb_neq. exact (Hbefore j y Hj Hy).
  - intros x Hx. exact (find_fd_None _ _ _ E Hx).
Qed.

(** X2: a connection added for a descriptor that is not yet registered
    is found under that descriptor, as the last record and with the
    fields [init] gives it; the lookup of every other descriptor is as
    before.  A descriptor that is already registered keeps resolving to
    its old record: the new one is shadowed. *)
Theorem add_client_find_fd (f : Z) (l : list FdItem) :
  (forall i, FdList.find_fd f l = Some i ->
     FdList.find_fd f (FdList.add_client f l) = Some i /\
     FdList.find_fd f (FdList.add_ctrl_client f l) = Some i) /\
  (FdList.find_fd f l = None ->
     FdList.find_fd f (FdList.add_client f l) = Some (length l) /\
     FdList.find_fd f (FdList.add_ctrl_client f l) = Some (length l)) /\
  FdList.add_client f l !! length l =
    Some (mkFdItem CLIENT_STREAM f (-1) (-1) (-1) "undef" ReplyParser.new "NONE" (-1)) /\
  FdList.add_ctrl_client f l !! length l =
    Some (mkFdItem CTRL_STREAM f (-1) (-1) (-1) "undef" ReplyParser.new "NONE" (-1)) /\
  (forall g, g <> f ->
     FdList.find_fd g (FdList.add_client f l) = FdList.find_fd g l /\
     FdList.find_fd g (FdList.add_ctrl_client f l) = FdList.find_fd g l).
Proof.
  unfold FdList.add_client, FdList.add_ctrl_client.
  split; [|split; [|split; [|split]]].
  - intros i H. rewrite !find_fd_app, H. split; reflexivity.
  - intros H. rewrite !find_fd_app, H, !find_fd_singleton. simpl.
    rewrite Z.eqb_refl. simpl. rewrite Nat.add_0_r. split; reflexivity.
  - rewrite lookup_app_r by lia. rewrite Nat.sub_diag. reflexivity.
  - rewrite lookup_app_r by lia. rewrite Nat.sub_diag. reflexivity.
  - intros g Hg. rewrite !find_fd_app, !find_fd_singleton. simpl.
    destruct (Z.eqb_spec f g) as [E|E]; [congruence|].
    destruct (FdList.find_fd g l); split; reflexivity.
Qed.

Lemma add_client_find_fd_witness :
  FdList.find_fd 9 (FdList.add_client 9 (FdList.make 3 4 5)) = Some 3%nat /\
  FdList.find_fd 4 (FdList.add_client 4 (FdList.make 3 4 5)) = Some 1%nat.
Proof.
  destruct (add_client_find_fd 9 (FdList.make 3 4 5)) as (_ & H & _).
  destruct (add_client_find_fd 4 (FdList.make 3 4 5)) as (H' & _).
  split.
  - apply H. reflexivity.
  - apply (H' 1%nat). reflexivity.
Defined.

Lemma filter_fd_absent f (l : list FdItem) :
  f ∉ map fd l -> filter (fun x => fd x <> f) l = l.
Proof.
  induction l as [|x l IH]; intros H; [reflexivity|].
  rewrite filter_cons_True.
  - f_equal. apply IH. intros Hin. apply H. simpl. apply list_elem_of_further. exact Hin.
  - intros E. apply H. simpl. rewrite E. apply list_elem_of_here.
Qed.

Lemma delete_find_fd_filter f (l : list FdItem) i :
  unique_fds l -> FdList.find_fd f l = Some i ->
  delete i l = filter (fun x => fd x <> f) l.
Proof.
  unfold unique_fds, FdList.find_fd, FdList.item_fd_equals.
  revert i. induction l as [|x l IH]; intros i Hnd H; [discriminate|].
  simpl in H. simpl in Hnd. apply NoDup_cons in Hnd as [Hx Hnd].
  destruct (Z.eqb_spec (fd x) f) as [E|E].
  - injection H as <-. simpl. rewrite filter_cons_False by (intros H; apply H; exact E).
    symmetry. apply filter_fd_absent. rewrite <- E. exact Hx.
  - destruct (FdList.find _ l) as [j|] eqn:Ej; [|discriminate].
    injection H as <-. simpl. rewrite filter_cons_True by exact E.
    f_equal. apply IH; [exact Hnd|reflexivity].
Qed.

(** X3: on a registry with unique descriptors [remove_client] erases the
    record of the descriptor and nothing else, the other records keeping
    their order.  The iterator it returns is the position of the erased
    record, where the record that followed it now is, and [end()] when
    the erased record was the last one; it is [end()] as well, with the
    registry unchanged, when the descriptor is not registered.  Removing
    a client that was just added gives the registry back and returns
    [end()]. *)
Theorem remove_client_erases (f : Z) (l : list FdItem) :
  unique_fds l ->
  snd (FdList.remove_client f l) = filter (fun x => fd x <> f) l /\
  (forall i, FdList.find_fd f l = Some i ->
     fst (FdList.remove_client f l) = (if (S i <? length l)%nat then Some i else None) /\
     snd (FdList.remove_client f l) !! i = l !! S i) /\
  (f ∉ map fd l -> FdList.remove_client f l = (None, l)) /\
  (f ∉ map fd l -> FdList.remove_client f (FdList.add_client f l) = (None, l)).
Proof.
  intros Hnd. unfold FdList.remove_client. split; [|split; [|split]].
  - destruct (FdList.find_fd f l) as [i|] eqn:E; cbn [snd].
    + apply (delete_find_fd_filter f l i Hnd E).
    + apply find_fd_None_iff in E. symmetry. apply (filter_fd_absent f l E).
  - intros i E. rewrite E. cbn [fst snd].
    destruct (find_fd_Some _ _ _ E) as (x & Hx & _).
    apply lookup_lt_Some in Hx as Hlt. rewrite length_delete by eauto.
    split.
    + destruct (Nat.ltb_spec i (length l - 1)); destruct (Nat.ltb_spec (S i) (length l));
        try reflexivity; lia.
    + apply list_lookup_delete_ge. lia.
  - intros H. apply find_fd_None_iff in H. rewrite H. reflexivity.
  - intros H. apply find_fd_None_iff in H. unfold FdList.add_client.
    rewrite find_fd_app, H, find_fd_singleton. simpl. rewrite Z.eqb_refl. simpl.
    rewrite Nat.add_0_r. rewrite delete_middle, app_nil_r.
    rewrite Nat.ltb_irrefl. reflexivity.
Qed.

Lemma remove_client_erases_witness :
  FdList.remove_client 4 (FdList.make 3 4 5) =
    (Some 1%nat, [new_item 3 CLIENT (-1); new_item 5 CTRL (-1)]) /\
  FdList.remove_client 5 (FdList.make 3 4 5) =
    (None, [new_item 3 CLIENT (-1); new_item 4 BACKEND (-1)]) /\
  FdList.remove_client 9 (FdList.make 3 4 5) = (None, FdList.make 3 4 5).
Proof.
  assert (Hnd : unique_fds (FdList.make 3 4 5)) by (unfold unique_fds; vm_compute; nodup_Z).
  split; [|split].
  - destruct (remove_client_erases 4 (FdList.make 3 4 5) Hnd) as (H1 & H2 & _).
    destruct (H2 1%nat eq_refl) as [H3 _].
    rewrite (surjective_pairing (FdList.remove_client 4 (FdList.make 3 4 5))), H1, H3.
    vm_compute. reflexivity.
  - destruct (remove_client_erases 5 (FdList.make 3 4 5) Hnd) as (H1 & H2 & _).
    destruct (H2 2%nat eq_refl) as [H3 _].
    rewrite (surjective_pairing (FdList.remove_client 5 (FdList.make 3 4 5))), H1, H3.
    vm_compute. reflexivity.
  - apply (proj1 (proj2 (proj2 (remove_client_erases 9 (FdList.make 3 4 5) Hnd)))).
    intros H. apply list_elem_of_In in H. simpl in H.
    destruct H as [H|[H|[H|[]]]]; discriminate.
Defined.

(** X4: the pair [add_backend] appends is linked through [peer] in both
    directions.  [remove_backend] on the descriptor of the fifo erases
    both records and gives the registry back; on the descriptor of the
    command socket it erases the fifo record first, which precedes the
    command record, and then erases through the iterator which that
    erase has invalidated. *)
Theorem add_backend_remove_backend (cmd_fd data_fd : Z) (l : list FdItem) :
  cmd_fd <> data_fd -> cmd_fd <> -1 -> data_fd <> -1 ->
  FdList.find_fd cmd_fd l = None -> FdList.find_fd data_fd l = None ->
  FdList.add_backend cmd_fd data_fd l =
    l ++ [mkFdItem BACKEND_DATA data_fd (-1) cmd_fd (-1) "undef" ReplyParser.new "NONE" (-1);
          mkFdItem BACKEND_CMD cmd_fd (-1) data_fd (-1) "undef" ReplyParser.new "NONE" (-1)] /\
  FdList.find_fd data_fd (FdList.add_backend cmd_fd data_fd l) = Some (length l) /\
  FdList.find_fd cmd_fd (FdList.add_backend cmd_fd data_fd l) = Some (S (length l)) /\
  FdList.remove_backend data_fd (FdList.add_backend cmd_fd data_fd l) = Some (true, l) /\
  FdList.remove_backend cmd_fd (FdList.add_backend cmd_fd data_fd l) = None.
Proof.
  intros Hne Hc Hd Hfc Hfd.
  assert (Hadd : FdList.add_backend cmd_fd data_fd l =
    l ++ [mkFdItem BACKEND_DATA data_fd (-1) cmd_fd (-1) "undef" ReplyParser.new "NONE" (-1);
          mkFdItem BACKEND_CMD cmd_fd (-1) data_fd (-1) "undef" ReplyParser.new "NONE" (-1)]).
  { unfold FdList.add_backend. rewrite <- app_assoc. reflexivity. }
  assert (Hd' : FdList.find_fd data_fd (FdList.add_backend cmd_fd data_fd l)
                = Some (length l)).
  { rewrite Hadd, find_fd_app, Hfd. unfold FdList.find_fd, FdList.item_fd_equals. simpl.
    rewrite Z.eqb_refl. simpl. rewrite Nat.add_0_r. reflexivity. }
  assert (Hc' : FdList.find_fd cmd_fd (FdList.add_backend cmd_fd data_fd l)
                = Some (S (length l))).
  { rewrite Hadd, find_fd_app, Hfc. unfold FdList.find_fd, FdList.item_fd_equals. simpl.
    destruct (Z.eqb_spec data_fd cmd_fd) as [E|E]; [congruence|].
    rewrite Z.eqb_refl. simpl. rewrite Nat.add_1_r. reflexivity. }
  split; [exact Hadd|]. split; [exact Hd'|]. split; [exact Hc'|]. split.
  - unfold FdList.remove_backend. rewrite Hd'.
    rewrite Hadd at 1. rewrite list_lookup_middle by reflexivity. simpl.
    destruct (Z.eqb_spec cmd_fd (-1)) as [E|E]; [congruence|]. simpl.
    rewrite Hc'. destruct (Nat.leb_spec (S (length l)) (length l)) as [H|H]; [lia|].
    rewrite Hadd.
    change (l ++ [?a; ?b]) with (l ++ [a] ++ [b]).
    rewrite app_assoc.
    replace (S (length l)) with (length (l ++
      [mkFdItem BACKEND_DATA data_fd (-1) cmd_fd (-1) "undef" ReplyParser.new "NONE" (-1)]))
      by (rewrite length_app; simpl; lia).
    rewrite delete_middle, app_nil_r, delete_middle, app_nil_r. reflexivity.
  - unfold FdList.remove_backend. rewrite Hc'.
    rewrite Hadd at 1.
    change (l ++ [?a; ?b]) with (l ++ [a] ++ [b]). rewrite app_assoc.
    rewrite list_lookup_middle by (rewrite length_app; simpl; lia). simpl.
    destruct (Z.eqb_spec data_fd (-1)) as [E|E]; [congruence|]. simpl.
    rewrite Hd'. destruct (Nat.leb_spec (length l) (S (length l))) as [H|H]; [|lia].
    reflexivity.
Qed.

Lemma add_backend_remove_backend_witness :
  FdList.remove_backend 8 (FdList.add_backend 7 8 (FdList.make 3 4 5))
    = Some (true, FdList.make 3 4 5) /\
  FdList.remove_backend 7 (FdList.add_backend 7 8 (FdList.make 3 4 5)) = None.
Proof.
  destruct (add_backend_remove_backend 7 8 (FdList.make 3 4 5)) as (_ & _ & _ & H1 & H2);
    try reflexivity; try discriminate.
  split; [exact H1|exact H2].
Defined.

(** * Routing (lircd_commands.cpp) *)

Lemma routing_state_elem l f r (x : FdItem) :
  unique_fds l -> routing_state l f = Some r -> x ∈ l -> fd x = f ->
  (connected_to x, ticks x) = r.
Proof.
  intros Hnd Hr Hx Hf.
  destruct (routing_state_found l f r Hr) as (i & y & Hi & Hy & ->).
  destruct (find_fd_Some _ _ _ Hi) as (y' & Hy' & Hfy).
  rewrite Hy in Hy'. injection Hy' as <-.
  assert (E : x = y).
  { apply (unique_fds_elem l); [exact Hnd|exact Hx| |congruence].
    eapply list_elem_of_lookup_2. exact Hy. }
  subst x. reflexivity.
Qed.

Lemma connect_fds_list_fst c b l :
  fst (connect_fds_list c b l) =
  match FdList.find_fd b l with
  | None => false
  | Some _ => if c =? 0 then true
              else match FdList.find_fd c l with Some _ => true | None => false end
  end.
Proof.
  unfold connect_fds_list. destruct (FdList.find_fd b l); [|reflexivity].
  destruct (c =? 0); [reflexivity|]. destruct (FdList.find_fd c l); reflexivity.
Qed.

Lemma disconnect_fds_list_fst f l :
  fst (disconnect_fds_list f l) =
  match FdList.find_fd f l with
  | None => false
  | Some me =>
      match l !! me with
      | None => false
      | Some m =>
          if connected_to m =? 0 then true
          else if connected_to m =? -1 then false
          else match FdList.find_fd (connected_to m) l with
               | Some _ => true
               | None => false
               end
      end
  end.
Proof.
  unfold disconnect_fds_list. destruct (FdList.find_fd f l) as [me|]; [|reflexivity].
  destruct (l !! me) as [m|]; [|reflexivity].
  destruct (connected_to m =? 0); [reflexivity|].
  destruct (connected_to m =? -1); [reflexivity|].
  rewrite find_fd_alter by apply fd_set_ticks.
  destruct (FdList.find_fd (connected_to m) l); reflexivity.
Qed.

Lemma set_fdList_same w : set_fdList (fdList w) w = w.
Proof. destruct w. reflexivity. Qed.

Lemma disarm_connected c t (x : FdItem) :
  connected_to x = -1 -> ticks x = -1 ->
  disarm (set_ticks t (set_connected_to c x)) = x.
Proof. destruct x. simpl. intros -> ->. reflexivity. Qed.

Lemma disarm_pointed c (x : FdItem) :
  connected_to x = -1 -> ticks x = -1 -> disarm (set_connected_to c x) = x.
Proof. destruct x. simpl. intros -> ->. reflexivity. Qed.

Lemma connect_spec_elem c b l bi :
  FdList.find_fd b l = Some bi -> c <> 0 -> c <> b ->
  connect_spec c b l =
  map (fun x => if fd x =? c then set_ticks COMMAND_TIMEOUT_TICKS (set_connected_to b x)
                else if fd x =? b then set_connected_to c x else x) l.
Proof.
  intros Hb Hc Hcb. unfold connect_spec. rewrite Hb.
  destruct (Z.eqb_spec c 0) as [E|_]; [contradiction|].
  unfold update_fd. rewrite map_map. apply map_ext. intros y.
  destruct (Z.eqb_spec (fd y) b) as [E|E].
  - rewrite fd_set_connected_to. rewrite E.
    destruct (Z.eqb_spec b c) as [E'|_]; [congruence|reflexivity].
  - reflexivity.
Qed.

(** X5: [connect_fds] followed by [disconnect_fds], given either of the
    two parties, gives the dispatcher state back: on a registry with
    unique, positive descriptors, connecting an idle client to an idle
    backend succeeds, points each at the other and arms the timeout of
    the client at 20 ticks, and disconnecting through the client or
    through the backend succeeds and restores the state before the
    connect. *)
Theorem connect_disconnect_round_trip (c b f : Z) (w : World) :
  unique_fds (fdList w) -> positive_fds (fdList w) -> c <> b ->
  routing_state (fdList w) c = Some (-1, -1) ->
  routing_state (fdList w) b = Some (-1, -1) ->
  f = c \/ f = b ->
  fst (connect_fds c b w) = true /\
  routing_state (fdList (snd (connect_fds c b w))) c = Some (b, COMMAND_TIMEOUT_TICKS) /\
  routing_state (fdList (snd (connect_fds c b w))) b = Some (c, -1) /\
  disconnect_fds f (snd (connect_fds c b w)) = (true, w).
Proof.
  intros Hnd Hpos Hcb Hrc Hrb Hf.
  destruct (routing_state_found _ _ _ Hrc) as (ci & xc & Hci & Hxc & Exc).
  destruct (routing_state_found _ _ _ Hrb) as (bi & xb & Hbi & Hxb & Exb).
  injection Exc as Exc1 Exc2. injection Exb as Exb1 Exb2.
  destruct (find_fd_Some _ _ _ Hci) as (xc' & Hxc' & Hfc).
  rewrite Hxc in Hxc'. injection Hxc' as <-.
  destruct (find_fd_Some _ _ _ Hbi) as (xb' & Hxb' & Hfb).
  rewrite Hxb in Hxb'. injection Hxb' as <-.
  assert (Hc0 : 0 < c).
  { rewrite <- Hfc. apply (positive_fds_elem (fdList w)); [exact Hpos|].
    eapply list_elem_of_lookup_2. exact Hxc. }
  assert (Hb0 : 0 < b).
  { rewrite <- Hfb. apply (positive_fds_elem (fdList w)); [exact Hpos|].
    eapply list_elem_of_lookup_2. exact Hxb. }
  assert (Hspec := connect_spec_elem c b (fdList w) bi Hbi ltac:(lia) Hcb).
  assert (Hw1 : snd (connect_fds c b w) = set_fdList (connect_spec c b (fdList w)) w)
    by (apply connect_fds_world; exact Hnd).
  assert (Hfst : fst (connect_fds c b w) = true).
  { unfold connect_fds.
    pose proof (connect_fds_list_fst c b (fdList w)) as H.
    destruct (connect_fds_list c b (fdList w)) as [r l'] eqn:E. simpl in *.
    rewrite H, Hbi, Hci. destruct (Z.eqb_spec c 0); [lia|reflexivity]. }
  assert (Hfd1 : map fd (connect_spec c b (fdList w)) = map fd (fdList w))
    by apply map_fd_connect_spec.
  assert (Hlc : connect_spec c b (fdList w) !! ci
                = Some (set_ticks COMMAND_TIMEOUT_TICKS (set_connected_to b xc))).
  { rewrite Hspec, list_lookup_fmap, Hxc. simpl. rewrite Hfc, Z.eqb_refl. reflexivity. }
  assert (Hlb : connect_spec c b (fdList w) !! bi = Some (set_connected_to c xb)).
  { rewrite Hspec, list_lookup_fmap, Hxb. simpl. rewrite Hfb.
    destruct (Z.eqb_spec b c); [congruence|]. rewrite Z.eqb_refl. reflexivity. }
  assert (Hfc1 : FdList.find_fd c (connect_spec c b (fdList w)) = Some ci)
    by (rewrite (find_fd_map_fd c _ _ Hfd1); exact Hci).
  assert (Hfb1 : FdList.find_fd b (connect_spec c b (fdList w)) = Some bi)
    by (rewrite (find_fd_map_fd b _ _ Hfd1); exact Hbi).
  split; [exact Hfst|]. rewrite Hw1. simpl. split; [|split].
  - rewrite (routing_state_lookup _ _ _ _ Hfc1 Hlc). reflexivity.
  - rewrite (routing_state_lookup _ _ _ _ Hfb1 Hlb). simpl. rewrite Exb2. reflexivity.
  - assert (Hnd1 : unique_fds (connect_spec c b (fdList w)))
      by (apply unique_fds_connect_spec; exact Hnd).
    assert (Hback : disconnect_spec f (connect_spec c b (fdList w)) = fdList w).
    { unfold disconnect_spec.
      assert (Hcase : exists me m, FdList.find_fd f (connect_spec c b (fdList w)) = Some me /\
                connect_spec c b (fdList w) !! me = Some m /\
                ((f = c /\ connected_to m = b) \/ (f = b /\ connected_to m = c))).
      { destruct Hf as [-> | ->].
        - exists ci, (set_ticks COMMAND_TIMEOUT_TICKS (set_connected_to b xc)).
          split; [exact Hfc1|]. split; [exact Hlc|]. left. split; reflexivity.
        - exists bi, (set_connected_to c xb).
          split; [exact Hfb1|]. split; [exact Hlb|]. right. split; reflexivity. }
      destruct Hcase as (me & m & -> & -> & Hm).
      assert (Hm0 : (connected_to m =? 0) = false)
        by (apply Z.eqb_neq; destruct Hm as [[_ ->]|[_ ->]]; lia).
      assert (Hm1 : (connected_to m =? -1) = false)
        by (apply Z.eqb_neq; destruct Hm as [[_ ->]|[_ ->]]; lia).
      rewrite Hm0, Hm1. rewrite Hspec. unfold update_fd. rewrite !map_map.
      rewrite <- (map_id (fdList w)) at 2. apply map_ext_in. intros y Hy.
      apply list_elem_of_In in Hy.
      destruct (Z.eqb_spec (fd y) c) as [Ec|Ec].
      + pose proof (routing_state_elem _ _ _ y Hnd Hrc Hy Ec) as Hr. injection Hr as Hr1 Hr2.
        unfold disarm at 2. rewrite ?fd_set_ticks, ?fd_set_connected_to.
        destruct Hm as [[-> ->]|[-> ->]].
        * rewrite Ec, Z.eqb_refl.
          rewrite (disarm_connected b COMMAND_TIMEOUT_TICKS y Hr1 Hr2).
          rewrite Ec. destruct (Z.eqb_spec c b); [congruence|reflexivity].
        * rewrite Ec. destruct (Z.eqb_spec c b) as [|_]; [congruence|].
          rewrite ?fd_set_ticks, ?fd_set_connected_to, Ec, Z.eqb_refl.
          apply disarm_connected; assumption.
      + destruct (Z.eqb_spec (fd y) b) as [Eb|Eb].
        * pose proof (routing_state_elem _ _ _ y Hnd Hrb Hy Eb) as Hr.
          injection Hr as Hr1 Hr2.
          destruct Hm as [[-> ->]|[-> ->]].
          -- rewrite fd_set_connected_to. destruct (Z.eqb_spec (fd y) c); [contradiction|].
             rewrite fd_set_connected_to, Eb, Z.eqb_refl.
             apply disarm_pointed; assumption.
          -- rewrite fd_set_connected_to, Eb, Z.eqb_refl.
             unfold disarm at 2.
             rewrite (disarm_pointed c y Hr1 Hr2).
             rewrite Eb. destruct (Z.eqb_spec b c); [congruence|reflexivity].
        * destruct Hm as [[-> ->]|[-> ->]].
          -- destruct (Z.eqb_spec (fd y) c); [contradiction|].
             destruct (Z.eqb_spec (fd y) b); [contradiction|reflexivity].
          -- destruct (Z.eqb_spec (fd y) b); [contradiction|].
             destruct (Z.eqb_spec (fd y) c); [contradiction|reflexivity]. }
    assert (Hsnd : snd (disconnect_fds f (set_fdList (connect_spec c b (fdList w)) w)) = w).
    { rewrite disconnect_fds_world by exact Hnd1. simpl. rewrite Hback.
      destruct w. reflexivity. }
    assert (Hfst' : fst (disconnect_fds f (set_fdList (connect_spec c b (fdList w)) w))
                    = true).
    { unfold disconnect_fds.
      pose proof (disconnect_fds_list_fst f
                    (fdList (set_fdList (connect_spec c b (fdList w)) w))) as H.
      destruct (disconnect_fds_list f _) as [r l'] eqn:E. simpl in *. rewrite H.
      destruct Hf as [-> | ->].
      - rewrite Hfc1, Hlc. simpl.
        destruct (Z.eqb_spec b 0); [lia|]. destruct (Z.eqb_spec b (-1)); [lia|].
        rewrite Hfb1. reflexivity.
      - rewrite Hfb1, Hlb. simpl.
        destruct (Z.eqb_spec c 0); [lia|]. destruct (Z.eqb_spec c (-1)); [lia|].
        rewrite Hfc1. reflexivity. }
    destruct (disconnect_fds f _) as [r w']. simpl in *. subst. reflexivity.
Qed.

Lemma connect_disconnect_round_trip_witness :
  disconnect_fds 7 (snd (connect_fds 9 7 w_clients)) = (true, w_clients) /\
  disconnect_fds 9 (snd (connect_fds 9 7 w_clients)) = (true, w_clients).
Proof.
  assert (Hnd : unique_fds (fdList w_clients)) by (unfold unique_fds; vm_compute; nodup_Z).
  assert (Hpos : positive_fds (fdList w_clients)) by (vm_compute; repeat constructor).
  assert (H9 : routing_state (fdList w_clients) 9 = Some (-1, -1)) by (vm_compute; reflexivity).
  assert (H7 : routing_state (fdList w_clients) 7 = Some (-1, -1)) by (vm_compute; reflexivity).
  assert (Hne : 9 <> 7) by discriminate.
  split.
  - exact (proj2 (proj2 (proj2 (connect_disconnect_round_trip 9 7 7 w_clients
                                  Hnd Hpos Hne H9 H7 (or_intror eq_refl))))).
  - exact (proj2 (proj2 (proj2 (connect_disconnect_round_trip 9 7 9 w_clients
                                  Hnd Hpos Hne H9 H7 (or_introl eq_refl))))).
Defined.

(** * Broadcasts *)

Lemma fold_write_socket message fds : forall w,
  fold_left (fun w c => write_socket c message w) fds w =
  mkWorld (env w) (fdList w) (default_backend w)
          (sent w ++ map (fun c => (c, message)) fds) (unlinked w) (inputlog w).
Proof.
  induction fds as [|c fds IH]; intros w; simpl.
  - rewrite app_nil_r. destruct w. reflexivity.
  - rewrite IH. simpl. rewrite <- app_assoc. reflexivity.
Qed.

Lemma broadcast_fds_filter l :
  broadcast_fds l = map fd (filter (fun it => receives_broadcast it = true) l).
Proof.
  induction l as [|x l IH]; [reflexivity|]. simpl. unfold receives_broadcast at 1.
  destruct (fd_kind_eqb (kind x) CLIENT_STREAM) eqn:Ek; simpl.
  - destruct (connected_to x =? -1) eqn:Ec; simpl.
    + rewrite filter_cons_True
        by (unfold receives_broadcast; rewrite Ek, Ec; reflexivity).
      simpl. rewrite IH. reflexivity.
    + rewrite filter_cons_False
        by (unfold receives_broadcast; rewrite Ek, Ec; discriminate).
      exact IH.
  - rewrite filter_cons_False by (unfold receives_broadcast; rewrite Ek; discriminate).
    exact IH.
Qed.

(** X6: a decoded event is broadcast to the client connections that are
    not in command mode, each getting the message once, in the order of
    the registry; a client with a command in flight, control clients and
    backends get nothing, and the dispatcher state is otherwise
    unchanged. *)
Theorem broadcast_message_recipients (message : string) (f : Z) (w : World) :
  broadcast_message message f w =
  Returned true
    (mkWorld (env w) (fdList w) (default_backend w)
       (sent w ++ map (fun it => (fd it, message))
                      (filter (fun it => receives_broadcast it = true) (fdList w)))
       (unlinked w) (inputlog w)).
Proof.
  unfold broadcast_message. rewrite fold_write_socket. f_equal. f_equal.
  change (fold_right _ [] (fdList w)) with (broadcast_fds (fdList w)).
  rewrite broadcast_fds_filter, map_map. reflexivity.
Qed.

Lemma broadcast_message_fds_acc (written : Z -> Z) message fds : forall acc,
  fold_left (fun bad_fds f => if written f <? slen message then bad_fds ++ [f] else bad_fds)
            fds acc
  = acc ++ filter (fun f => written f < slen message) fds.
Proof.
  induction fds as [|f fds IH]; intros acc; simpl.
  - rewrite app_nil_r. reflexivity.
  - rewrite IH. destruct (Z.ltb_spec (written f) (slen message)) as [H|H].
    + rewrite filter_cons_True by exact H. rewrite <- app_assoc. reflexivity.
    + rewrite filter_cons_False by lia. reflexivity.
Qed.

Lemma filter_ext_in {A} (P Q : A -> Prop) `{!forall x, Decision (P x)}
    `{!forall x, Decision (Q x)} (l : list A) :
  (forall x, x ∈ l -> P x <-> Q x) -> filter P l = filter Q l.
Proof.
  induction l as [|x l IH]; intros Hext; [reflexivity|].
  rewrite !filter_cons.
  assert (Hx : P x <-> Q x) by (apply Hext; apply list_elem_of_here).
  rewrite IH by (intros y Hy; apply Hext; apply list_elem_of_further; exact Hy).
  destruct (decide (P x)), (decide (Q x)); tauto.
Qed.

Lemma unique_fds_filter (P : FdItem -> Prop) `{!forall x, Decision (P x)} l :
  unique_fds l -> unique_fds (filter P l).
Proof.
  unfold unique_fds. intros Hnd. eapply sublist_NoDup; [exact Hnd|].
  apply fmap_sublist. apply sublist_filter.
Qed.

Lemma remove_client_snd f l :
  unique_fds l -> snd (FdList.remove_client f l) = filter (fun x => fd x <> f) l.
Proof.
  intros Hnd. unfold FdList.remove_client.
  destruct (FdList.find_fd f l) as [i|] eqn:E; simpl.
  - apply delete_find_fd_filter; assumption.
  - symmetry. apply filter_fd_absent. apply find_fd_None_iff. exact E.
Qed.

Lemma filter_all {A} (P : A -> Prop) `{!forall x, Decision (P x)} (l : list A) :
  (forall x, x ∈ l -> P x) -> filter P l = l.
Proof.
  induction l as [|x l IH]; intros Hall; [reflexivity|].
  rewrite filter_cons_True by (apply Hall; apply list_elem_of_here).
  f_equal. apply IH. intros y Hy. apply Hall. apply list_elem_of_further. exact Hy.
Qed.

Lemma fold_remove_client bad : forall l,
  unique_fds l ->
  fold_left (fun l f => snd (FdList.remove_client f l)) bad l
  = filter (fun x => fd x ∉ bad) l.
Proof.
  induction bad as [|f bad IH]; intros l Hnd; simpl.
  - symmetry. apply filter_all. intros x _. apply not_elem_of_nil.
  - rewrite remove_client_snd by exact Hnd.
    rewrite IH by (apply unique_fds_filter; exact Hnd).
    rewrite list_filter_filter. apply filter_ext_in. intros x _.
    rewrite elem_of_cons. split.
    + intros [H1 H2] [H|H]; [exact (H2 H)|exact (H1 H)].
    + intros H. split; intros H'; apply H; [right|left]; exact H'.
Qed.

(** X7: when writes fall short, [broadcast_message] removes from the
    registry the client connections it could not write the whole message
    to, and only those: on a registry with unique descriptors what is
    left are the records that are not a client connection out of command
    mode for which [write_socket] returned less than the length of the
    message, in their order. *)
Theorem broadcast_message_drops_faulty (written : Z -> Z) (message : string)
    (l : list FdItem) :
  unique_fds l ->
  broadcast_message_faulty written message l =
  (true, filter (fun it => broadcast_drops written message it = false) l).
Proof.
  intros Hnd. unfold broadcast_message_faulty. f_equal.
  rewrite fold_remove_client by exact Hnd.
  apply filter_ext_in. intros x Hx.
  unfold broadcast_message_fds. rewrite broadcast_message_fds_acc. simpl.
  rewrite broadcast_fds_filter, list_elem_of_filter, list_elem_of_fmap.
  unfold broadcast_drops. split.
  - intros H. destruct (receives_broadcast x) eqn:Er; [|reflexivity]. simpl.
    apply Z.ltb_ge. destruct (Z.lt_ge_cases (written (fd x)) (slen message)) as [Hlt|Hge];
      [|lia].
    exfalso. apply H. split; [exact Hlt|]. exists x. split; [reflexivity|].
    apply list_elem_of_filter. split; [exact Er|exact Hx].
  - intros H [Hlt (y & Hfd & Hy)]. apply list_elem_of_filter in Hy as [Hr Hy].
    assert (y = x) by (apply (unique_fds_elem l); auto). subst y.
    rewrite Hr in H. simpl in H. apply Z.ltb_ge in H. lia.
Qed.

Lemma broadcast_message_drops_faulty_witness :
  map fd (snd (broadcast_message_faulty (fun f => if f =? 9 then 3 else 29) "0000000000000001 00 KEY_1 rem"
                 (fdList w_in_flight)))
  = [3; 4; 5; 8; 7; 9; 10; 11] /\
  map fd (snd (broadcast_message_faulty (fun f => if f =? 11 then -1 else 29) "0000000000000001 00 KEY_1 rem"
                 (fdList w_in_flight)))
  = [3; 4; 5; 8; 7; 9; 10].
Proof.
  assert (Hnd : unique_fds (fdList w_in_flight)) by (unfold unique_fds; vm_compute; nodup_Z).
  split.
  - rewrite (broadcast_message_drops_faulty _ _ _ Hnd). vm_compute. reflexivity.
  - rewrite (broadcast_message_drops_faulty _ _ _ Hnd). vm_compute. reflexivity.
Defined.

(** * SIGHUP *)

Lemma unique_fds_delete i l : unique_fds l -> unique_fds (delete i l).
Proof.
  unfold unique_fds. intros Hnd. eapply sublist_NoDup; [exact Hnd|].
  apply fmap_sublist. apply sublist_delete.
Qed.

Lemma dosighup_loop_spec (written : Z -> Z) fuel : forall it l hups,
  unique_fds l -> (it <= length l)%nat -> (length l - it < fuel)%nat ->
  dosighup_loop written fuel it l hups =
  Some (take it l ++ filter (fun x => sighup_drops written x = false) (drop it l),
        hups ++ map fd (filter (fun x => fd_kind_eqb (kind x) CLIENT_STREAM = true)
                               (drop it l))).
Proof.
  induction fuel as [|fuel IH]; intros it l hups Hnd Hit Hfuel; [lia|].
  simpl. destruct (l !! it) as [x|] eqn:Hx.
  - assert (Hlt : (it < length l)%nat) by (apply lookup_lt_is_Some; eauto).
    rewrite (drop_S l x it Hx).
    destruct (fd_kind_eqb (kind x) CLIENT_STREAM) eqn:Ek; simpl.
    + destruct (written (fd x) =? 0) eqn:Ew; simpl.
      * rewrite (find_fd_unique l it x Hnd Hx).
        unfold FdList.remove_client. rewrite (find_fd_unique l it x Hnd Hx). simpl.
        rewrite IH.
        -- rewrite delete_take_drop.
           rewrite take_app_length' by (rewrite length_take; lia).
           rewrite drop_app_length' by (rewrite length_take; lia).
           rewrite (filter_cons_False _ x)
             by (unfold sighup_drops; rewrite Ek, Ew; discriminate).
           rewrite (filter_cons_True _ x) by exact Ek.
           simpl. rewrite <- app_assoc. reflexivity.
        -- apply unique_fds_delete. exact Hnd.
        -- rewrite length_delete by eauto. lia.
        -- rewrite length_delete by eauto. lia.
      * rewrite IH by (try assumption; lia).
        rewrite (take_S_r l it x Hx).
        rewrite (filter_cons_True _ x)
          by (unfold sighup_drops; rewrite Ek, Ew; reflexivity).
        rewrite (filter_cons_True _ x) by exact Ek.
        simpl. rewrite <- !app_assoc. reflexivity.
    + rewrite IH by (try assumption; lia).
      rewrite (take_S_r l it x Hx).
      rewrite (filter_cons_True _ x) by (unfold sighup_drops; rewrite Ek; reflexivity).
      rewrite (filter_cons_False _ x) by (rewrite Ek; discriminate).
      rewrite <- app_assoc. reflexivity.
  - apply lookup_ge_None in Hx.
    rewrite take_ge by lia. rewrite drop_ge by lia. simpl.
    rewrite !app_nil_r. reflexivity.
Qed.

(** X8: on a registry with unique descriptors [dosighup] terminates,
    calls [send_sighup] once for every client connection and for no
    other record, in the order of the registry, and drops exactly the
    client connections for which that call returned 0; a client whose
    write failed with a negative value stays registered, as does every
    record that is not a client connection. *)
Theorem dosighup_drops_silent_clients (written : Z -> Z) (l : list FdItem) :
  unique_fds l ->
  dosighup written l =
  Some (filter (fun x => sighup_drops written x = false) l,
        map fd (filter (fun x => fd_kind_eqb (kind x) CLIENT_STREAM = true) l)).
Proof.
  intros Hnd. unfold dosighup.
  rewrite dosighup_loop_spec by (try assumption; lia). reflexivity.
Qed.

Lemma dosighup_drops_silent_clients_witness :
  option_map (fun r => (map fd (fst r), snd r))
    (dosighup (fun f => if f =? 9 then 0 else if f =? 11 then -1 else 17)
              (fdList w_clients))
  = Some ([3; 4; 5; 8; 7; 10; 11], [9; 11]).
Proof.
  assert (Hnd : unique_fds (fdList w_clients)) by (unfold unique_fds; vm_compute; nodup_Z).
  rewrite (dosighup_drops_silent_clients _ _ Hnd). vm_compute. reflexivity.
Defined.

(** * [write_socket] *)



Lemma length_append (a b : string) :
  String.length (a +:+ b) = (String.length a + String.length b)%nat.
Proof.
  induction a as [|c a IH]; [rewrite append_nil; reflexivity|].
  rewrite append_cons. simpl. rewrite IH. reflexivity.
Qed.





Example write_socket_in_pieces :
  write_socket_answers [2; 3; 1] "SIGHUP" 6 = Some (6, "SIGHUP"%string) /\
  write_socket_answers [2; -1; 4] "SIGHUP" 6 = Some (-1, "SI"%string) /\
  write_socket_answers [2; 3] "SIGHUP" 6 = None.
Proof. vm_compute. repeat split; reflexivity. Qed.

(** * Directives (lircd_commands.cpp, lircd.cpp) *)




Lemma in_set_NL_WS c : in_set c NL = true -> in_set c WS_TNR = true.
Proof.
  rewrite in_set_NL. intros H. simpl. rewrite H, !orb_true_r. reflexivity.
Qed.








Lemma handle_ctrl_cmd_dispatch line f w d saved h ci :
  strtok WS_TNR (strncpy PACKET_SIZE line) = (Some d, saved) ->
  lookup_directive d directives = Some h ->
  FdList.find_fd f (fdList w) = Some ci ->
  handle_ctrl_cmd line f w =
  match h f line (fst (strtok "" saved)) (upd_fdList (alter (set_expected d) ci) w) with
  | Returned _ w' => Returned true w'
  | Undefined w' => Undefined w'
  end.
Proof. intros Ht Hl Hf. unfold handle_ctrl_cmd. rewrite Ht, Hl, Hf. reflexivity. Qed.

Lemma fold_backends l : forall acc,
  fold_left (fun acc it =>
               if fd_kind_eqb (kind it) BACKEND_CMD then acc +:+ id it +:+ NL else acc)
            l acc
  = acc +:+ payload (map id (filter (fun it => fd_kind_eqb (kind it) BACKEND_CMD = true) l)).
Proof.
  induction l as [|x l IH]; intros acc; simpl.
  - rewrite append_empty_r. reflexivity.
  - rewrite IH. destruct (fd_kind_eqb (kind x) BACKEND_CMD) eqn:E.
    + rewrite filter_cons_True by exact E. cbn [map payload].
      rewrite !append_assoc. reflexivity.
    + rewrite filter_cons_False by (rewrite E; discriminate). reflexivity.
Qed.

Lemma backend_ids_alter (g : FdItem -> FdItem) i l :
  (forall x, kind (g x) = kind x) -> (forall x, id (g x) = id x) ->
  map id (filter (fun it => fd_kind_eqb (kind it) BACKEND_CMD = true) (alter g i l))
  = map id (filter (fun it => fd_kind_eqb (kind it) BACKEND_CMD = true) l).
Proof.
  intros Hk Hi. revert i. induction l as [|x l IH]; intros [|i]; try reflexivity.
  - change (alter g 0%nat (x :: l)) with (g x :: l).
    rewrite !filter_cons, Hk.
    destruct (decide (fd_kind_eqb (kind x) BACKEND_CMD = true)); [|reflexivity].
    cbn [map]. rewrite Hi. reflexivity.
  - change (alter g (S i) (x :: l)) with (x :: alter g i l).
    rewrite !filter_cons.
    destruct (decide (fd_kind_eqb (kind x) BACKEND_CMD = true)).
    + cbn [map]. f_equal. apply IH.
    + apply IH.
Qed.

(** X11: LIST_BACKENDS always answers SUCCESS, with one data line per
    command-socket record of the registry, in the order of the registry:
    the id of every backend, "undef" for one that has not yet answered
    GET_BACKEND_INFO.  Nothing but the [expected] field of the asking
    record changes. *)
Theorem list_backends_lists_command_sockets (f : Z) (w : World) (ci : nat) :
  FdList.find_fd f (fdList w) = Some ci ->
  handle_ctrl_cmd "LIST_BACKENDS" f w =
  Returned true
    (send_success_data f "LIST_BACKENDS"
       (payload (map id (filter (fun it => fd_kind_eqb (kind it) BACKEND_CMD = true)
                                (fdList w))))
       (upd_fdList (alter (set_expected "LIST_BACKENDS") ci) w)).
Proof.
  intros Hf.
  rewrite (handle_ctrl_cmd_dispatch "LIST_BACKENDS" f w "LIST_BACKENDS" "" list_backends_cmd ci);
    [|reflexivity|reflexivity|exact Hf].
  unfold list_backends_cmd. rewrite fold_backends, append_nil.
  cbn [fdList upd_fdList set_fdList]. rewrite backend_ids_alter by (intros []; reflexivity).
  reflexivity.
Qed.

Lemma list_backends_lists_command_sockets_witness :
  handle_ctrl_cmd "LIST_BACKENDS" 10 w_second_backend =
  Returned true
    (send_success_data 10 "LIST_BACKENDS" (payload ["acme@/dev/ir0"; "undef"])
       (upd_fdList (alter (set_expected "LIST_BACKENDS") 6%nat) w_second_backend)).
Proof.
  rewrite (list_backends_lists_command_sockets 10 w_second_backend 6%nat).
  - vm_compute. reflexivity.
  - vm_compute. reflexivity.
Defined.


Lemma find_alter cond (g : FdItem -> FdItem) i l :
  (forall x, cond (g x) = cond x) -> FdList.find cond (alter g i l) = FdList.find cond l.
Proof.
  intros H. revert i. induction l as [|x l IH]; intros [|i]; try reflexivity.
  - change (alter g 0%nat (x :: l)) with (g x :: l). simpl. rewrite H. reflexivity.
  - change (alter g (S i) (x :: l)) with (x :: alter g i l). simpl. rewrite IH.
    reflexivity.
Qed.





(** * Routed directives *)



Lemma none_in_NL_WS s : none_in WS_TNR s = true -> none_in NL s = true.
Proof. apply none_in_weaken. apply in_set_NL_WS. Qed.






Lemma setup_backend_cmd_rejects f args msg n w :
  n <> O ->
  length args <> n \/
  (exists a0, args !! O = Some a0 /\
              FdList.find (find_backend_by_id a0) (fdList w) = None) ->
  setup_backend_cmd f args msg n w = Undefined w.
Proof.
  intros Hn H. unfold setup_backend_cmd.
  destruct (Nat.eqb_spec n 0) as [|_]; [contradiction|]. cbn [andb negb].
  destruct (Nat.eqb_spec (length args) n) as [Hl|Hl]; [|reflexivity]. cbn [negb].
  destruct H as [H|(a0 & Ha & Hfind)]; [contradiction|].
  rewrite Ha, Hfind. reflexivity.
Qed.

Lemma counted_handler_undefined (h : handler) (n : nat) f msg args w :
  (n = 2%nat /\ (h = send_cmd \/ h = list_codes_cmd \/ h = simulate_cmd)) \/
  (n = 1%nat /\ (h = list_remotes_cmd \/ h = stop_backend_cmd)) ->
  (forall arguments, split_once_in w args = Some arguments ->
     setup_backend_cmd f arguments msg n w = Undefined w) ->
  h f msg args w = Undefined w.
Proof.
  intros [[-> [-> | [-> | ->]]] | [-> [-> | ->]]] H;
    [unfold send_cmd|unfold list_codes_cmd|unfold simulate_cmd|unfold list_remotes_cmd
     |unfold stop_backend_cmd]; unfold with_backend;
    destruct (split_once_in w (Some msg)); try reflexivity;
    destruct (split_once_in w args) as [arguments|]; try reflexivity;
    rewrite (H arguments eq_refl); reflexivity.
Qed.

(** X14: a directive that is routed to a backend and takes a fixed
    number of arguments (two for SEND_ONCE, SEND_START, SEND_STOP,
    LIST_CODES and SIMULATE, one for LIST_REMOTES and STOP_BACKEND) gets
    no defined reply when [split_once] finds another number of arguments
    in the control line, or a first argument that is the id of no record:
    [setup_backend_cmd] then calls [send_error] with the vector [args]
    (or the iterator [backend]) as the argument of a [%s] conversion.
    When that call is reached nothing has been written and no routing
    field has changed: the asking record's [expected] field alone is
    set. *)
Theorem routed_directive_rejected (line d saved : string) (h : handler) (n : nat)
    (f : Z) (w : World) (ci : nat) :
  strtok WS_TNR (strncpy PACKET_SIZE line) = (Some d, saved) ->
  lookup_directive d directives = Some h ->
  (n = 2%nat /\ (h = send_cmd \/ h = list_codes_cmd \/ h = simulate_cmd)) \/
  (n = 1%nat /\ (h = list_remotes_cmd \/ h = stop_backend_cmd)) ->
  FdList.find_fd f (fdList w) = Some ci ->
  (forall arguments, split_once_in w (fst (strtok "" saved)) = Some arguments ->
     length arguments <> n \/
     (exists a0, arguments !! O = Some a0 /\
                 FdList.find (find_backend_by_id a0) (fdList w) = None)) ->
  let w' := upd_fdList (alter (set_expected d) ci) w in
  handle_ctrl_cmd line f w = Undefined w' /\
  sent w' = sent w /\
  map fd (fdList w') = map fd (fdList w) /\
  map (fun x => (connected_to x, ticks x)) (fdList w')
  = map (fun x => (connected_to x, ticks x)) (fdList w) /\
  default_backend w' = default_backend w.
Proof.
  intros Htok Hlook Hh Hf Hargs w'.
  rewrite (handle_ctrl_cmd_dispatch line f w d saved h ci Htok Hlook Hf).
  assert (Hn : n <> O) by (destruct Hh as [[-> _]|[-> _]]; discriminate).
  split; [|split; [reflexivity|]].
  - rewrite (counted_handler_undefined h n f line _ w' Hh); [reflexivity|].
    intros arguments Hs. apply setup_backend_cmd_rejects; [exact Hn|].
    destruct (Hargs arguments Hs) as [Hl|(a0 & Ha & Hfind)]; [left; exact Hl|].
    right. exists a0. split; [exact Ha|].
    unfold w'. simpl. rewrite find_alter by (intros []; reflexivity). exact Hfind.
  - unfold w'. simpl.
    destruct (alter_keeps_routing (set_expected d) ci (fdList w)) as [H1 H2];
      try (intros []; reflexivity).
    split; [exact H1|split; [exact H2|reflexivity]].
Qed.

Lemma routed_directive_rejected_witness :
  handle_ctrl_cmd ("LIST_REMOTES acme@/dev/ir0 extra" +:+ NL) 10 w_clients =
    Undefined (upd_fdList (alter (set_expected "LIST_REMOTES") 6%nat) w_clients) /\
  handle_ctrl_cmd ("SEND_ONCE nowhere rem KEY_1" +:+ NL) 10 w_clients =
    Undefined (upd_fdList (alter (set_expected "SEND_ONCE") 6%nat) w_clients).
Proof.
  assert (Hf : FdList.find_fd 10 (fdList w_clients) = Some 6%nat) by (vm_compute; reflexivity).
  split.
  - apply (routed_directive_rejected ("LIST_REMOTES acme@/dev/ir0 extra" +:+ NL)
             "LIST_REMOTES" ("acme@/dev/ir0 extra" +:+ NL) list_remotes_cmd 1 10 w_clients 6
             eq_refl eq_refl (or_intror (conj eq_refl (or_introl eq_refl))) Hf).
    intros arguments Hs. vm_compute in Hs. injection Hs as <-. left. discriminate.
  - apply (routed_directive_rejected ("SEND_ONCE nowhere rem KEY_1" +:+ NL)
             "SEND_ONCE" ("nowhere rem KEY_1" +:+ NL) send_cmd 2 10 w_clients 6
             eq_refl eq_refl (or_introl (conj eq_refl (or_introl eq_refl))) Hf).
    intros arguments Hs. vm_compute in Hs. injection Hs as <-. right.
    exists "nowhere". split; reflexivity.
Defined.

(** * The dispatcher (lircd.cpp) *)



Lemma dec_inj a b : dec a = dec b -> a = b.
Proof.
  unfold dec. intros H. apply DecimalZ.to_int_inj.
  assert (E : Some (Z.to_int a) = Some (Z.to_int b)).
  { rewrite <- !NilEmpty.isi. rewrite H. reflexivity. }
  injection E as E. exact E.
Qed.



Lemma add_backend_world (cmd_fd data_fd : Z) (w : World) :
  cmd_fd <> data_fd ->
  FdList.find_fd cmd_fd (fdList w) = None -> FdList.find_fd data_fd (fdList w) = None ->
  add_backend cmd_fd data_fd w =
  Returned tt
    (mkWorld (env w)
       (fdList w ++
          [mkFdItem BACKEND_DATA data_fd (-1) cmd_fd (-1) "undef" ReplyParser.new "NONE" (-1);
           mkFdItem BACKEND_CMD cmd_fd 0 data_fd (-1) "undef" ReplyParser.new "NONE" (-1)])
       (default_backend w) (sent w ++ [(cmd_fd, "GET_BACKEND_INFO" +:+ NL)])
       (unlinked w) (inputlog w)).
Proof.
  intros Hne Hc Hd.
  set (di := mkFdItem BACKEND_DATA data_fd (-1) cmd_fd (-1) "undef" ReplyParser.new
                      "NONE" (-1)).
  set (cmi := mkFdItem BACKEND_CMD cmd_fd (-1) data_fd (-1) "undef" ReplyParser.new
                       "NONE" (-1)).
  assert (Hadd : FdList.add_backend cmd_fd data_fd (fdList w) = fdList w ++ [di; cmi]).
  { unfold FdList.add_backend. rewrite <- app_assoc. reflexivity. }
  assert (Hfd_any : forall (a b : FdItem) f l,
             FdList.find_fd f l = None -> fd a = f ->
             FdList.find_fd f (l ++ [a; b]) = Some (length l)).
  { intros a b f l Hn Ha. rewrite find_fd_app, Hn.
    unfold FdList.find_fd, FdList.item_fd_equals. simpl. rewrite Ha, Z.eqb_refl. simpl.
    rewrite Nat.add_0_r. reflexivity. }
  assert (Hfc_any : forall (a b : FdItem) l,
             FdList.find_fd cmd_fd l = None -> fd a = data_fd -> fd b = cmd_fd ->
             FdList.find_fd cmd_fd (l ++ [a; b]) = Some (S (length l))).
  { intros a b l Hn Ha Hb. rewrite find_fd_app, Hn.
    unfold FdList.find_fd, FdList.item_fd_equals. simpl. rewrite Ha, Hb.
    destruct (Z.eqb_spec data_fd cmd_fd); [congruence|]. rewrite Z.eqb_refl. simpl.
    rewrite Nat.add_1_r. reflexivity. }
  set (w1 := upd_fdList (FdList.add_backend cmd_fd data_fd) w).
  assert (Hl1 : fdList w1 = fdList w ++ [di; cmi]) by exact Hadd.
  assert (Hfd1 : FdList.find_fd data_fd (fdList w1) = Some (length (fdList w)))
    by (rewrite Hl1; apply Hfd_any; [exact Hd|reflexivity]).
  assert (Hfc1 : FdList.find_fd cmd_fd (fdList w1) = Some (S (length (fdList w))))
    by (rewrite Hl1; apply Hfc_any; [exact Hc|reflexivity|reflexivity]).
  assert (Hid : forall g : list FdItem -> list FdItem,
             g (fdList w1) = fdList w1 -> upd_fdList g w1 = w1).
  { intros g Hg. unfold upd_fdList. rewrite Hg. apply set_fdList_same. }
  assert (Hp1 : upd_fdList (alter (set_peer cmd_fd) (length (fdList w))) w1 = w1).
  { apply Hid. rewrite Hl1.
    rewrite <- (Nat.add_0_r (length (fdList w))) at 1. rewrite alter_app_r. reflexivity. }
  assert (Hp2 : upd_fdList (alter (set_peer data_fd) (S (length (fdList w)))) w1 = w1).
  { apply Hid. rewrite Hl1.
    rewrite <- (Nat.add_1_r (length (fdList w))), alter_app_r. reflexivity. }
  assert (Hpeers : connect_peers cmd_fd data_fd w1 = w1).
  { unfold connect_peers. rewrite Hfd1, Hp1.
    destruct (cmd_fd =? 0); [reflexivity|]. rewrite Hfc1. exact Hp2. }
  unfold add_backend. fold w1. rewrite Hpeers, Hfc1.
  unfold write_socket, upd_fdList, set_fdList. rewrite Hl1. simpl.
  rewrite <- (Nat.add_1_r (length (fdList w))), alter_app_r. reflexivity.
Qed.

(** X16: a backend that connects is entered as a pair of records at the
    end of the registry, the fifo record before the command record, each
    naming the other as its peer; the command record is marked as
    talking to the dispatcher itself ([connected_to] 0) and the backend is
    sent GET_BACKEND_INFO.  The default backend is not touched: the new
    backend is not yet in use. *)
Theorem add_backend_starts_handshake (cmd_fd data_fd : Z) (w : World) :
  cmd_fd <> data_fd ->
  FdList.find_fd cmd_fd (fdList w) = None -> FdList.find_fd data_fd (fdList w) = None ->
  add_backend cmd_fd data_fd w =
  Returned tt
    (mkWorld (env w)
       (fdList w ++
          [mkFdItem BACKEND_DATA data_fd (-1) cmd_fd (-1) "undef" ReplyParser.new "NONE" (-1);
           mkFdItem BACKEND_CMD cmd_fd 0 data_fd (-1) "undef" ReplyParser.new "NONE" (-1)])
       (default_backend w) (sent w ++ [(cmd_fd, "GET_BACKEND_INFO" +:+ NL)])
       (unlinked w) (inputlog w)).
Proof. apply add_backend_world. Qed.

Lemma add_backend_starts_handshake_witness :
  add_backend 7 8 w_boot =
  Returned tt
    (mkWorld (env w_boot)
       (fdList w_boot ++
          [mkFdItem BACKEND_DATA 8 (-1) 7 (-1) "undef" ReplyParser.new "NONE" (-1);
           mkFdItem BACKEND_CMD 7 0 8 (-1) "undef" ReplyParser.new "NONE" (-1)])
       (default_backend w_boot) (sent w_boot ++ [(7, "GET_BACKEND_INFO" +:+ NL)])
       (unlinked w_boot) (inputlog w_boot)).
Proof.
  apply (add_backend_starts_handshake 7 8 w_boot); [discriminate|reflexivity|reflexivity].
Defined.

Lemma fd_kind_eqb_eq a b : fd_kind_eqb a b = true <-> a = b.
Proof. destruct a, b; simpl; split; intros H; try reflexivity; discriminate. Qed.

Lemma find_new_default_backend_spec w :
  fdList (find_new_default_backend w) = fdList w /\
  sent (find_new_default_backend w) = sent w /\
  ((default_backend (find_new_default_backend w) = -1 /\
    forall x, x ∈ fdList w -> kind x <> BACKEND_CMD) \/
   (exists i x, fdList w !! i = Some x /\ kind x = BACKEND_CMD /\
      default_backend (find_new_default_backend w) = fd x /\
      forall j y, (j < i)%nat -> fdList w !! j = Some y -> kind y <> BACKEND_CMD)).
Proof.
  unfold find_new_default_backend.
  destruct (FdList.find find_backend_by_type (fdList w)) as [i|] eqn:E.
  - split; [reflexivity|]. split; [reflexivity|]. right.
    destruct (find_Some _ _ _ E) as (x & Hx & Hk & Hbefore).
    exists i, x. split; [exact Hx|]. split; [apply fd_kind_eqb_eq; exact Hk|]. split.
    + simpl. unfold fd_at. rewrite Hx. reflexivity.
    + intros j y Hj Hy Hky. apply fd_kind_eqb_eq in Hky.
      pose proof (Hbefore j y Hj Hy) as Hc. unfold find_backend_by_type in Hc.
      rewrite Hky in Hc. discriminate.
  - split; [reflexivity|]. split; [reflexivity|]. left. split; [reflexivity|].
    intros x Hx Hk. apply fd_kind_eqb_eq in Hk.
    pose proof (find_None _ _ E x Hx) as Hc. unfold find_backend_by_type in Hc.
    rewrite Hk in Hc. discriminate.
Qed.

(** X17: a line from a backend to which no one is connected (its
    [connected_to] is -1, as after a reply has ended or timed out) is not
    forwarded and not parsed: the read is discarded, the command record
    of the backend is removed from the registry, and the default backend
    becomes the first command-socket record that is left, or -1 when
    there is none. *)
Theorem unsolicited_backend_line (item : FdItem) (line : string) (lines : list string)
    (w : World) (bi : nat) (xb : FdItem) :
  unique_fds (fdList w) -> kind item = BACKEND_CMD ->
  FdList.find_fd (fd item) (fdList w) = Some bi -> fdList w !! bi = Some xb ->
  connected_to xb < 0 ->
  exists w',
    process_item_input item (Lines (line :: lines)) w = Returned tt w' /\
    sent w' = sent w /\
    fdList w' = filter (fun x => fd x <> fd item) (fdList w) /\
    ((default_backend w' = -1 /\ forall x, x ∈ fdList w' -> kind x <> BACKEND_CMD) \/
     (exists i x, fdList w' !! i = Some x /\ kind x = BACKEND_CMD /\
        default_backend w' = fd x /\
        forall j y, (j < i)%nat -> fdList w' !! j = Some y -> kind y <> BACKEND_CMD)).
Proof.
  intros Hnd Hk Hf Hxb Hc.
  assert (Hline : handle_backend_line line (fd item) w = Returned false w).
  { unfold handle_backend_line. rewrite Hf, Hxb.
    destruct (Z.ltb_spec (connected_to xb) 0); [reflexivity|lia]. }
  assert (Hrun : process_item_input item (Lines (line :: lines)) w =
                 Returned tt (find_new_default_backend (remove_and_log (fd item) w))).
  { unfold process_item_input. rewrite Hk. cbn [read_lines get_line handle_lines].
    rewrite Hline. reflexivity. }
  exists (find_new_default_backend (remove_and_log (fd item) w)).
  split; [exact Hrun|].
  destruct (find_new_default_backend_spec (remove_and_log (fd item) w)) as (Hl & Hs & Hd).
  assert (Hrem : fdList (remove_and_log (fd item) w)
                 = filter (fun x => fd x <> fd item) (fdList w)).
  { unfold remove_and_log. simpl. apply remove_client_snd. exact Hnd. }
  split; [rewrite Hs; reflexivity|]. split; [rewrite Hl; exact Hrem|].
  rewrite Hl. exact Hd.
Qed.

Lemma unsolicited_backend_line_witness :
  exists w',
    process_item_input (new_item 7 BACKEND_CMD (-1)) (Lines ["END"%string]) w_clients
      = Returned tt w' /\
    sent w' = sent w_clients /\
    map fd (fdList w') = [3; 4; 5; 8; 9; 10; 11] /\
    default_backend w' = -1.
Proof.
  destruct (fdList w_clients !! 4%nat) as [xb|] eqn:Hxb;
    [|vm_compute in Hxb; discriminate Hxb].
  assert (Hc : connected_to xb < 0)
    by (vm_compute in Hxb; injection Hxb as <-; reflexivity).
  assert (Hnd : unique_fds (fdList w_clients)) by (unfold unique_fds; vm_compute; nodup_Z).
  assert (Hf : FdList.find_fd 7 (fdList w_clients) = Some 4%nat) by (vm_compute; reflexivity).
  destruct (unsolicited_backend_line (new_item 7 BACKEND_CMD (-1)) "END" [] w_clients 4 xb
              Hnd eq_refl Hf Hxb Hc) as (w' & H1 & H2 & H3 & H4).
  exists w'. split; [exact H1|]. split; [exact H2|].
  assert (H5 : map fd (fdList w') = [3; 4; 5; 8; 9; 10; 11])
    by (rewrite H3; vm_compute; reflexivity).
  split; [exact H5|].
  destruct H4 as [[H4 _]|(i & x & Hx & Hkx & _)]; [exact H4|].
  exfalso. rewrite H3 in Hx.
  assert (Hkinds : Forall (fun y => kind y <> BACKEND_CMD)
                     (filter (fun x => fd x <> fd (new_item 7 BACKEND_CMD (-1)))
                             (fdList w_clients)))
    by (vm_compute; repeat constructor; discriminate).
  rewrite Forall_forall in Hkinds. apply (Hkinds x); [|exact Hkx].
  eapply list_elem_of_lookup_2. exact Hx.
Defined.

(** X18: a handshake reply that does not succeed.  When the reply of a
    backend that talks to the dispatcher itself completes with a result
    other than OK, or as OK for a command other than GET_BACKEND_INFO
    and SET_DATA_SOCKET, or as OK for GET_BACKEND_INFO with a payload in
    which the four fields cannot be read and no field read so far fills
    the array it is stored in (fewer than 32 characters for the type and
    the driver, fewer than 64 for the device), the dispatcher only resets
    the parser of the record: nothing is sent, the backend keeps the id
    it had, stays marked as talking to the dispatcher, and the default
    backend is unchanged. *)
Theorem failed_handshake_reply (w : World) (f : Z) (bi : nat) (x : FdItem)
    (line : string) :
  FdList.find_fd f (fdList w) = Some bi -> fdList w !! bi = Some x ->
  connected_to x = 0 ->
  ReplyParser.is_completed (ReplyParser.feed line (replyParser x)) = true ->
  ReplyParser.get_result (ReplyParser.feed line (replyParser x)) <> ReplyParser.OK \/
  (ReplyParser.get_command (ReplyParser.feed line (replyParser x)) <> "GET_BACKEND_INFO" /\
   ReplyParser.get_command (ReplyParser.feed line (replyParser x)) <> "SET_DATA_SOCKET") \/
  (ReplyParser.get_command (ReplyParser.feed line (replyParser x)) = "GET_BACKEND_INFO" /\
   scan_backend_info_overruns
     (ReplyParser.get_data (ReplyParser.feed line (replyParser x))) = false /\
   scan_backend_info (ReplyParser.get_data (ReplyParser.feed line (replyParser x))) = None) ->
  handle_backend_line line f w =
  Returned true
    (upd_fdList
       (alter (set_replyParser (ReplyParser.reset (ReplyParser.feed line (replyParser x))))
              bi) w).
Proof.
  intros Hf Hx Hc Hdone Hfail.
  set (p := ReplyParser.feed line (replyParser x)) in *.
  unfold handle_backend_line. rewrite Hf, Hx, Hc. simpl.
  unfold handle_local_reply. rewrite Hf, Hx. fold p. rewrite Hdone.
  set (w1 := upd_fdList (alter (set_replyParser p) bi) w).
  assert (Hfinal : upd_fdList (alter (fun y => set_replyParser
                                                 (ReplyParser.reset (replyParser y)) y) bi) w1
                   = upd_fdList (alter (set_replyParser (ReplyParser.reset p)) bi) w).
  { unfold w1, upd_fdList, set_fdList. simpl. f_equal.
    rewrite list_alter_alter_eq. apply list_alter_ext; [|reflexivity].
    intros y _. destruct y. reflexivity. }
  assert (Hinner : match ReplyParser.get_result p with
                   | ReplyParser.OK =>
                       if String.eqb (ReplyParser.get_command p) "GET_BACKEND_INFO"
                       then handle_get_backend_info_reply f w1
                       else if String.eqb (ReplyParser.get_command p) "SET_DATA_SOCKET"
                            then handle_data_socket_reply f w1
                            else Returned tt w1
                   | _ => Returned tt w1
                   end = Returned tt w1).
  { destruct (ReplyParser.get_result p) eqn:Er; try reflexivity.
    destruct Hfail as [Hr | [[Hn1 Hn2] | (Hcmd & Hover & Hscan)]].
    - contradiction.
    - apply String.eqb_neq in Hn1, Hn2. rewrite Hn1, Hn2. reflexivity.
    - rewrite Hcmd. simpl. unfold handle_get_backend_info_reply.
      assert (Hf1 : FdList.find_fd f (fdList w1) = Some bi).
      { unfold w1. simpl. rewrite find_fd_alter by (intros []; reflexivity). exact Hf. }
      rewrite Hf1. unfold w1. simpl. rewrite list_lookup_alter_eq, Hx. simpl.
      rewrite Hover, Hscan. reflexivity. }
  rewrite Hinner, Hfinal. reflexivity.
Qed.


Lemma failed_handshake_reply_witness :
  handle_backend_line "END" 7
    (world_of (handle_lines handle_backend_line
                 ["BEGIN"; "GET_BACKEND_INFO"; "SUCCESS"; "DATA"; "1"; "std acme /dev/ir0"]
                 7 w_backend)) =
  Returned true
    (upd_fdList
       (alter (set_replyParser
                 (ReplyParser.reset
                    (ReplyParser.feed "END"
                       (ReplyParser.feed_all
                          ["BEGIN"; "GET_BACKEND_INFO"; "SUCCESS"; "DATA"; "1";
                           "std acme /dev/ir0"] ReplyParser.new)))) 4%nat)
       (world_of (handle_lines handle_backend_line
                    ["BEGIN"; "GET_BACKEND_INFO"; "SUCCESS"; "DATA"; "1"; "std acme /dev/ir0"]
                    7 w_backend))).
Proof.
  set (w := world_of (handle_lines handle_backend_line
                 ["BEGIN"; "GET_BACKEND_INFO"; "SUCCESS"; "DATA"; "1"; "std acme /dev/ir0"]
                 7 w_backend)).
  set (p := ReplyParser.feed_all
              ["BEGIN"; "GET_BACKEND_INFO"; "SUCCESS"; "DATA"; "1"; "std acme /dev/ir0"]
              ReplyParser.new).
  destruct (fdList w !! 4%nat) as [x|] eqn:Hx; [|vm_compute in Hx; discriminate Hx].
  assert (Hp : replyParser x = p)
    by (vm_compute in Hx; injection Hx as <-; vm_compute; reflexivity).
  assert (Hc : connected_to x = 0) by (vm_compute in Hx; injection Hx as <-; reflexivity).
  assert (Hf : FdList.find_fd 7 (fdList w) = Some 4%nat) by (vm_compute; reflexivity).
  assert (Hdone : ReplyParser.is_completed (ReplyParser.feed "END" (replyParser x)) = true)
    by (rewrite Hp; vm_compute; reflexivity).
  assert (Hcmd : ReplyParser.get_command (ReplyParser.feed "END" (replyParser x))
                 = "GET_BACKEND_INFO"%string) by (rewrite Hp; vm_compute; reflexivity).
  assert (Hscan : scan_backend_info (ReplyParser.get_data
                                       (ReplyParser.feed "END" (replyParser x))) = None)
    by (rewrite Hp; vm_compute; reflexivity).
  assert (Hover : scan_backend_info_overruns
                    (ReplyParser.get_data (ReplyParser.feed "END" (replyParser x))) = false)
    by (rewrite Hp; vm_compute; reflexivity).
  pose proof (failed_handshake_reply w 7 4 x "END" Hf Hx Hc Hdone
                (or_intror (or_intror (conj Hcmd (conj Hover Hscan))))) as H.
  rewrite Hp in H. exact H.
Defined.

Lemma append_inv_head (a b c : string) : a +:+ b = a +:+ c -> b = c.
Proof.
  induction a as [|x a IH]; [rewrite !append_nil; auto|].
  rewrite !append_cons. intros H. injection H as H. exact (IH H).
Qed.

(** X19: backends with different command sockets get different fifo
    paths, as long as the path fits the 128 bytes of the buffer it is
    formatted in: the path is the client socket path, "-data-" and the
    descriptor in decimal. *)
Theorem backend_data_path_unique (f g : Z) (w : World) :
  (String.length (client_socket_path (env w) +:+ "-data-" +:+ dec f) <= 127)%nat ->
  (String.length (client_socket_path (env w) +:+ "-data-" +:+ dec g) <= 127)%nat ->
  get_backend_data_path f w = client_socket_path (env w) +:+ "-data-" +:+ dec f /\
  (get_backend_data_path f w = get_backend_data_path g w -> f = g).
Proof.
  intros Hf Hg. unfold get_backend_data_path.
  rewrite !strncpy_short by assumption. split; [reflexivity|].
  intros H. apply append_inv_head in H. apply append_inv_head in H.
  apply dec_inj. exact H.
Qed.

Lemma backend_data_path_unique_witness :
  get_backend_data_path 7 w_boot = "/var/run/lirc/lircd-data-7"%string /\
  (get_backend_data_path 7 w_boot = get_backend_data_path 12 w_boot -> 7 = 12).
Proof.
  destruct (backend_data_path_unique 7 12 w_boot) as [H1 H2].
  - vm_compute. lia.
  - vm_compute. lia.
  - split; [rewrite H1; vm_compute; reflexivity|exact H2].
Defined.

Lemma remove_and_log_absent f w :
  FdList.find_fd f (fdList w) = None -> remove_and_log f w = w.
Proof.
  intros H. unfold remove_and_log, upd_fdList, FdList.remove_client. rewrite H. simpl.
  apply set_fdList_same.
Qed.

Lemma find_fd_after_remove f w :
  unique_fds (fdList w) -> FdList.find_fd f (fdList (remove_and_log f w)) = None.
Proof.
  intros Hnd. unfold remove_and_log. simpl. rewrite remove_client_snd by exact Hnd.
  apply find_fd_None_iff. intros Hin. apply list_elem_of_fmap in Hin as (x & Hfx & Hx).
  apply list_elem_of_filter in Hx as [Hne _]. congruence.
Qed.

Lemma handle_lines_client_unregistered lines f w :
  FdList.find_fd f (fdList w) = None ->
  world_of (handle_lines handle_client_line lines f w) = w /\
  (exists r, handle_lines handle_client_line lines f w = Returned r w).
Proof.
  intros Hf. destruct lines as [|line lines]; simpl.
  - split; [reflexivity|]. exists true. reflexivity.
  - unfold handle_client_line.
    destruct (strtok WS_TNR (strncpy PACKET_SIZE line)) as [[tok|] saved].
    + rewrite Hf. split; [reflexivity|]. exists false. reflexivity.
    + split; [reflexivity|]. exists false. reflexivity.
Qed.

(** X20: input of a client whose descriptor poll reports in error is not
    executed.  When POLLERR or POLLNVAL is set for a client connection,
    its record is removed before its input is looked at, and the lines
    that were read in the same round are discarded: nothing is forwarded
    to a backend, no reply is written, and the registry is the one
    without the record. *)
Theorem poll_error_discards_input (item : FdItem) (ev : revents) (lines : list string)
    (w : World) :
  unique_fds (fdList w) -> kind item = CLIENT_STREAM ->
  POLLERR ev = true \/ POLLNVAL ev = true ->
  main_loop_item item ev (Lines lines) w =
  Returned tt (set_fdList (filter (fun x => fd x <> fd item) (fdList w)) w).
Proof.
  intros Hnd Hk Hev.
  set (w1 := remove_and_log (fd item) w).
  assert (Hw1 : w1 = set_fdList (filter (fun x => fd x <> fd item) (fdList w)) w).
  { unfold w1, remove_and_log, upd_fdList. rewrite remove_client_snd by exact Hnd.
    reflexivity. }
  assert (Hf1 : FdList.find_fd (fd item) (fdList w1) = None)
    by (apply find_fd_after_remove; exact Hnd).
  assert (Hagain : remove_and_log (fd item) w1 = w1)
    by (apply remove_and_log_absent; exact Hf1).
  assert (Hfirst : (if POLLNVAL ev then remove_and_log (fd item)
                      (if POLLERR ev then remove_and_log (fd item) w else w)
                    else (if POLLERR ev then remove_and_log (fd item) w else w)) = w1).
  { destruct (POLLERR ev), (POLLNVAL ev); fold w1; try reflexivity.
    - exact Hagain.
    - destruct Hev; discriminate. }
  unfold main_loop_item. rewrite Hfirst. rewrite <- Hw1.
  destruct (POLLIN ev).
  - unfold process_item_input. rewrite Hk. cbn [read_lines get_line].
    destruct (handle_lines_client_unregistered lines (fd item) w1 Hf1) as [_ [r ->]].
    destruct r.
    + destruct (POLLHUP ev); [rewrite Hagain|]; reflexivity.
    + rewrite Hagain. destruct (POLLHUP ev); [rewrite Hagain|]; reflexivity.
  - destruct (POLLHUP ev); [rewrite Hagain|]; reflexivity.
Qed.

Lemma poll_error_discards_input_witness :
  main_loop_item (new_item 9 CLIENT_STREAM (-1)) (mkRevents true false true false)
                 (Lines ["SEND_ONCE rem KEY_1"%string]) w_clients =
  Returned tt (set_fdList (filter (fun x => fd x <> fd (new_item 9 CLIENT_STREAM (-1)))
                                  (fdList w_clients)) w_clients).
Proof.
  apply poll_error_discards_input.
  - unfold unique_fds. vm_compute. nodup_Z.
  - reflexivity.
  - left. reflexivity.
Defined.

(** * The reply parser (reply_parser.cpp) *)

Lemma feed_completed l p :
  ReplyParser.is_completed p = true ->
  ReplyParser.feed l p =
  ReplyParser.mk (ReplyParser.state p) (ReplyParser.command p) (ReplyParser.lines p)
                 (ReplyParser.trim_input l) (ReplyParser.line_count p)
                 (ReplyParser.success p).
Proof.
  destruct p as [st c ls ll lc s]. unfold ReplyParser.is_completed, ReplyParser.feed.
  cbn [ReplyParser.state ReplyParser.command ReplyParser.lines ReplyParser.last_line
       ReplyParser.line_count ReplyParser.success].
  destruct st; intros H; try discriminate H; reflexivity.
Qed.

Lemma feed_all_completed ls : forall p,
  ReplyParser.is_completed p = true ->
  ReplyParser.state (ReplyParser.feed_all ls p) = ReplyParser.state p /\
  ReplyParser.command (ReplyParser.feed_all ls p) = ReplyParser.command p /\
  ReplyParser.lines (ReplyParser.feed_all ls p) = ReplyParser.lines p /\
  ReplyParser.success (ReplyParser.feed_all ls p) = ReplyParser.success p.
Proof.
  induction ls as [|l ls IH]; intros p Hp; [repeat split; reflexivity|].
  unfold ReplyParser.feed_all. cbn [fold_left]. fold (ReplyParser.feed_all ls).
  rewrite (feed_completed l p Hp).
  destruct (IH (ReplyParser.mk (ReplyParser.state p) (ReplyParser.command p)
                  (ReplyParser.lines p) (ReplyParser.trim_input l)
                  (ReplyParser.line_count p) (ReplyParser.success p)) Hp)
    as (H1 & H2 & H3 & H4).
  repeat split; assumption.
Qed.

(** X21: a parser that has completed a reply ([DONE], [NO_DATA] or
    [BAD_DATA]) ignores whatever is fed to it until it is reset: state,
    command, data, success flag and result stay as they are. *)
Theorem completed_parser_ignores_input (ls : list string) (p : ReplyParser.t) :
  ReplyParser.is_completed p = true ->
  ReplyParser.is_completed (ReplyParser.feed_all ls p) = true /\
  ReplyParser.get_result (ReplyParser.feed_all ls p) = ReplyParser.get_result p /\
  ReplyParser.get_command (ReplyParser.feed_all ls p) = ReplyParser.get_command p /\
  ReplyParser.get_data (ReplyParser.feed_all ls p) = ReplyParser.get_data p /\
  ReplyParser.get_success (ReplyParser.feed_all ls p) = ReplyParser.get_success p.
Proof.
  intros Hp. destruct (feed_all_completed ls p Hp) as (H1 & H2 & H3 & H4).
  unfold ReplyParser.is_completed, ReplyParser.get_result, ReplyParser.get_command,
    ReplyParser.get_data, ReplyParser.get_success in *.
  rewrite H1, H2, H3, H4. repeat split; try reflexivity. exact Hp.
Qed.

Lemma completed_parser_ignores_input_witness :
  ReplyParser.get_result
    (ReplyParser.feed_all ["BEGIN"; "VERSION"; "SUCCESS"; "END"]
       (ReplyParser.feed_all ["BEGIN"; "LIST"; "ERROR"; "END"] ReplyParser.new))
  = ReplyParser.FAIL.
Proof.
  rewrite (proj1 (proj2 (completed_parser_ignores_input
                           ["BEGIN"; "VERSION"; "SUCCESS"; "END"]
                           (ReplyParser.feed_all ["BEGIN"; "LIST"; "ERROR"; "END"]
                                                 ReplyParser.new) eq_refl))).
  reflexivity.
Defined.

Lemma feed_head_from (p0 : ReplyParser.t) (m : string) (flag : bool) (n : nat) :
  ReplyParser.state p0 = ReplyParser.BEGIN ->
  clean_line m = true -> (1 <= n <= 99)%nat ->
  let p := ReplyParser.feed_all
             ["BEGIN"; m; if flag then "SUCCESS" else "ERROR"; "DATA"; dec (Z.of_nat n)]
             p0 in
  ReplyParser.state p = ReplyParser.LINES /\ ReplyParser.command p = m /\
  ReplyParser.lines p = ReplyParser.lines p0 /\ ReplyParser.line_count p = Z.of_nat n /\
  ReplyParser.success p = flag.
Proof.
  intros S0 Hm Hn. unfold ReplyParser.feed_all. cbn [fold_left].
  destruct (step_begin p0 S0) as (S1 & L1).
  set (p1 := ReplyParser.feed "BEGIN" p0) in *.
  destruct (step_command m p1 Hm S1) as (S2 & C2 & L2).
  set (p2 := ReplyParser.feed m p1) in *.
  destruct (step_result flag p2 S2) as (S3 & C3 & L3 & B3).
  set (p3 := ReplyParser.feed _ p2) in *.
  destruct (step_data p3 S3) as (S4 & C4 & L4 & B4).
  set (p4 := ReplyParser.feed "DATA" p3) in *.
  destruct (step_count n p4 Hn S4) as (S5 & C5 & L5 & B5 & N5).
  set (p5 := ReplyParser.feed _ p4) in *.
  split; [exact S5|]. split; [congruence|]. split; [|split; [exact N5|congruence]].
  rewrite L5, L4, L3, L2, L1. reflexivity.
Qed.

Lemma feed_reply_from (p0 : ReplyParser.t) (m : string) (flag : bool) (ls : list string) :
  ReplyParser.state p0 = ReplyParser.BEGIN ->
  clean_line m = true -> Forall (fun l => clean_line l = true) ls ->
  (1 <= length ls <= 99)%nat ->
  parsed_as (ReplyParser.feed_all (reply_lines m flag ls) p0) m
            (ReplyParser.lines p0 +:+ payload ls) flag.
Proof.
  intros S0 Hm Hls Hn. unfold reply_lines. rewrite !feed_all_app.
  destruct (feed_head_from p0 m flag (length ls) S0 Hm Hn) as (S5 & C5 & L5 & N5 & B5).
  set (p5 := ReplyParser.feed_all _ p0) in *.
  assert (Hne : ls <> []) by (destruct ls; [simpl in Hn; lia|discriminate]).
  destruct (feed_lines ls p5 Hls Hne S5 N5) as (S6 & C6 & L6 & B6).
  set (p6 := ReplyParser.feed_all ls p5) in *.
  destruct (step_end p6 (or_introl S6)) as (S7 & C7 & L7 & B7).
  unfold parsed_as, ReplyParser.get_command, ReplyParser.get_data, ReplyParser.get_success.
  change (ReplyParser.feed_all ["END"%string] p6) with (ReplyParser.feed "END" p6).
  rewrite S7, C7, L7, B7, C6, L6, B6, C5, L5, B5. repeat split; reflexivity.
Qed.

(** X22: [reset] clears the state, the command and the success flag of
    the parser but not the data it has collected.  A parser that is
    reset and fed a second reply completes it as [DONE] with the new
    command and flag, and its data is the payload of the first reply
    followed by the payload of the second. *)
Theorem reset_keeps_data (m1 m2 : string) (flag1 flag2 : bool) (ls1 ls2 : list string) :
  clean_line m1 = true -> clean_line m2 = true ->
  Forall (fun l => clean_line l = true) ls1 -> Forall (fun l => clean_line l = true) ls2 ->
  (1 <= length ls1 <= 99)%nat -> (1 <= length ls2 <= 99)%nat ->
  let p1 := ReplyParser.feed_all (reply_lines m1 flag1 ls1) ReplyParser.new in
  let p2 := ReplyParser.feed_all (reply_lines m2 flag2 ls2) (ReplyParser.reset p1) in
  parsed_as p1 m1 (payload ls1) flag1 /\
  ReplyParser.get_data (ReplyParser.reset p1) = payload ls1 /\
  parsed_as p2 m2 (payload ls1 +:+ payload ls2) flag2.
Proof.
  intros Hm1 Hm2 Hls1 Hls2 Hn1 Hn2 p1 p2.
  pose proof (feed_reply_from ReplyParser.new m1 flag1 ls1 eq_refl Hm1 Hls1 Hn1) as H1.
  change (ReplyParser.lines ReplyParser.new) with ""%string in H1.
  rewrite append_nil in H1. fold p1 in H1.
  assert (Hd : ReplyParser.get_data (ReplyParser.reset p1) = payload ls1).
  { destruct H1 as (_ & _ & Hd & _). exact Hd. }
  split; [exact H1|]. split; [exact Hd|].
  pose proof (feed_reply_from (ReplyParser.reset p1) m2 flag2 ls2 eq_refl Hm2 Hls2 Hn2)
    as H2.
  fold p2 in H2. unfold ReplyParser.get_data in Hd. rewrite Hd in H2. exact H2.
Qed.

Lemma reset_keeps_data_witness :
  ReplyParser.get_data
    (ReplyParser.feed_all (reply_lines "LIST_BACKENDS" true ["b@/dev/ir1"])
       (ReplyParser.reset
          (ReplyParser.feed_all (reply_lines "GET_BACKEND_INFO" true ["std 4711 acme /dev/ir0"])
                                ReplyParser.new)))
  = payload ["std 4711 acme /dev/ir0"] +:+ payload ["b@/dev/ir1"].
Proof.
  assert (H1 : Forall (fun l => clean_line l = true) ["std 4711 acme /dev/ir0"%string])
    by (repeat constructor).
  assert (H2 : Forall (fun l => clean_line l = true) ["b@/dev/ir1"%string])
    by (repeat constructor).
  assert (Hn : (1 <= 1 <= 99)%nat) by lia.
  exact (proj1 (proj2 (proj2 (proj2 (proj2
           (reset_keeps_data "GET_BACKEND_INFO" "LIST_BACKENDS" true true
              ["std 4711 acme /dev/ir0"] ["b@/dev/ir1"] eq_refl eq_refl H1 H2 Hn Hn)))))).
Defined.

Lemma find_last_not_of_all_in d s : all_in d s = true -> find_last_not_of d s = None.
Proof.
  induction s as [|c s IH]; simpl; [reflexivity|]. intros H.
  apply andb_true_iff in H as [Hc Hs]. rewrite (IH Hs), Hc. reflexivity.
Qed.

Lemma trim_input_tail l c t :
  last_char l = Some c -> in_set c WS_TNR = false -> all_in WS_TNR t = true ->
  ReplyParser.trim_input (l +:+ t) = l.
Proof.
  intros Hc Hin Ht. unfold ReplyParser.trim_input.
  rewrite (last_char_clean l c Hc Hin t Ht).
  assert (Hlen : (1 <= String.length l)%nat) by (destruct l; [discriminate|simpl; lia]).
  replace (S (String.length l - 1)) with (String.length l) by lia.
  apply prefix_length_app.
Qed.

(** X23: the parser cuts white space (blank, tab, newline, carriage
    return) from the end of each line before it looks at it, so a line
    fed with or without its line terminator is taken the same way.  A
    line that holds white space only is not cut: fed where the command
    is expected, it is taken as the command. *)
Theorem feed_cuts_trailing_space :
  (forall l c t p,
     last_char l = Some c -> in_set c WS_TNR = false -> all_in WS_TNR t = true ->
     ReplyParser.feed (l +:+ t) p = ReplyParser.feed l p /\
     ReplyParser.get_last_line (ReplyParser.feed (l +:+ t) p) = l) /\
  (forall s p,
     s <> "" -> all_in WS_TNR s = true ->
     ReplyParser.state p = ReplyParser.COMMAND ->
     ReplyParser.state (ReplyParser.feed s p) = ReplyParser.RESULT /\
     ReplyParser.get_command (ReplyParser.feed s p) = s).
Proof.
  split.
  - intros l c t p Hc Hin Ht.
    assert (E1 : ReplyParser.trim_input (l +:+ t) = l)
      by (apply (trim_input_tail l c t); assumption).
    assert (E2 : ReplyParser.trim_input l = l).
    { rewrite <- (append_empty_r l) at 1. apply (trim_input_tail l c ""); auto. }
    split.
    + apply feed_trim. rewrite E1, E2. reflexivity.
    + unfold ReplyParser.get_last_line, ReplyParser.feed. rewrite E1.
      cbn [ReplyParser.state ReplyParser.command ReplyParser.lines ReplyParser.last_line
           ReplyParser.line_count ReplyParser.success].
      destruct (ReplyParser.state p); try reflexivity.
      * destruct (negb (String.eqb l "")); reflexivity.
      * destruct (String.eqb l "SUCCESS" || String.eqb l "ERROR"); reflexivity.
      * destruct (String.eqb l "DATA"); reflexivity.
      * destruct (Scan.scan_d 2 l) as [[n r]|]; reflexivity.
  - intros s p Hs Hall Hst. unfold ReplyParser.feed, ReplyParser.trim_input.
    rewrite (find_last_not_of_all_in WS_TNR s Hall).
    cbn [ReplyParser.state ReplyParser.command ReplyParser.lines ReplyParser.last_line
         ReplyParser.line_count ReplyParser.success].
    rewrite Hst, (eqb_nonempty s Hs). split; reflexivity.
Qed.

Lemma feed_cuts_trailing_space_witness :
  ReplyParser.feed ("SUCCESS" +:+ String cr NL) (ReplyParser.feed_all ["BEGIN"; "VERSION"]
                                                                    ReplyParser.new)
  = ReplyParser.feed "SUCCESS" (ReplyParser.feed_all ["BEGIN"; "VERSION"] ReplyParser.new) /\
  ReplyParser.get_command (ReplyParser.feed " " (ReplyParser.feed "BEGIN" ReplyParser.new))
  = " "%string.
Proof.
  destruct feed_cuts_trailing_space as [H1 H2]. split.
  - apply (H1 "SUCCESS"%string "S"%char (String cr NL)); reflexivity.
  - apply (H2 " "%string (ReplyParser.feed "BEGIN" ReplyParser.new));
      [discriminate|reflexivity|reflexivity].
Defined.

Lemma feed_past_result l p :
  past_result p = true ->
  past_result (ReplyParser.feed l p) = true /\
  ReplyParser.command (ReplyParser.feed l p) = ReplyParser.command p /\
  ReplyParser.success (ReplyParser.feed l p) = ReplyParser.success p.
Proof.
  destruct p as [st c ls ll lc s]. unfold past_result, ReplyParser.feed.
  cbn [ReplyParser.state ReplyParser.command ReplyParser.lines ReplyParser.last_line
       ReplyParser.line_count ReplyParser.success].
  destruct st; intros H; try discriminate H.
  - destruct (String.eqb _ "DATA"); [repeat split; reflexivity|].
    destruct (String.eqb _ "END"); repeat split; reflexivity.
  - destruct (Scan.scan_d 2 _) as [[n r]|]; repeat split; reflexivity.
  - cbn [ReplyParser.state ReplyParser.command ReplyParser.success].
    destruct (lc - 1 <=? 0); [repeat split; reflexivity|].
    destruct (negb (String.eqb _ "")); repeat split; reflexivity.
  - destruct (String.eqb _ "END"); repeat split; reflexivity.
  - repeat split; reflexivity.
  - repeat split; reflexivity.
  - repeat split; reflexivity.
Qed.

Lemma feed_all_past_result ls : forall p,
  past_result p = true ->
  ReplyParser.command (ReplyParser.feed_all ls p) = ReplyParser.command p /\
  ReplyParser.success (ReplyParser.feed_all ls p) = ReplyParser.success p.
Proof.
  induction ls as [|l ls IH]; intros p Hp; [split; reflexivity|].
  change (ReplyParser.feed_all (l :: ls) p)
    with (ReplyParser.feed_all ls (ReplyParser.feed l p)).
  destruct (feed_past_result l p Hp) as (H1 & H2 & H3).
  destruct (IH _ H1) as (H4 & H5). rewrite H4, H5, H2, H3. split; reflexivity.
Qed.

Lemma feed_all_bad ls p :
  ReplyParser.state p = ReplyParser.BAD_DATA ->
  ReplyParser.state (ReplyParser.feed_all ls p) <> ReplyParser.DONE.
Proof.
  intros Hp.
  assert (Hc : ReplyParser.is_completed p = true)
    by (unfold ReplyParser.is_completed; rewrite Hp; reflexivity).
  destruct (feed_all_completed ls p Hc) as (H & _). rewrite H, Hp. discriminate.
Qed.

Lemma feed_at_begin l p :
  ReplyParser.state p = ReplyParser.BEGIN ->
  (ReplyParser.trim_input l = "BEGIN"%string /\
   ReplyParser.state (ReplyParser.feed l p) = ReplyParser.COMMAND) \/
  ReplyParser.state (ReplyParser.feed l p) = ReplyParser.BAD_DATA.
Proof.
  intros Hst. unfold ReplyParser.feed.
  cbn [ReplyParser.state ReplyParser.command ReplyParser.lines ReplyParser.last_line
       ReplyParser.line_count ReplyParser.success].
  rewrite Hst. destruct (String.eqb_spec (ReplyParser.trim_input l) "BEGIN") as [E|E].
  - left. split; [exact E|reflexivity].
  - right. reflexivity.
Qed.

Lemma feed_at_command l p :
  ReplyParser.state p = ReplyParser.COMMAND ->
  (ReplyParser.trim_input l <> ""%string /\
   ReplyParser.state (ReplyParser.feed l p) = ReplyParser.RESULT /\
   ReplyParser.command (ReplyParser.feed l p) = ReplyParser.trim_input l) \/
  ReplyParser.state (ReplyParser.feed l p) = ReplyParser.BAD_DATA.
Proof.
  intros Hst. unfold ReplyParser.feed.
  cbn [ReplyParser.state ReplyParser.command ReplyParser.lines ReplyParser.last_line
       ReplyParser.line_count ReplyParser.success].
  rewrite Hst. destruct (String.eqb_spec (ReplyParser.trim_input l) "") as [E|E].
  - right. reflexivity.
  - left. split; [exact E|]. split; reflexivity.
Qed.

Lemma feed_at_result l p :
  ReplyParser.state p = ReplyParser.RESULT ->
  (ReplyParser.state (ReplyParser.feed l p) = ReplyParser.DATA /\
   ReplyParser.command (ReplyParser.feed l p) = ReplyParser.command p /\
   ((ReplyParser.trim_input l = "SUCCESS"%string /\
     ReplyParser.success (ReplyParser.feed l p) = true) \/
    (ReplyParser.trim_input l = "ERROR"%string /\
     ReplyParser.success (ReplyParser.feed l p) = false))) \/
  ReplyParser.state (ReplyParser.feed l p) = ReplyParser.BAD_DATA.
Proof.
  intros Hst. unfold ReplyParser.feed.
  cbn [ReplyParser.state ReplyParser.command ReplyParser.lines ReplyParser.last_line
       ReplyParser.line_count ReplyParser.success].
  rewrite Hst. destruct (String.eqb_spec (ReplyParser.trim_input l) "SUCCESS") as [E|E].
  - left. split; [reflexivity|]. split; [reflexivity|]. left. split; [exact E|reflexivity].
  - destruct (String.eqb_spec (ReplyParser.trim_input l) "ERROR") as [E'|E'].
    + left. split; [reflexivity|]. split; [reflexivity|]. right.
      split; [exact E'|reflexivity].
    + right. reflexivity.
Qed.

(** X24: what a reply that the parser completes as [DONE] looks like.  A
    fresh parser reaches [DONE] only on at least four lines of which,
    white space at the end of a line apart, the first is BEGIN, the
    second is not empty and the third is SUCCESS or ERROR; the command it
    reports is that second line and its result is OK for SUCCESS and
    FAIL for ERROR.  Anything else is never reported as a completed
    reply. *)
Theorem done_reply_shape (ls : list string) :
  ReplyParser.state (ReplyParser.feed_all ls ReplyParser.new) = ReplyParser.DONE ->
  exists l0 l1 l2 l3 rest,
    ls = l0 :: l1 :: l2 :: l3 :: rest /\
    ReplyParser.trim_input l0 = "BEGIN"%string /\
    ReplyParser.trim_input l1 <> ""%string /\
    ReplyParser.get_command (ReplyParser.feed_all ls ReplyParser.new)
      = ReplyParser.trim_input l1 /\
    ((ReplyParser.trim_input l2 = "SUCCESS"%string /\
      ReplyParser.get_result (ReplyParser.feed_all ls ReplyParser.new) = ReplyParser.OK) \/
     (ReplyParser.trim_input l2 = "ERROR"%string /\
      ReplyParser.get_result (ReplyParser.feed_all ls ReplyParser.new) = ReplyParser.FAIL)).
Proof.
  intros Hdone.
  destruct ls as [|l0 ls]; [discriminate Hdone|].
  change (ReplyParser.feed_all (l0 :: ls) ReplyParser.new)
    with (ReplyParser.feed_all ls (ReplyParser.feed l0 ReplyParser.new)) in *.
  destruct (feed_at_begin l0 ReplyParser.new eq_refl) as [[E0 S1]|B1];
    [|exfalso; exact (feed_all_bad ls _ B1 Hdone)].
  set (p1 := ReplyParser.feed l0 ReplyParser.new) in *.
  destruct ls as [|l1 ls];
    [unfold ReplyParser.feed_all in Hdone; cbn [fold_left] in Hdone; congruence|].
  change (ReplyParser.feed_all (l1 :: ls) p1)
    with (ReplyParser.feed_all ls (ReplyParser.feed l1 p1)) in *.
  destruct (feed_at_command l1 p1 S1) as [(E1 & S2 & C2)|B2];
    [|exfalso; exact (feed_all_bad ls _ B2 Hdone)].
  set (p2 := ReplyParser.feed l1 p1) in *.
  destruct ls as [|l2 ls];
    [unfold ReplyParser.feed_all in Hdone; cbn [fold_left] in Hdone; congruence|].
  change (ReplyParser.feed_all (l2 :: ls) p2)
    with (ReplyParser.feed_all ls (ReplyParser.feed l2 p2)) in *.
  destruct (feed_at_result l2 p2 S2) as [(S3 & C3 & E2)|B3];
    [|exfalso; exact (feed_all_bad ls _ B3 Hdone)].
  set (p3 := ReplyParser.feed l2 p2) in *.
  destruct ls as [|l3 rest];
    [unfold ReplyParser.feed_all in Hdone; cbn [fold_left] in Hdone; congruence|].
  assert (Hpast : past_result p3 = true) by (unfold past_result; rewrite S3; reflexivity).
  destruct (feed_all_past_result (l3 :: rest) p3 Hpast) as (Hc & Hs).
  exists l0, l1, l2, l3, rest. split; [reflexivity|]. split; [exact E0|].
  split; [exact E1|]. split.
  - unfold ReplyParser.get_command. rewrite Hc, C3, C2. reflexivity.
  - unfold ReplyParser.get_result. rewrite Hdone, Hs.
    destruct E2 as [[E2 ->]|[E2 ->]]; [left|right]; split; auto.
Qed.

Lemma done_reply_shape_witness :
  exists l0 l1 l2 l3 rest,
    ["BEGIN"; "VERSION"; "SUCCESS"; "DATA"; "1"; "0.10.0"; "END"]
      = l0 :: l1 :: l2 :: l3 :: rest /\
    ReplyParser.get_command
      (ReplyParser.feed_all ["BEGIN"; "VERSION"; "SUCCESS"; "DATA"; "1"; "0.10.0"; "END"]
                            ReplyParser.new) = ReplyParser.trim_input l1.
Proof.
  destruct (done_reply_shape ["BEGIN"; "VERSION"; "SUCCESS"; "DATA"; "1"; "0.10.0"; "END"]
              eq_refl) as (l0 & l1 & l2 & l3 & rest & H1 & _ & _ & H2 & _).
  exists l0, l1, l2, l3, rest. split; [exact H1|exact H2].
Defined.

(** * Messages and lines *)

Lemma strrchr_last s t :
  none_in NL t = true -> strrchr nl (s +:+ NL +:+ t) = Some (String.length s).
Proof.
  intros Ht. induction s as [|c s IH].
  - rewrite append_nil. change (NL +:+ t) with (String nl t). cbn [strrchr].
    rewrite (strrchr_none_in t Ht), Ascii.eqb_refl. reflexivity.
  - rewrite append_cons. cbn [strrchr]. rewrite IH. reflexivity.
Qed.

Lemma strip_trailing_nl_last s t :
  none_in NL t = true -> strip_trailing_nl (s +:+ NL +:+ t) = s.
Proof.
  intros Ht. unfold strip_trailing_nl. rewrite (strrchr_last s t Ht).
  apply prefix_length_app.
Qed.

(** X25: [strip_trailing_nl] cuts its buffer at the last newline, also
    when that newline is not the last character.  So [send_error], called
    with a message and a formatted text that its two buffers of 257 bytes
    hold with their terminators (at most 256 characters each), drops
    whatever follows the last newline of the message and of the text: the
    reply is the one for the message and the text up to that newline. *)
Theorem send_error_cuts_at_last_newline (m t text u : string) :
  none_in NL m = true -> none_in NL t = true ->
  none_in NL text = true -> none_in NL u = true ->
  send_error_fits (m +:+ NL +:+ t) (text +:+ NL +:+ u) = true ->
  strip_trailing_nl (m +:+ NL +:+ t) = m /\
  strip_trailing_nl m = m /\
  send_error_fits m text = true /\
  error_packet (m +:+ NL +:+ t) (text +:+ NL +:+ u) = error_packet m text.
Proof.
  intros Hm Ht Htext Hu Hfit.
  apply andb_true_iff in Hfit. destruct Hfit as [Hlen Hlen2].
  apply Nat.leb_le in Hlen, Hlen2. unfold PACKET_SIZE in Hlen, Hlen2.
  split; [apply strip_trailing_nl_last; exact Ht|].
  split; [apply strip_trailing_nl_none_in; exact Hm|].
  assert (Hlen' : (String.length m <= 256)%nat).
  { rewrite !length_append in Hlen. lia. }
  assert (Hlen2' : (String.length text <= 256)%nat).
  { rewrite !length_append in Hlen2. lia. }
  split.
  { unfold send_error_fits, PACKET_SIZE. apply andb_true_iff.
    split; apply Nat.leb_le; assumption. }
  unfold error_packet. unfold PACKET_SIZE.
  rewrite (strncpy_short 257 (m +:+ NL +:+ t)) by lia.
  rewrite (strncpy_short 257 m) by lia.
  rewrite (strip_trailing_nl_last m t Ht), (strip_trailing_nl_last text u Hu).
  rewrite (strip_trailing_nl_none_in m Hm), (strip_trailing_nl_none_in text Htext).
  reflexivity.
Qed.

Lemma send_error_cuts_at_last_newline_witness :
  error_packet ("LIST" +:+ NL +:+ "x") ("No such backend" +:+ NL +:+ "acme")
  = error_packet "LIST" "No such backend".
Proof.
  apply (send_error_cuts_at_last_newline "LIST" "x" "No such backend" "acme");
    reflexivity.
Defined.

Lemma handle_lines_app h ls1 : forall ls2 f w,
  handle_lines h (ls1 ++ ls2) f w =
  match handle_lines h ls1 f w with
  | Returned true w' => handle_lines h ls2 f w'
  | o => o
  end.
Proof.
  induction ls1 as [|l ls1 IH]; intros ls2 f w; [reflexivity|].
  simpl. destruct (h l f w) as [[|] w'|w']; [apply IH|reflexivity|reflexivity].
Qed.



(** * Registration of a backend, from connect to default backend *)

Lemma none_space_none_in s : none_space s = true -> none_in WS_TNR s = true.
Proof.
  induction s as [|c s IH]; [reflexivity|]. cbn [none_space none_in].
  intros H. apply andb_true_iff in H as [Hc Hs]. rewrite (IH Hs), andb_true_r.
  apply negb_true_iff in Hc. apply negb_true_iff.
  unfold isspace in Hc. cbn [in_set] in Hc. cbn [in_set WS_TNR].
  repeat (apply orb_false_iff in Hc as [? Hc]).
  repeat (apply orb_false_iff; split; try assumption).
Qed.

Lemma last_char_app a b : b <> "" -> last_char (a +:+ b) = last_char b.
Proof.
  intros Hb. induction a as [|c a IH]; [reflexivity|].
  change (String c a +:+ b) with (String c (a +:+ b)). cbn [last_char].
  destruct (a +:+ b) eqn:E; [|exact IH].
  destruct a; [simpl in E; contradiction|discriminate E].
Qed.

Lemma last_char_none_in d s :
  s <> "" -> none_in d s = true -> exists c, last_char s = Some c /\ in_set c d = false.
Proof.
  induction s as [|c s IH]; intros Hne H; [contradiction|].
  cbn [none_in] in H. apply andb_true_iff in H as [Hc Hs].
  destruct s as [|c' s'].
  - exists c. split; [reflexivity|]. apply negb_true_iff. exact Hc.
  - destruct (IH ltac:(discriminate) Hs) as (e & He & Hin). exists e. split; assumption.
Qed.

(** The answer to GET_BACKEND_INFO is a line the protocol carries as it
    is. *)
Lemma clean_info_line typ pid driver device :
  field 31 typ -> number_field 6 pid -> field 31 driver -> field 63 device ->
  clean_line (typ +:+ " " +:+ pid +:+ " " +:+ driver +:+ " " +:+ device) = true.
Proof.
  intros (_ & Ht & _) (_ & Hp & _) (_ & Hdr & _) (Hne & Hdev & _).
  apply all_digits_none_space in Hp.
  apply none_space_none_in in Ht, Hp, Hdr, Hdev.
  unfold clean_line. apply andb_true_iff. split.
  - rewrite !none_in_app.
    rewrite (none_in_NL_WS _ Ht), (none_in_NL_WS _ Hp), (none_in_NL_WS _ Hdr),
      (none_in_NL_WS _ Hdev). reflexivity.
  - assert (Hd : forall a, a +:+ device <> "").
    { intros a E. destruct a; [simpl in E; contradiction|discriminate E]. }
    assert (Hs : forall a b, a +:+ " " +:+ b <> "").
    { intros a b E. destruct a; discriminate E. }
    rewrite (last_char_app typ) by discriminate.
    rewrite (last_char_app " ") by apply Hs.
    rewrite (last_char_app pid) by discriminate.
    rewrite (last_char_app " ") by apply Hs.
    rewrite (last_char_app driver) by discriminate.
    rewrite (last_char_app " ") by exact Hne.
    destruct (last_char_none_in WS_TNR device Hne Hdev) as (e & -> & Hin).
    rewrite Hin. reflexivity.
Qed.

Lemma set_replyParser_same x : set_replyParser (replyParser x) x = x.
Proof. destruct x. reflexivity. Qed.

Lemma upd_alter_alter (g1 g2 : FdItem -> FdItem) (i : nat) (w : World) :
  upd_fdList (alter g2 i) (upd_fdList (alter g1 i) w) = upd_fdList (alter (g2 ∘ g1) i) w.
Proof.
  unfold upd_fdList, set_fdList. cbn [fdList env default_backend sent unlinked inputlog].
  rewrite list_alter_alter_eq. reflexivity.
Qed.

Lemma feed_first_incomplete l ls p :
  ReplyParser.is_completed (ReplyParser.feed_all (l :: ls) p) = false ->
  ReplyParser.is_completed (ReplyParser.feed l p) = false.
Proof.
  intros H. destruct (ReplyParser.is_completed (ReplyParser.feed l p)) eqn:E; [|reflexivity].
  destruct (feed_all_completed ls (ReplyParser.feed l p) E) as (Hst & _).
  change (ReplyParser.feed_all (l :: ls) p)
    with (ReplyParser.feed_all ls (ReplyParser.feed l p)) in H.
  unfold ReplyParser.is_completed in H, E. rewrite Hst in H. congruence.
Qed.

Lemma handle_backend_line_local (line : string) (f : Z) (w : World) (bi : nat) (x : FdItem) :
  FdList.find_fd f (fdList w) = Some bi -> fdList w !! bi = Some x -> connected_to x = 0 ->
  handle_backend_line line f w = handle_local_reply line f w.
Proof. intros Hf Hx Hc. unfold handle_backend_line. rewrite Hf, Hx, Hc. reflexivity. Qed.

(** A line that does not complete the reply only advances the parser of
    the record. *)
Lemma handle_local_reply_incomplete (line : string) (f : Z) (w : World) (bi : nat)
    (x : FdItem) :
  FdList.find_fd f (fdList w) = Some bi -> fdList w !! bi = Some x ->
  ReplyParser.is_completed (ReplyParser.feed line (replyParser x)) = false ->
  handle_local_reply line f w =
  Returned true
    (upd_fdList (alter (set_replyParser (ReplyParser.feed line (replyParser x))) bi) w).
Proof.
  intros Hf Hx Hn. unfold handle_local_reply. rewrite Hf, Hx, Hn. reflexivity.
Qed.

Lemma handle_lines_local_incomplete (ls : list string) (f : Z) (bi : nat) :
  forall (w : World) (x : FdItem),
  FdList.find_fd f (fdList w) = Some bi -> fdList w !! bi = Some x -> connected_to x = 0 ->
  ReplyParser.is_completed (ReplyParser.feed_all ls (replyParser x)) = false ->
  handle_lines handle_backend_line ls f w =
  Returned true
    (upd_fdList (alter (set_replyParser (ReplyParser.feed_all ls (replyParser x))) bi) w).
Proof.
  induction ls as [|l ls IH]; intros w x Hf Hx Hc Hn.
  - cbn [handle_lines]. f_equal. unfold upd_fdList.
    change (ReplyParser.feed_all [] (replyParser x)) with (replyParser x).
    rewrite <- (set_fdList_same w) at 1. f_equal.
    apply list_eq. intros j. destruct (decide (j = bi)) as [->|Hne].
    + rewrite list_lookup_alter_eq, Hx. simpl. rewrite set_replyParser_same. reflexivity.
    + rewrite list_lookup_alter_ne by auto. reflexivity.
  - cbn [handle_lines].
    rewrite (handle_backend_line_local l f w bi x Hf Hx Hc).
    rewrite (handle_local_reply_incomplete l f w bi x Hf Hx (feed_first_incomplete l ls _ Hn)).
    set (p1 := ReplyParser.feed l (replyParser x)).
    rewrite (IH (upd_fdList (alter (set_replyParser p1) bi) w) (set_replyParser p1 x)).
    + rewrite upd_alter_alter. reflexivity.
    + cbn [fdList upd_fdList set_fdList]. rewrite find_fd_alter by reflexivity. exact Hf.
    + cbn [fdList upd_fdList set_fdList]. rewrite list_lookup_alter_eq, Hx. reflexivity.
    + exact Hc.
    + exact Hn.
Qed.

Lemma get_result_OK p :
  ReplyParser.get_result p = ReplyParser.OK -> ReplyParser.get_success p = true.
Proof.
  unfold ReplyParser.get_result, ReplyParser.get_success.
  destruct (ReplyParser.state p); try discriminate.
  destruct (ReplyParser.success p); [reflexivity|discriminate].
Qed.

(** The world after the line that completes the answer to
    GET_BACKEND_INFO. *)
Lemma local_info_world (w : World) (f : Z) (bi : nat) (x : FdItem) (line : string)
    (typ pid driver device : string) :
  let p := ReplyParser.feed line (replyParser x) in
  FdList.find_fd f (fdList w) = Some bi -> fdList w !! bi = Some x ->
  ReplyParser.is_completed p = true ->
  ReplyParser.get_result p = ReplyParser.OK ->
  ReplyParser.get_command p = "GET_BACKEND_INFO" ->
  ReplyParser.get_data p =
    typ +:+ " " +:+ pid +:+ " " +:+ driver +:+ " " +:+ device +:+ NL ->
  field 31 typ -> number_field 6 pid -> field 31 driver -> field 63 device ->
  handle_local_reply line f w =
  Returned true
    (write_socket f ("SET_DATA_SOCKET " +:+ get_backend_data_path f w +:+ NL)
       (upd_fdList
          (alter (fun y => set_replyParser (ReplyParser.reset p)
                             (set_id (driver +:+ "@" +:+ device) y)) bi) w)).
Proof.
  intros p Hf Hx Hdone Hok Hcmd Hdata Ht Hp Hdr Hdev. subst p.
  unfold handle_local_reply. rewrite Hf, Hx. rewrite Hdone, Hok, Hcmd.
  change (String.eqb "GET_BACKEND_INFO" "GET_BACKEND_INFO") with true. cbv iota.
  unfold handle_get_backend_info_reply.
  cbn [fdList upd_fdList set_fdList].
  rewrite find_fd_alter by reflexivity. rewrite Hf.
  rewrite list_lookup_alter_eq, Hx.
  cbn [fmap option_fmap option_map replyParser set_replyParser].
  rewrite Hdata.
  rewrite (scan_backend_info_within typ pid driver device Ht Hp Hdr Hdev).
  destruct (scan_backend_info_fields typ pid driver device
              (field_weaken 31 32 typ ltac:(lia) Ht) Hp
              (field_weaken 31 32 driver ltac:(lia) Hdr)
              (field_weaken 63 64 device ltac:(lia) Hdev)) as (pv & ->).
  f_equal. unfold write_socket, upd_fdList, set_fdList, get_backend_data_path.
  cbn [fdList env default_backend sent unlinked inputlog].
  rewrite !list_alter_alter_eq. reflexivity.
Qed.

(** The world after the line that completes the answer to
    SET_DATA_SOCKET. *)
Lemma local_socket_world (w : World) (f : Z) (bi : nat) (x : FdItem) (line : string) :
  let p := ReplyParser.feed line (replyParser x) in
  FdList.find_fd f (fdList w) = Some bi -> fdList w !! bi = Some x ->
  connected_to x = 0 ->
  ReplyParser.is_completed p = true ->
  ReplyParser.get_result p = ReplyParser.OK ->
  ReplyParser.get_command p = "SET_DATA_SOCKET" ->
  handle_local_reply line f w =
  Returned true
    (unlink (get_backend_data_path f w)
       (commands_set_backend f
          (upd_fdList
             (alter (fun y => set_replyParser (ReplyParser.reset p)
                                (set_connected_to (-1) y)) bi) w))).
Proof.
  intros p Hf Hx Hc Hdone Hok Hcmd. subst p.
  unfold handle_local_reply. rewrite Hf, Hx. rewrite Hdone, Hok, Hcmd.
  change (String.eqb "SET_DATA_SOCKET" "GET_BACKEND_INFO") with false.
  change (String.eqb "SET_DATA_SOCKET" "SET_DATA_SOCKET") with true. cbv iota.
  unfold handle_data_socket_reply.
  cbn [fdList upd_fdList set_fdList].
  rewrite find_fd_alter by reflexivity. rewrite Hf.
  rewrite list_lookup_alter_eq, Hx.
  cbn [fmap option_fmap option_map replyParser set_replyParser].
  rewrite (get_result_OK _ Hok).
  unfold disconnect_fds, disconnect_fds_list.
  cbn [fdList upd_fdList set_fdList commands_set_backend unlink].
  rewrite find_fd_alter by reflexivity. rewrite Hf.
  rewrite list_lookup_alter_eq, Hx.
  cbn [fmap option_fmap option_map connected_to set_replyParser].
  rewrite Hc. change (0 =? 0) with true. cbv iota.
  f_equal. unfold upd_fdList, set_fdList, get_backend_data_path.
  cbn [fdList env default_backend sent unlinked inputlog snd].
  rewrite !list_alter_alter_eq. reflexivity.
Qed.

Lemma find_fd_pair (c d : Z) (l : list FdItem) (a b : FdItem) :
  c <> d -> FdList.find_fd c l = None -> fd a = d -> fd b = c ->
  FdList.find_fd c (l ++ [a; b]) = Some (S (length l)).
Proof.
  intros Hne Hn Ha Hb. rewrite find_fd_app, Hn.
  unfold FdList.find_fd, FdList.item_fd_equals. simpl. rewrite Ha, Hb.
  destruct (Z.eqb_spec d c); [congruence|]. rewrite Z.eqb_refl. simpl.
  rewrite Nat.add_1_r. reflexivity.
Qed.

Lemma lookup_pair (l : list FdItem) (a b : FdItem) : (l ++ [a; b]) !! S (length l) = Some b.
Proof.
  rewrite lookup_app_r by lia. replace (S (length l) - length l)%nat with 1%nat by lia.
  reflexivity.
Qed.

Lemma alter_pair (g : FdItem -> FdItem) (l : list FdItem) (a b : FdItem) :
  alter g (S (length l)) (l ++ [a; b]) = l ++ [a; g b].
Proof. rewrite <- (Nat.add_1_r (length l)), alter_app_r. reflexivity. Qed.

(** X28: the registration of a backend from end to end.  After
    [add_backend] has entered the pair of records, the backend's answer to
    GET_BACKEND_INFO, a packet with the one data line
    ["<type> <pid> <driver> <device>"], and then its SUCCESS answer to
    SET_DATA_SOCKET are read line by line on the command socket.  This
    leaves the command record with the id [driver@device] and
    [connected_to] -1, its parser ready for a new reply, the fifo record
    as it was entered and the rest of the registry untouched; the backend
    is the default backend, it has been sent exactly the two commands in
    that order, and the path of its pipe has been unlinked. *)
Theorem backend_registration (cmd_fd data_fd : Z) (w : World)
    (typ pid driver device : string) :
  cmd_fd <> data_fd ->
  FdList.find_fd cmd_fd (fdList w) = None -> FdList.find_fd data_fd (fdList w) = None ->
  field 31 typ -> number_field 6 pid -> field 31 driver -> field 63 device ->
  let info := typ +:+ " " +:+ pid +:+ " " +:+ driver +:+ " " +:+ device in
  let path := get_backend_data_path cmd_fd w in
  exists (w1 w2 : World) (p : ReplyParser.t),
    add_backend cmd_fd data_fd w = Returned tt w1 /\
    handle_lines handle_backend_line (reply_lines "GET_BACKEND_INFO" true [info]) cmd_fd w1
      = Returned true w2 /\
    handle_lines handle_backend_line ["BEGIN"; "SET_DATA_SOCKET"; "SUCCESS"; "END"] cmd_fd w2
      = Returned true
          (mkWorld (env w)
             (fdList w ++
                [mkFdItem BACKEND_DATA data_fd (-1) cmd_fd (-1) "undef" ReplyParser.new
                          "NONE" (-1);
                 mkFdItem BACKEND_CMD cmd_fd (-1) data_fd (-1) (driver +:+ "@" +:+ device) p
                          "NONE" (-1)])
             cmd_fd
             (sent w ++ [(cmd_fd, "GET_BACKEND_INFO" +:+ NL);
                         (cmd_fd, "SET_DATA_SOCKET " +:+ path +:+ NL)])
             (unlinked w ++ [path]) (inputlog w)) /\
    ReplyParser.state p = ReplyParser.BEGIN.
Proof.
  intros Hne Hc Hd Ht Hp Hdr Hdev info path.
  set (l := fdList w).
  set (bi := S (length l)).
  set (di := mkFdItem BACKEND_DATA data_fd (-1) cmd_fd (-1) "undef" ReplyParser.new
                      "NONE" (-1)).
  set (item := fun (c : Z) (i : string) (q : ReplyParser.t) =>
                 mkFdItem BACKEND_CMD cmd_fd c data_fd (-1) i q "NONE" (-1)).
  set (s1 := sent w ++ [(cmd_fd, "GET_BACKEND_INFO" +:+ NL)]).
  set (world := fun (x : FdItem) (df : Z) (s : list (Z * string)) (u : list string) =>
                  mkWorld (env w) (l ++ [di; x]) df s u (inputlog w)).
  assert (Hfind : forall c i q df s u,
             FdList.find_fd cmd_fd (fdList (world (item c i q) df s u)) = Some bi).
  { intros. apply (find_fd_pair cmd_fd data_fd); [exact Hne|exact Hc|reflexivity|reflexivity]. }
  assert (Hlook : forall x df s u, fdList (world x df s u) !! bi = Some x).
  { intros. apply lookup_pair. }
  assert (Hupd : forall g x df s u,
             upd_fdList (alter g bi) (world x df s u) = world (g x) df s u).
  { intros. unfold upd_fdList, set_fdList, world.
    cbn [fdList env default_backend sent unlinked inputlog].
    unfold bi. rewrite alter_pair. reflexivity. }
  (* the parser during the first reply *)
  pose proof (clean_info_line typ pid driver device Ht Hp Hdr Hdev) as Hcl. fold info in Hcl.
  set (head := ["BEGIN"; "GET_BACKEND_INFO"; "SUCCESS"; "DATA"; dec (Z.of_nat 1)]%string).
  destruct (feed_head_from ReplyParser.new "GET_BACKEND_INFO" true 1 eq_refl eq_refl
              ltac:(lia)) as (S5 & C5 & L5 & N5 & B5).
  cbv zeta in S5, C5, L5, N5, B5.
  change (ReplyParser.feed_all _ ReplyParser.new)
    with (ReplyParser.feed_all head ReplyParser.new) in S5, C5, L5, N5, B5.
  set (p5 := ReplyParser.feed_all head ReplyParser.new) in *.
  destruct (feed_lines [info] p5 (Forall_cons_2 _ _ _ Hcl (Forall_nil_2 _))
              ltac:(discriminate) S5 N5) as (S6 & C6 & L6 & B6).
  cbv zeta in S6, C6, L6, B6.
  set (p6 := ReplyParser.feed_all [info] p5) in *.
  assert (E6 : ReplyParser.feed_all (head ++ [info]) ReplyParser.new = p6)
    by apply feed_all_app.
  destruct (step_end p6 (or_introl S6)) as (S7 & C7 & L7 & B7).
  cbv zeta in S7, C7, L7, B7.
  set (p7 := ReplyParser.feed "END" p6) in *.
  (* the parser during the second reply *)
  set (q0 := ReplyParser.reset p7).
  destruct (step_begin q0 eq_refl) as (T1 & _). cbv zeta in T1.
  set (q1 := ReplyParser.feed "BEGIN" q0) in *.
  destruct (step_command "SET_DATA_SOCKET" q1 eq_refl T1) as (T2 & D2 & _).
  cbv zeta in T2, D2.
  set (q2 := ReplyParser.feed "SET_DATA_SOCKET" q1) in *.
  destruct (step_result true q2 T2) as (T3 & D3 & _ & F3). cbv zeta iota in T3, D3, F3.
  set (q3 := ReplyParser.feed "SUCCESS" q2) in *.
  destruct (step_end q3 (or_intror T3)) as (T4 & D4 & _ & F4). cbv zeta in T4, D4, F4.
  set (q4 := ReplyParser.feed "END" q3) in *.
  exists (world (item 0 "undef" ReplyParser.new) (default_backend w) s1 (unlinked w)).
  exists (world (item 0 (driver +:+ "@" +:+ device) q0) (default_backend w)
                (s1 ++ [(cmd_fd, "SET_DATA_SOCKET " +:+ path +:+ NL)]) (unlinked w)).
  exists (ReplyParser.reset q4).
  split; [exact (add_backend_world cmd_fd data_fd w Hne Hc Hd)|].
  split; [|split; [|reflexivity]].
  - change (reply_lines "GET_BACKEND_INFO" true [info]) with ((head ++ [info]) ++ ["END"]%string).
    rewrite handle_lines_app.
    rewrite (handle_lines_local_incomplete (head ++ [info]) cmd_fd bi _
               (item 0 "undef" ReplyParser.new) (Hfind _ _ _ _ _ _) (Hlook _ _ _ _) eq_refl).
    2:{ cbn [replyParser item]. rewrite E6. unfold ReplyParser.is_completed.
        rewrite S6. reflexivity. }
    cbn [replyParser item]. rewrite E6, Hupd.
    change (set_replyParser p6 (item 0 "undef" ReplyParser.new)) with (item 0 "undef" p6).
    cbn [handle_lines].
    rewrite (handle_backend_line_local "END" cmd_fd _ bi (item 0 "undef" p6)
               (Hfind _ _ _ _ _ _) (Hlook _ _ _ _) eq_refl).
    rewrite (local_info_world _ cmd_fd bi (item 0 "undef" p6) "END" typ pid driver device
               (Hfind _ _ _ _ _ _) (Hlook _ _ _ _)).
    + rewrite Hupd. reflexivity.
    + cbn [replyParser item]. fold p7. unfold ReplyParser.is_completed. rewrite S7.
      reflexivity.
    + cbn [replyParser item]. fold p7. unfold ReplyParser.get_result. rewrite S7, B7, B6, B5.
      reflexivity.
    + cbn [replyParser item]. fold p7. unfold ReplyParser.get_command.
      rewrite C7, C6, C5. reflexivity.
    + cbn [replyParser item]. fold p7. unfold ReplyParser.get_data.
      rewrite L7, L6, L5. cbn [payload]. unfold info.
      change (ReplyParser.lines ReplyParser.new) with ""%string.
      change (NL +:+ "") with NL. change ("" +:+ ?a) with a.
      rewrite !append_assoc. reflexivity.
    + exact Ht.
    + exact Hp.
    + exact Hdr.
    + exact Hdev.
  - change ["BEGIN"; "SET_DATA_SOCKET"; "SUCCESS"; "END"]%string
      with (["BEGIN"; "SET_DATA_SOCKET"; "SUCCESS"] ++ ["END"])%list.
    rewrite handle_lines_app.
    rewrite (handle_lines_local_incomplete ["BEGIN"; "SET_DATA_SOCKET"; "SUCCESS"]%string
               cmd_fd bi _ (item 0 (driver +:+ "@" +:+ device) q0)
               (Hfind _ _ _ _ _ _) (Hlook _ _ _ _) eq_refl).
    2:{ cbn [replyParser item]. unfold ReplyParser.feed_all. cbn [fold_left].
        fold q1 q2 q3. unfold ReplyParser.is_completed. rewrite T3. reflexivity. }
    cbn [replyParser item]. unfold ReplyParser.feed_all. cbn [fold_left]. fold q1 q2 q3.
    rewrite Hupd.
    change (set_replyParser q3 (item 0 (driver +:+ "@" +:+ device) q0))
      with (item 0 (driver +:+ "@" +:+ device) q3).
    cbn [handle_lines].
    rewrite (handle_backend_line_local "END" cmd_fd _ bi
               (item 0 (driver +:+ "@" +:+ device) q3)
               (Hfind _ _ _ _ _ _) (Hlook _ _ _ _) eq_refl).
    rewrite (local_socket_world _ cmd_fd bi (item 0 (driver +:+ "@" +:+ device) q3) "END"
               (Hfind _ _ _ _ _ _) (Hlook _ _ _ _) eq_refl).
    + rewrite Hupd. unfold world, unlink, commands_set_backend, s1.
      cbn [fdList env default_backend sent unlinked inputlog].
      rewrite <- app_assoc. reflexivity.
    + cbn [replyParser item]. fold q4. unfold ReplyParser.is_completed. rewrite T4.
      reflexivity.
    + cbn [replyParser item]. fold q4. unfold ReplyParser.get_result. rewrite T4, F4, F3.
      reflexivity.
    + cbn [replyParser item]. fold q4. unfold ReplyParser.get_command.
      rewrite D4, D3, D2. reflexivity.
Qed.

Lemma backend_registration_witness :
  exists (w1 w2 : World) (p : ReplyParser.t),
    add_backend 7 8 w_boot = Returned tt w1 /\
    handle_lines handle_backend_line
      (reply_lines "GET_BACKEND_INFO" true ["std 4711 acme /dev/ir0"]) 7 w1
      = Returned true w2 /\
    handle_lines handle_backend_line ["BEGIN"; "SET_DATA_SOCKET"; "SUCCESS"; "END"] 7 w2
      = Returned true
          (mkWorld (env w_boot)
             (fdList w_boot ++
                [mkFdItem BACKEND_DATA 8 (-1) 7 (-1) "undef" ReplyParser.new "NONE" (-1);
                 mkFdItem BACKEND_CMD 7 (-1) 8 (-1) "acme@/dev/ir0" p "NONE" (-1)])
             7
             (sent w_boot ++ [(7, "GET_BACKEND_INFO" +:+ NL);
                              (7, "SET_DATA_SOCKET " +:+ get_backend_data_path 7 w_boot
                                  +:+ NL)])
             (unlinked w_boot ++ [get_backend_data_path 7 w_boot]) (inputlog w_boot)) /\
    ReplyParser.state p = ReplyParser.BEGIN.
Proof.
  assert (Hf : forall n s, s <> "" -> none_space s = true -> (String.length s <= n)%nat ->
                field n s) by (intros n s H1 H2 H3; repeat split; assumption).
  assert (Hn : forall n s, s <> "" -> all_digits s = true -> (String.length s <= n)%nat ->
                number_field n s) by (intros n s H1 H2 H3; repeat split; assumption).
  exact (backend_registration 7 8 w_boot "std" "4711" "acme" "/dev/ir0"
           ltac:(discriminate) eq_refl eq_refl
           (Hf 31%nat "std" ltac:(discriminate) eq_refl ltac:(simpl; lia))
           (Hn 6%nat "4711" ltac:(discriminate) eq_refl ltac:(simpl; lia))
           (Hf 31%nat "acme" ltac:(discriminate) eq_refl ltac:(simpl; lia))
           (Hf 63%nat "/dev/ir0" ltac:(discriminate) eq_refl ltac:(simpl; lia))).
Defined.
